(** * YubiKey device-info resolution: a shallow embedding

    The development follows [yubikit/support.py] (resolvers, the
    normalization phase of [read_info], the naming resolver [get_name]) and
    [ykman/driver_ccid.py] ([CCIDDriver.read_capabilities]).

    Python integers and [IntFlag] values are [Z]; the per-transport
    dictionaries are finite maps keyed by [TRANSPORT]; exceptions are an
    explicit result type threaded through a state monad over the connection. *)

From Stdlib Require Import ZArith String Ascii List Bool Lia DecimalString.
From Stdlib.Strings Require Import Byte.
From stdpp Require Import base numbers option gmap.

Local Open Scope string_scope.
Local Open Scope Z_scope.

(** ** yubikit.core: versions, transports, key types, exceptions *)

Module Core.

(** Modelled from the spec: [Version] is declared in yubikit/core, which is
    not among the sources; section 3 has it as an ordered triple (major,
    minor, patch) of integers. *)
Record Version : Type := mkVersion { major : Z; minor : Z; patch : Z }.

(** Python orders tuples lexicographically. *)
Definition version_compare (a b : Version) : comparison :=
  match major a ?= major b with
  | Eq => match minor a ?= minor b with
          | Eq => patch a ?= patch b
          | c => c
          end
  | c => c
  end.

Definition version_eqb (a b : Version) : bool :=
  match version_compare a b with Eq => true | _ => false end.

Definition version_ltb (a b : Version) : bool :=
  match version_compare a b with Lt => true | _ => false end.

Definition version_leb (a b : Version) : bool :=
  match version_compare a b with Gt => false | _ => true end.

Definition version_geb (a b : Version) : bool := version_leb b a.

(** Modelled from the spec: [Version.__str__] lives in yubikit/core, which is
    not among the sources; a version prints as its three decimal components
    separated by dots. *)
Definition version_str (v : Version) : string :=
  NilZero.string_of_int (Z.to_int (major v)) ++ "." ++
  NilZero.string_of_int (Z.to_int (minor v)) ++ "." ++
  NilZero.string_of_int (Z.to_int (patch v)).

(** Modelled from the spec: [TRANSPORT] is declared in yubikit/core, which is
    not among the sources; section 3 has it as the enumeration {USB, NFC}. *)
Inductive TRANSPORT : Type := USB | NFC.

(** Modelled from the spec: the [YUBIKEY] key-type enumeration is declared in
    yubikit/core, which is not among the sources; its members are the
    key-type hints of section 3 and [value] is the display name. *)
Inductive YUBIKEY : Type := YKS | NEO | SKY | YKP | YK4.

Definition value (k : YUBIKEY) : string :=
  match k with
  | YKS => "YubiKey Standard"
  | NEO => "YubiKey NEO"
  | SKY => "Security Key by Yubico"
  | YKP => "YubiKey Plus"
  | YK4 => "YubiKey"
  end.

(** Modelled from the spec: the exception classes are declared in
    yubikit/core, which is not among the sources; section 7 lists the five
    error kinds the resolvers distinguish. [TypeError] and [KeyError] are the
    built-in ones the code can raise itself. All of them derive from
    Python's [Exception]. *)
Inductive Exception : Type :=
  | ApplicationNotAvailableError
  | NotSupportedError
  | CommandRejectedError
  | ProtocolError
  | ChannelError
  | TypeError
  | KeyError.

(** The outcome of a call that may raise. *)
Inductive Result (A : Type) : Type :=
  | Ok (a : A)
  | Raise (e : Exception).

Arguments Ok {A} a.
Arguments Raise {A} e.

End Core.

Export Core.

Global Instance TRANSPORT_eq_dec : EqDecision TRANSPORT.
Proof. solve_decision. Defined.

Global Instance TRANSPORT_countable : Countable TRANSPORT.
Proof.
  refine (inj_countable'
            (fun t => match t with USB => 0%nat | NFC => 1%nat end)
            (fun n => match n with O => USB | _ => NFC end) _).
  intros []; reflexivity.
Defined.

Global Instance YUBIKEY_eq_dec : EqDecision YUBIKEY.
Proof. solve_decision. Defined.

Global Instance Exception_eq_dec : EqDecision Exception.
Proof. solve_decision. Defined.

(** ** yubikit.management: flags, form factors, DeviceInfo *)

Module Management.

(** Flag sets are Python [IntFlag] values: integers combined with [|], [&]
    and [~]. [x in s] holds when every bit of [x] is set in [s]. *)
Definition flag_in (x s : Z) : bool := Z.land x s =? x.

(** Inclusion of flag sets, bit by bit. *)
Definition flags_subseteq (a b : Z) : Prop :=
  forall i, 0 <= i -> Z.testbit a i = true -> Z.testbit b i = true.

(** Modelled from the spec: the [CAPABILITY] flags are declared in
    yubikit/management.py, which is not among the sources; section 3 names
    them and the bit positions are those of the device protocol. *)
Module CAPABILITY.
Definition OTP : Z := 0x01.
Definition U2F : Z := 0x02.
Definition OPENPGP : Z := 0x08.
Definition PIV : Z := 0x10.
Definition OATH : Z := 0x20.
Definition HSMAUTH : Z := 0x100.
Definition FIDO2 : Z := 0x200.
End CAPABILITY.

(** Modelled from the spec: the [USB_INTERFACE] flags are declared in
    yubikit/management.py, which is not among the sources. *)
Module USB_INTERFACE.
Definition OTP : Z := 0x01.
Definition FIDO : Z := 0x02.
Definition CCID : Z := 0x04.
End USB_INTERFACE.

(** Modelled from the spec: [FORM_FACTOR], [DeviceConfig] and [DeviceInfo]
    are declared in yubikit/management.py, which is not among the sources;
    section 3 describes them and support.py names their members and fields. *)
Inductive FORM_FACTOR : Type :=
  | UNKNOWN
  | USB_A_KEYCHAIN
  | USB_A_NANO
  | USB_C_KEYCHAIN
  | USB_C_NANO
  | USB_C_LIGHTNING
  | USB_A_BIO
  | USB_C_BIO.

Record DeviceConfig : Type := mkDeviceConfig {
  enabled_capabilities : gmap TRANSPORT Z;
  auto_eject_timeout : option Z;
  challenge_response_timeout : option Z;
  device_flags : option Z
}.

(** [is_fips] and [is_sky] default to [False] in the dataclass: the resolvers
    of support.py construct a [DeviceInfo] without them. *)
Record DeviceInfo : Type := mkDeviceInfo {
  config : DeviceConfig;
  serial : option Z;
  version : Version;
  form_factor : FORM_FACTOR;
  supported_capabilities : gmap TRANSPORT Z;
  is_locked : bool;
  is_fips : bool;
  is_sky : bool
}.

(** Modelled from the spec: [DeviceInfo.has_transport] is declared in
    yubikit/management.py, which is not among the sources; a transport is
    supported when the supported dictionary has an entry for it. *)
Definition has_transport (info : DeviceInfo) (t : TRANSPORT) : bool :=
  match supported_capabilities info !! t with
  | Some _ => true
  | None => false
  end.

(** Attribute assignments on the (mutable) dataclass instances. *)
Definition set_supported_capabilities (info : DeviceInfo)
  (m : gmap TRANSPORT Z) : DeviceInfo :=
  mkDeviceInfo (config info) (serial info) (version info) (form_factor info)
    m (is_locked info) (is_fips info) (is_sky info).

Definition set_enabled_capabilities (info : DeviceInfo)
  (m : gmap TRANSPORT Z) : DeviceInfo :=
  mkDeviceInfo
    (mkDeviceConfig m (auto_eject_timeout (config info))
       (challenge_response_timeout (config info)) (device_flags (config info)))
    (serial info) (version info) (form_factor info)
    (supported_capabilities info) (is_locked info) (is_fips info) (is_sky info).

Definition set_is_fips (info : DeviceInfo) (b : bool) : DeviceInfo :=
  mkDeviceInfo (config info) (serial info) (version info) (form_factor info)
    (supported_capabilities info) (is_locked info) b (is_sky info).

End Management.

Export Management.

Global Instance FORM_FACTOR_eq_dec : EqDecision FORM_FACTOR.
Proof. solve_decision. Defined.

(** ** Python string helpers used by the naming resolver *)

Module PyStr.

(** [sep.join(parts)] *)
Definition join (sep : string) (parts : list string) : string :=
  String.concat sep parts.

(** [s.replace(old, new)] for a non-empty [old]: the occurrences are replaced
    from left to right and do not overlap. [skip] counts the characters of a
    match that remain to be dropped. *)
Fixpoint replace_from (old new : string) (skip : nat) (s : string) : string :=
  match s with
  | EmptyString => EmptyString
  | String c s' =>
      match skip with
      | S k => replace_from old new k s'
      | O =>
          if String.prefix old s
          then new ++ replace_from old new (String.length old - 1) s'
          else String c (replace_from old new O s')
      end
  end.

(** With an empty [old], Python inserts [new] before every character and at
    the end. *)
Fixpoint intersperse (new s : string) : string :=
  match s with
  | EmptyString => new
  | String c s' => new ++ String c (intersperse new s')
  end.

Definition replace (s old new : string) : string :=
  match old with
  | EmptyString => intersperse new s
  | _ => replace_from old new O s
  end.

(** [sub in s]: [sub] occurs somewhere in [s]. *)
Fixpoint contains (sub s : string) : bool :=
  String.prefix sub s ||
  match s with
  | EmptyString => false
  | String _ s' => contains sub s'
  end.

(** [s.endswith(suffix)] *)
Fixpoint endswith (s suffix : string) : bool :=
  (if String.eqb s suffix then true else false) ||
  match s with
  | EmptyString => false
  | String _ s' => endswith s' suffix
  end.

End PyStr.

(** ** Connections and sessions: the external collaborators

    A computation over a live connection maps the state of the connection
    (and of the device behind it) to an outcome and a new state. *)

Module Conn.

Definition IO (conn A : Type) : Type := conn -> Result A * conn.

Global Instance IO_ret {conn : Type} : MRet (IO conn) :=
  fun A a c => (Ok a, c).

Global Instance IO_bind {conn : Type} : MBind (IO conn) :=
  fun A B f m c =>
    match m c with
    | (Ok a, c') => f a c'
    | (Raise e, c') => (Raise e, c')
    end.

(** [try: body / except ...: handler]. [handler e] is [None] when no
    [except] clause matches [e]; the exception then propagates. *)
Definition try_except {conn A : Type} (body : IO conn A)
  (handler : Exception -> option (IO conn A)) : IO conn A :=
  fun c =>
    match body c with
    | (Ok a, c') => (Ok a, c')
    | (Raise e, c') =>
        match handler e with
        | Some h => h c'
        | None => (Raise e, c')
        end
    end.

(** [except cls: h] *)
Definition except {conn A : Type} (cls : Exception) (h : IO conn A)
  : Exception -> option (IO conn A) :=
  fun e => if decide (e = cls) then Some h else None.

(** [except Exception: h] *)
Definition except_Exception {conn A : Type} (h : IO conn A)
  : Exception -> option (IO conn A) :=
  fun _ => Some h.

Record ManagementSession : Type := { mgmt_version : Version }.
Record YubiOtpSession : Type := { otp_version : Version }.

(** The three connection classes [read_info] dispatches on, and anything
    else. *)
Inductive ConnectionType : Type :=
  | SmartCardConnection
  | OtpConnection
  | FidoConnection
  | OtherConnection.

(** Modelled from the spec: the sessions and the connection classes
    (yubikit.core, yubikit.management, yubikit.yubiotp) are not among the
    sources; sections 2 and 6 treat them as collaborators with a
    "send command, receive response" contract. Each operation may raise and
    may change the state of the connection.
    - [ManagementSession_init] is the constructor [ManagementSession(conn)];
    - [YubiOtpSession_init] is the constructor [YubiOtpSession(conn)];
    - [select] is [SmartCardProtocol(conn).select(aid)];
    - [sleep] takes its duration in milliseconds. *)
Class Connection (conn : Type) : Type := {
  connection_type : conn -> ConnectionType;
  ManagementSession_init : IO conn ManagementSession;
  read_device_info : ManagementSession -> IO conn DeviceInfo;
  YubiOtpSession_init : IO conn YubiOtpSession;
  get_serial : YubiOtpSession -> IO conn Z;
  send_and_receive : list byte -> IO conn (list byte);
  select : list byte -> IO conn (list byte);
  sleep : Z -> conn -> conn
}.

Definition do_sleep {conn : Type} `{Connection conn} (ms : Z) : IO conn unit :=
  fun c => (Ok tt, sleep ms c).

End Conn.

Export Conn.

(** ** yubikit.support *)

Module Support.

Import PyStr.

Definition V (a b c : Z) : Version := mkVersion a b c.

(** [(4, 4, 0) <= version < (4, 5, 0)] *)
Definition is_fips_version (version : Version) : bool :=
  version_leb (V 4 4 0) version && version_ltb version (V 4 5 0).

Definition BASE_NEO_APPS : Z :=
  Z.lor (Z.lor (Z.lor CAPABILITY.OTP CAPABILITY.OATH) CAPABILITY.PIV)
    CAPABILITY.OPENPGP.

(** *** The normalization phase of [read_info] (the statements after the
    resolver has produced [info])

    The supported and the enabled dictionaries are distinct objects in every
    record the resolvers build, and their values are immutable integers, so
    the in-place updates are modelled on two separate maps. *)

(** [CAPABILITY.OTP | CAPABILITY.U2F | USB_INTERFACE.CCID] *)
Definition EDGE_CAPABILITIES : Z :=
  Z.lor (Z.lor CAPABILITY.OTP CAPABILITY.U2F) USB_INTERFACE.CCID.

(** [USB_INTERFACE.CCID | CAPABILITY.OATH | CAPABILITY.OPENPGP | CAPABILITY.PIV] *)
Definition CCID_CAPABILITIES : Z :=
  Z.lor (Z.lor (Z.lor USB_INTERFACE.CCID CAPABILITY.OATH) CAPABILITY.OPENPGP)
    CAPABILITY.PIV.

(** The three [usb_enabled &= ~...] statements. *)
Definition mask_usb_enabled (interfaces usb_enabled : Z) : Z :=
  let usb_enabled :=
    if negb (flag_in USB_INTERFACE.OTP interfaces)
    then Z.land usb_enabled (Z.lnot CAPABILITY.OTP)
    else usb_enabled in
  let usb_enabled :=
    if negb (flag_in USB_INTERFACE.FIDO interfaces)
    then Z.land usb_enabled (Z.lnot (Z.lor CAPABILITY.U2F CAPABILITY.FIDO2))
    else usb_enabled in
  let usb_enabled :=
    if negb (flag_in USB_INTERFACE.CCID interfaces)
    then Z.land usb_enabled (Z.lnot CCID_CAPABILITIES)
    else usb_enabled in
  usb_enabled.

(** "Set usb_enabled if missing (pre YubiKey 5)". The guard
    [info.has_transport(USB) and USB not in enabled_capabilities] is the
    first branch of the match; [usb_enabled] keeps the value read before the
    Edge branch replaces the supported dictionary. *)
Definition set_usb_enabled (interfaces : Z) (info : DeviceInfo) : DeviceInfo :=
  match supported_capabilities info !! USB,
        enabled_capabilities (config info) !! USB with
  | Some usb_supported, None =>
      let usb_enabled := usb_supported in
      let info :=
        if usb_enabled =? EDGE_CAPABILITIES
        then set_supported_capabilities info
               {[ USB := Z.lor CAPABILITY.OTP CAPABILITY.U2F ]}
        else info in
      let usb_enabled := mask_usb_enabled interfaces usb_enabled in
      set_enabled_capabilities info
        (<[ USB := usb_enabled ]> (enabled_capabilities (config info)))
  | _, _ => info
  end.

(** "YK4-based FIPS version": the flag is only ever set. *)
Definition set_fips (info : DeviceInfo) : DeviceInfo :=
  if is_fips_version (version info) then set_is_fips info true else info.

(** "Set nfc_enabled if missing (pre YubiKey 5)". *)
Definition set_nfc_enabled (info : DeviceInfo) : DeviceInfo :=
  match supported_capabilities info !! NFC,
        enabled_capabilities (config info) !! NFC with
  | Some nfc_supported, None =>
      set_enabled_capabilities info
        (<[ NFC := nfc_supported ]> (enabled_capabilities (config info)))
  | _, _ => info
  end.

(** The form factors "known not to have NFC". *)
Definition lacks_nfc (info : DeviceInfo) : bool :=
  match form_factor info with
  | USB_A_NANO | USB_C_NANO | USB_C_LIGHTNING => true
  | USB_C_KEYCHAIN => version_ltb (version info) (V 5 2 4)
  | _ => false
  end.

(** "Workaround for invalid configurations": [pop(TRANSPORT.NFC, None)] on
    both dictionaries. *)
Definition strip_nfc (info : DeviceInfo) : DeviceInfo :=
  if version_geb (version info) (V 4 0 0) && lacks_nfc info
  then
    let info :=
      set_supported_capabilities info (delete NFC (supported_capabilities info)) in
    set_enabled_capabilities info (delete NFC (enabled_capabilities (config info)))
  else info.

(** The whole phase, in the order of the source. *)
Definition normalize (interfaces : Z) (info : DeviceInfo) : DeviceInfo :=
  strip_nfc (set_nfc_enabled (set_fips (set_usb_enabled interfaces info))).

(** *** The transport resolvers *)

Section Resolvers.

Context {conn : Type} `{Connection conn}.

(** Modelled from the spec: the [AID] constants are declared in
    yubikit/core/smartcard.py, which is not among the sources; section 6
    describes them as fixed byte sequences of 5 to 8 bytes. *)
Definition AID_FIDO : list byte := [xa0; x00; x00; x06; x47; x2f; x00; x01].
Definition AID_PIV : list byte := [xa0; x00; x00; x03; x08].
Definition AID_OPENPGP : list byte := [xd2; x76; x00; x01; x24; x01].
Definition AID_OATH : list byte := [xa0; x00; x00; x05; x27; x21; x01].

Definition AID_U2F_YUBICO : list byte := [xa0; x00; x00; x05; x27; x10; x02].

(** The dictionary is iterated in insertion order. *)
Definition SCAN_APPLETS : list (list byte * Z) :=
  [ (AID_FIDO, CAPABILITY.U2F);
    (AID_U2F_YUBICO, CAPABILITY.U2F);
    (AID_PIV, CAPABILITY.PIV);
    (AID_OPENPGP, CAPABILITY.OPENPGP);
    (AID_OATH, CAPABILITY.OATH) ].

(** A freshly synthesized record: empty enabled dictionary ("populated
    later"), zero timeouts and flags, not locked. *)
Definition synthesized (serial : option Z) (version : Version)
  (form_factor : FORM_FACTOR) (supported : gmap TRANSPORT Z) : DeviceInfo :=
  mkDeviceInfo (mkDeviceConfig ∅ (Some 0) (Some 0) (Some 0))
    serial version form_factor supported false false false.

Definition _otp_read_data : IO conn (Version * option Z) :=
  otp ← YubiOtpSession_init;
  let version := otp_version otp in
  serial ← try_except (s ← get_serial otp; mret (Some s))
             (except_Exception (mret None));
  mret (version, serial).

(** The first [try] block of [_read_info_ccid]. It either returns the
    authoritative record ([inl]) or falls through with the version read so
    far ([inr]). The outer [except ApplicationNotAvailableError] covers the
    constructor as well as the inner block, where [version] is already set. *)
Definition ccid_management : IO conn (DeviceInfo + option Version) :=
  r ← try_except (mgmt ← ManagementSession_init; mret (Some mgmt))
        (except ApplicationNotAvailableError (mret None));
  match r with
  | None => mret (inr None)
  | Some mgmt =>
      let version := Some (mgmt_version mgmt) in
      try_except
        (try_except (info ← read_device_info mgmt; mret (inl info))
           (except NotSupportedError
              (_ ← send_and_receive [xa4; x04; x00; x08]; mret (inr version))))
        (except ApplicationNotAvailableError (mret (inr version)))
  end.

(** "Scan for remaining capabilities": both [except] clauses only log. *)
Fixpoint scan_applets (applets : list (list byte * Z)) (capabilities : Z)
  : IO conn Z :=
  match applets with
  | [] => mret capabilities
  | (aid, code) :: rest =>
      capabilities ←
        try_except (_ ← select aid; mret (Z.lor capabilities code))
          (except_Exception (mret capabilities));
      scan_applets rest capabilities
  end.

(** "Synthesize data": the rest of [_read_info_ccid]. *)
Definition ccid_synthesize (interfaces : Z) (version : option Version)
  : IO conn DeviceInfo :=
  let capabilities := 0 in
  r ← try_except
        (d ← _otp_read_data;
         let '(otp_version, serial) := d in
         let capabilities := Z.lor capabilities CAPABILITY.OTP in
         let version :=
           match version with
           | None => Some otp_version
           | Some _ => version
           end in
         mret (capabilities, version, serial))
        (except ApplicationNotAvailableError
           (mret (capabilities, version, None)));
  let '(capabilities, version, serial) := r in
  let version :=
    match version with
    | None => V 3 0 0
    | Some version => version
    end in
  capabilities ← scan_applets SCAN_APPLETS capabilities;
  let capabilities :=
    if flag_in USB_INTERFACE.FIDO interfaces || version_geb version (V 3 3 0)
    then Z.lor capabilities CAPABILITY.U2F
    else capabilities in
  mret (synthesized serial version UNKNOWN
          (<[ NFC := capabilities ]> {[ USB := capabilities ]})).

Definition _read_info_ccid (key_type : option YUBIKEY) (interfaces : Z)
  : IO conn DeviceInfo :=
  r ← ccid_management;
  match r with
  | inl info => mret info
  | inr version => ccid_synthesize interfaces version
  end.

(** How the retry loop of [_read_info_otp] is left. *)
Inductive LoopExit : Type :=
  | Returned (info : DeviceInfo)
  | Broke (i : nat) (otp : YubiOtpSession) (serial : option Z)
  | Exhausted (otp : YubiOtpSession).

(** The loop state is the management session while [otp is None] ([inl]) and
    the OTP session afterwards ([inr]). One step of the [if otp is None:]
    block, which either returns from the function or leaves [otp] set. *)
Definition acquire_otp (st : ManagementSession + YubiOtpSession)
  : IO conn (DeviceInfo + YubiOtpSession) :=
  match st with
  | inr otp => mret (inr otp)
  | inl mgmt =>
      try_except (info ← read_device_info mgmt; mret (inl info))
        (except NotSupportedError (otp ← YubiOtpSession_init; mret (inr otp)))
  end.

(** [for _ in range(8)] with its [else] clause: [n] iterations remain and [i]
    is the loop variable. [CommandRejectedError] raised before [otp] is set
    leaves [otp] at [None]; raised by [get_serial], it finds [otp] set. *)
Fixpoint reclaim_loop (n i : nat) (interfaces : Z)
  (st : ManagementSession + YubiOtpSession) : IO conn LoopExit :=
  match n with
  | O => otp ← YubiOtpSession_init; mret (Exhausted otp)
  | S n' =>
      r ← try_except (x ← acquire_otp st; mret (Some x))
            (except CommandRejectedError (mret None));
      match r with
      | None =>
          _ ← do_sleep 500;
          reclaim_loop n' (S i) interfaces st
      | Some (inl info) => mret (Returned info)
      | Some (inr otp) =>
          serial ← try_except (s ← get_serial otp; mret (Some s))
                     (except CommandRejectedError (mret None));
          match serial with
          | Some s => mret (Broke i otp (Some s))
          | None =>
              if interfaces =? USB_INTERFACE.OTP
              then mret (Broke i otp None)
              else _ ← do_sleep 500;
                   reclaim_loop n' (S i) interfaces (inr otp)
          end
      end
  end.

(** The statements of [_read_info_otp] up to the end of the loop. *)
Definition otp_retry (interfaces : Z) : IO conn LoopExit :=
  r ← try_except (mgmt ← ManagementSession_init; mret (inl mgmt))
        (except ApplicationNotAvailableError
           (otp ← YubiOtpSession_init; mret (inr otp)));
  reclaim_loop 8 0 interfaces r.

(** "Synthesize info" *)
Definition otp_synthesize (key_type : option YUBIKEY) (interfaces : Z)
  (otp : YubiOtpSession) (serial : option Z) : DeviceInfo :=
  let version := otp_version otp in
  let capabilities : gmap TRANSPORT Z :=
    match key_type with
    | Some NEO =>
        let usb_supported :=
          if flag_in USB_INTERFACE.FIDO interfaces
             || version_geb version (V 3 3 0)
          then Z.lor BASE_NEO_APPS CAPABILITY.U2F
          else BASE_NEO_APPS in
        <[ NFC := usb_supported ]> {[ USB := usb_supported ]}
    | Some YKP => {[ USB := Z.lor CAPABILITY.OTP CAPABILITY.U2F ]}
    | _ => {[ USB := CAPABILITY.OTP ]}
    end in
  synthesized serial version UNKNOWN capabilities.

Definition _read_info_otp (key_type : option YUBIKEY) (interfaces : Z)
  : IO conn DeviceInfo :=
  r ← otp_retry interfaces;
  match r with
  | Returned info => mret info
  | Broke _ otp serial => mret (otp_synthesize key_type interfaces otp serial)
  | Exhausted otp => mret (otp_synthesize key_type interfaces otp None)
  end.

(** The [except Exception:] branch of [_read_info_ctap]. *)
Definition ctap_synthesize (key_type : option YUBIKEY) : DeviceInfo :=
  let version :=
    if bool_decide (key_type = Some YKP) then V 4 0 0 else V 3 0 0 in
  let supported_apps : gmap TRANSPORT Z := {[ USB := CAPABILITY.U2F ]} in
  let supported_apps :=
    if bool_decide (key_type = Some NEO)
    then
      let usb := Z.lor CAPABILITY.U2F BASE_NEO_APPS in
      <[ NFC := usb ]> (<[ USB := usb ]> supported_apps)
    else supported_apps in
  synthesized None version USB_A_KEYCHAIN supported_apps.

Definition _read_info_ctap (key_type : option YUBIKEY) (interfaces : Z)
  : IO conn DeviceInfo :=
  try_except (mgmt ← ManagementSession_init; read_device_info mgmt)
    (except_Exception (mret (ctap_synthesize key_type))).

(** Modelled from the spec: [PID] is declared in yubikit/core, which is not
    among the sources; [read_info] reads the key type and the USB interfaces
    of a product identifier. *)
Record PID : Type := { yubikey_type : YUBIKEY; usb_interfaces : Z }.

Definition read_info (pid : option PID) : IO conn DeviceInfo :=
  fun c =>
    let '(key_type, interfaces) :=
      match pid with
      | Some pid => (Some (yubikey_type pid), usb_interfaces pid)
      | None => (None, 0)
      end in
    let resolver : IO conn DeviceInfo :=
      match connection_type c with
      | SmartCardConnection => _read_info_ccid key_type interfaces
      | OtpConnection => _read_info_otp key_type interfaces
      | FidoConnection => _read_info_ctap key_type interfaces
      | OtherConnection => fun c => (Raise TypeError, c)
      end in
    (info ← resolver; mret (normalize interfaces info)) c.

End Resolvers.

(** *** The naming resolver *)

Definition _fido_only (capabilities : Z) : bool :=
  Z.land capabilities (Z.lnot (Z.lor CAPABILITY.U2F CAPABILITY.FIDO2)) =? 0.

Definition _PREVIEW_RANGES : list (Version * Version) :=
  [ (V 5 0 0, V 5 1 0); (V 5 2 0, V 5 2 3); (V 5 5 0, V 5 5 2) ].

Fixpoint in_ranges (ranges : list (Version * Version)) (version : Version)
  : bool :=
  match ranges with
  | [] => false
  | (start, end_) :: rest =>
      if version_leb start version && version_ltb version end_
      then true
      else in_ranges rest version
  end.

Definition _is_preview (version : Version) : bool :=
  in_ranges _PREVIEW_RANGES version.

(** The [if not key_type:] block of [get_name]. *)
Definition get_key_type (info : DeviceInfo) (usb_supported : Z)
  (key_type : option YUBIKEY) : YUBIKEY :=
  match key_type with
  | Some k => k
  | None =>
      if bool_decide (serial info = None) && _fido_only usb_supported then SKY
      else if major (version info) =? 3 then NEO
      else YK4
  end.

(** The [elif info.version >= (5, 1, 0):] block: the name built from parts. *)
Definition composed_name (info : DeviceInfo) (usb_supported : Z) : string :=
  let ff := form_factor info in
  let is_nano := bool_decide (ff = USB_A_NANO) || bool_decide (ff = USB_C_NANO) in
  let is_bio := bool_decide (ff = USB_A_BIO) || bool_decide (ff = USB_C_BIO) in
  let is_c := bool_decide (ff = USB_C_KEYCHAIN) || bool_decide (ff = USB_C_NANO)
              || bool_decide (ff = USB_C_BIO) in
  let name_parts : list string :=
    if is_sky info then ["Security Key"]
    else if negb is_bio then ["YubiKey"; "5"] else ["YubiKey"] in
  let append (parts : list string) (part : string) := app parts [part] in
  let name_parts :=
    if is_c then append name_parts "C"
    else if bool_decide (ff = USB_C_LIGHTNING) then append name_parts "Ci"
    else name_parts in
  let name_parts := if is_nano then append name_parts "Nano" else name_parts in
  let name_parts :=
    if has_transport info NFC then append name_parts "NFC"
    else if bool_decide (ff = USB_A_KEYCHAIN) then append name_parts "A"
    else name_parts in
  let name_parts :=
    if is_bio
    then
      let name_parts := append name_parts "Bio" in
      if _fido_only usb_supported then append name_parts "- FIDO Edition"
      else name_parts
    else name_parts in
  let name_parts := if is_fips info then append name_parts "FIPS" else name_parts in
  replace (replace (join " " name_parts) "5 C" "5C") "5 A" "5A".

(** The naming rules once the key type is known. *)
Definition device_name_of (info : DeviceInfo) (usb_supported : Z)
  (key_type : YUBIKEY) : string :=
  let device_name := value key_type in
  match key_type with
  | SKY =>
      let device_name :=
        if negb (flag_in CAPABILITY.FIDO2 usb_supported)
        then "FIDO U2F Security Key" else device_name in
      if has_transport info NFC then "Security Key NFC" else device_name
  | YK4 =>
      let major_version := major (version info) in
      if major_version <? 4 then
        if major (version info) =? 0
        then "YubiKey (" ++ version_str (version info) ++ ")"
        else "YubiKey"
      else
        let device_name :=
          if major_version =? 4 then
            if is_fips_version (version info) then "YubiKey FIPS"
            else if usb_supported =? Z.lor CAPABILITY.OTP CAPABILITY.U2F
                 then "YubiKey Edge"
                 else "YubiKey 4"
          else device_name in
        if _is_preview (version info) then "YubiKey Preview"
        else if version_geb (version info) (V 5 1 0)
             then composed_name info usb_supported
             else device_name
  | _ => device_name
  end.

(** [get_name]: the subscript [supported_capabilities[TRANSPORT.USB]] raises
    [KeyError] when the device has no USB entry. *)
Definition get_name (info : DeviceInfo) (key_type : option YUBIKEY)
  : Result string :=
  match supported_capabilities info !! USB with
  | None => Raise KeyError
  | Some usb_supported =>
      Ok (device_name_of info usb_supported
            (get_key_type info usb_supported key_type))
  end.

End Support.

(** ** ykman.driver_ccid: the legacy CCID driver *)

Module DriverCcid.

Definition SW_OK : Z := 0x9000.
Definition INS_SELECT : Z := 0xa4.
Definition INS_YK4_CAPABILITIES : Z := 0x1d.

Definition MGR_AID : list byte := [xa0; x00; x00; x05; x27; x47; x11; x17].

(** pyscard's [connection.transmit]: a list of integers goes out, the
    response data and the two status bytes come back. *)
Class CardConnection (card : Type) : Type := {
  transmit : list Z -> card -> (list Z * Z * Z) * card
}.

(** Modelled from the spec: [byte2int] and [int2byte] come from
    ykman/yubicommon/compat.py, which is not among the sources; they convert
    between a byte and its integer value. *)
Definition byte2int (b : byte) : Z := Z.of_N (Byte.to_N b).

Definition int2byte (z : Z) : byte :=
  match Byte.of_N (Z.to_N z) with
  | Some b => b
  | None => x00
  end.

Section Driver.

Context {card : Type} `{CardConnection card}.

(** The fields of the driver object that [read_capabilities] reads. The
    version is a tuple of integers (of at most three components when it
    comes from [_read_version]). *)
Record CCIDDriver : Type := mkCCIDDriver {
  _conn : card;
  _version : list Z
}.

Definition send_apdu (self : CCIDDriver) (cl ins p1 p2 : Z) (data : list byte)
  : (list byte * Z) * CCIDDriver :=
  let header := [cl; ins; p1; p2; Z.of_nat (length data)] in
  let body := map byte2int data in
  let '((resp, sw1, sw2), c) := transmit (header ++ body) (_conn self) in
  ((map int2byte resp, Z.lor (Z.shiftl sw1 8) sw2),
   mkCCIDDriver c (_version self)).

Definition read_capabilities (self : CCIDDriver) : list byte * CCIDDriver :=
  if bool_decide (_version self = [4; 2; 4])
  then ([x03; x01; x01; x3f], self)
  else
    let '((_, sw), self) := send_apdu self 0 INS_SELECT 4 0 MGR_AID in
    if negb (sw =? SW_OK)
    then ([], self)
    else
      let '((capa, sw), self) := send_apdu self 0 INS_YK4_CAPABILITIES 0 0 [] in
      (capa, self).

End Driver.

(** A connection that records every transmitted command in front of an
    arbitrary card. *)
Definition Logged (card : Type) : Type := (card * list (list Z))%type.

Global Instance Logged_connection {card : Type} `{CardConnection card}
  : CardConnection (Logged card) :=
  {| transmit := fun apdu st =>
       let '(r, c) := transmit apdu (fst st) in
       (r, (c, (snd st ++ [apdu])%list)) |}.

(** The commands [read_capabilities] can send. *)
Definition SELECT_MGR_APDU : list Z :=
  ([0; INS_SELECT; 4; 0; 8] ++ map byte2int MGR_AID)%list.

Definition CAPABILITIES_APDU : list Z := [0; INS_YK4_CAPABILITIES; 0; 0; 0].

(** A card without a management applet: every command is answered with the
    status word 0x6a82 and no data. *)
Global Instance no_applet_card : CardConnection unit :=
  {| transmit := fun _ c => (([], 0x6a, 0x82), c) |}.

(** *** The rest of the driver *)

Definition INS_YK2_REQ : Z := 0x01.
Definition SLOT_DEVICE_SERIAL : Z := 0x10.
Definition SLOT_DEVICE_CONFIG : Z := 0x11.
Definition INS_NEO_TEST : Z := 0x16.

Definition OTP_AID : list byte := [xa0; x00; x00; x05; x27; x20; x01].
Definition OPGP_AID : list byte := [xd2; x76; x00; x01; x24; x01].

(** Modelled from the spec: the driver's [CAPABILITY] and [TRANSPORT] flags
    are declared in ykman/util.py, which is not among the sources; the
    legacy enumeration has a CCID bit of its own and calls OpenPGP [OPGP]. *)
Module UTIL.
Definition CAPABILITY_OTP : Z := 0x01.
Definition CAPABILITY_U2F : Z := 0x02.
Definition CAPABILITY_CCID : Z := 0x04.
Definition CAPABILITY_OPGP : Z := 0x08.
Definition CAPABILITY_PIV : Z := 0x10.
Definition CAPABILITY_OATH : Z := 0x20.
Definition TRANSPORT : list (string * Z) :=
  [ ("OTP"%string, 0x01); ("U2F"%string, 0x02); ("CCID"%string, 0x04) ].
End UTIL.

(** The dictionary in insertion order. *)
Definition KNOWN_APPLETS : list (list byte * Z) :=
  [ (OTP_AID, UTIL.CAPABILITY_OTP);
    ([xa0; x00; x00; x06; x47; x2f; x00; x01], UTIL.CAPABILITY_U2F);
    ([xa0; x00; x00; x05; x27; x10; x02], UTIL.CAPABILITY_U2F);
    ([xa0; x00; x00; x03; x08], UTIL.CAPABILITY_PIV);
    (OPGP_AID, UTIL.CAPABILITY_OPGP);
    ([xa0; x00; x00; x05; x27; x21; x01], UTIL.CAPABILITY_OATH) ].

(** [struct.unpack('>I', serial)[0]]: four bytes, most significant first. *)
Definition unpack_be32 (bs : list byte) : Z :=
  fold_left (fun acc b => Z.lor (Z.shiftl acc 8) (byte2int b)) bs 0.

(** What [set_mode] raises: the two [Exception]s of the source and the
    [struct.error] of a value that does not fit its field. *)
Inductive DriverError : Type :=
  | SettingModeFailed
  | SelectingAppletFailed
  | StructError.

Section DriverRest.

Context {card : Type} `{CardConnection card}.

(** [_read_version]: the driver with the version it ends with, and the value
    assigned to [self._serial] when that assignment is reached. *)
Definition _read_version (self : CCIDDriver) : CCIDDriver * option Z :=
  let '((s, sw), self) := send_apdu self 0 INS_SELECT 4 0 OTP_AID in
  if sw =? SW_OK
  then
    let self := mkCCIDDriver (_conn self) (map byte2int (firstn 3 s)) in
    let '((serial, sw), self) :=
      send_apdu self 0 INS_YK2_REQ SLOT_DEVICE_SERIAL 0 [] in
    if (length serial =? 4)%nat && (sw =? SW_OK)
    then (self, Some (unpack_be32 serial))
    else (self, None)
  else (self, None).

(** [sum(t for t in TRANSPORT if t.name in name)], the argument of [Mode]. *)
Definition transports_in_name (name : string) : Z :=
  fold_left
    (fun acc t => if PyStr.contains (fst t) name then acc + snd t else acc)
    UTIL.TRANSPORT 0.

(** [CCIDDriver.__init__]. [class_version] is the [_version] the instance
    starts with: the attribute comes from [AbstractDriver] (ykman/driver.py,
    not among the sources) when the reader name has neither marker. The
    result is the driver, the transport sum given to [Mode] and the serial
    assigned by [_read_version], if any. *)
Definition __init__ (class_version : list Z) (connection : card)
  (name : string) : CCIDDriver * Z * option Z :=
  let _mode := transports_in_name name in
  let _version :=
    if PyStr.contains " NEO " name then [3; 0; 0]
    else if PyStr.contains " 4 " name then [4; 1; 0]
    else class_version in
  let '(self, _serial) := _read_version (mkCCIDDriver connection _version) in
  (self, _mode, _serial).

(** The loop of [probe_capabilities_support]. *)
Fixpoint probe_applets (applets : list (list byte * Z)) (capa : Z)
  (self : CCIDDriver) : Z * CCIDDriver :=
  match applets with
  | [] => (capa, self)
  | (aid, code) :: rest =>
      let '((_, sw), self) := send_apdu self 0 INS_SELECT 4 0 aid in
      let capa := if sw =? SW_OK then Z.lor capa code else capa in
      probe_applets rest capa self
  end.

Definition probe_capabilities_support (self : CCIDDriver) : Z * CCIDDriver :=
  probe_applets KNOWN_APPLETS UTIL.CAPABILITY_CCID self.

(** [struct.pack('BBH', ...)] uses the byte order and alignment of the host,
    so the packing is a parameter; [None] is [struct.error]. *)
Variable pack_BBH : Z -> Z -> Z -> option (list byte).

(** The loop of [set_mode] over the (applet, instruction) pairs; [None] is
    the normal return. *)
Fixpoint set_mode_loop (targets : list (list byte * Z))
  (mode_code cr_timeout autoeject_time : Z) (self : CCIDDriver)
  : option DriverError * CCIDDriver :=
  match targets with
  | [] => (Some SelectingAppletFailed, self)
  | (aid, ins) :: rest =>
      let '((_, sw), self) := send_apdu self 0 INS_SELECT 4 0 aid in
      if sw =? SW_OK
      then
        match pack_BBH mode_code cr_timeout autoeject_time with
        | None => (Some StructError, self)
        | Some data =>
            let '((_, sw), self) :=
              send_apdu self 0 ins SLOT_DEVICE_CONFIG 0 data in
            if sw =? SW_OK then (None, self)
            else (Some SettingModeFailed, self)
        end
      else set_mode_loop rest mode_code cr_timeout autoeject_time self
  end.

Definition set_mode (self : CCIDDriver) (mode_code cr_timeout autoeject_time : Z)
  : option DriverError * CCIDDriver :=
  set_mode_loop [(OTP_AID, INS_YK2_REQ); (MGR_AID, INS_NEO_TEST)]
    mode_code cr_timeout autoeject_time self.

End DriverRest.

(** A card that answers from a table: the status bytes and the data depend
    on the command alone. *)
Definition TableCard : Type := list Z -> list Z * Z * Z.

Global Instance TableCard_connection : CardConnection TableCard :=
  {| transmit := fun apdu card => (card apdu, card) |}.

(** A NEO on firmware 3.4.3 with serial 0x004c4b40 = 5000000: the OTP applet
    selects and answers the serial request; nothing else is known. *)
Definition neo_card : TableCard :=
  fun apdu =>
    match apdu with
    | [0; 0xa4; 4; 0; 7; 0xa0; 0; 0; 5; 0x27; 0x20; 1] =>
        ([3; 4; 3; 3; 3; 0; 0], 0x90, 0)
    | [0; 1; 0x10; 0; 0] => ([0; 0x4c; 0x4b; 0x40], 0x90, 0)
    | _ => ([], 0x6a, 0x82)
    end.

(** A card without state that answers from the table [answers]. *)
Definition table_card (answers : list Z -> list Z * Z * Z)
  : CardConnection unit :=
  {| transmit := fun apdu c => (answers apdu, c) |}.

(** Little-endian packing of [BBH] on a host without padding surprises. *)
Definition pack_BBH_le (mode_code cr_timeout autoeject_time : Z)
  : option (list byte) :=
  if (0 <=? mode_code) && (mode_code <? 256) && (0 <=? cr_timeout)
     && (cr_timeout <? 256) && (0 <=? autoeject_time)
     && (autoeject_time <? 65536)
  then Some [int2byte mode_code; int2byte cr_timeout;
             int2byte (Z.land autoeject_time 255);
             int2byte (Z.shiftr autoeject_time 8)]
  else None.

End DriverCcid.

(** ** A scripted connection

    A test double for the resolvers: every operation answers with the next
    outcome of its own queue and fails with [ChannelError] once the queue is
    empty; [sleep] adds to a clock. *)

Module Fake.

Import Support.

Record FakeConn : Type := mkFake {
  fake_type : ConnectionType;
  mgmt_replies : list (Result ManagementSession);
  info_replies : list (Result DeviceInfo);
  otp_replies : list (Result YubiOtpSession);
  serial_replies : list (Result Z);
  select_replies : list (Result (list byte));
  send_replies : list (Result (list byte));
  clock_ms : Z
}.

Definition next {A : Type} (q : list (Result A)) : Result A * list (Result A) :=
  match q with
  | [] => (Raise ChannelError, [])
  | r :: q' => (r, q')
  end.

Global Instance FakeConn_connection : Connection FakeConn := {|
  connection_type := fake_type;
  ManagementSession_init := fun c =>
    let '(r, q) := next (mgmt_replies c) in
    (r, mkFake (fake_type c) q (info_replies c) (otp_replies c)
          (serial_replies c) (select_replies c) (send_replies c) (clock_ms c));
  read_device_info := fun _ c =>
    let '(r, q) := next (info_replies c) in
    (r, mkFake (fake_type c) (mgmt_replies c) q (otp_replies c)
          (serial_replies c) (select_replies c) (send_replies c) (clock_ms c));
  YubiOtpSession_init := fun c =>
    let '(r, q) := next (otp_replies c) in
    (r, mkFake (fake_type c) (mgmt_replies c) (info_replies c) q
          (serial_replies c) (select_replies c) (send_replies c) (clock_ms c));
  get_serial := fun _ c =>
    let '(r, q) := next (serial_replies c) in
    (r, mkFake (fake_type c) (mgmt_replies c) (info_replies c) (otp_replies c)
          q (select_replies c) (send_replies c) (clock_ms c));
  select := fun _ c =>
    let '(r, q) := next (select_replies c) in
    (r, mkFake (fake_type c) (mgmt_replies c) (info_replies c) (otp_replies c)
          (serial_replies c) q (send_replies c) (clock_ms c));
  send_and_receive := fun _ c =>
    let '(r, q) := next (send_replies c) in
    (r, mkFake (fake_type c) (mgmt_replies c) (info_replies c) (otp_replies c)
          (serial_replies c) (select_replies c) q (clock_ms c));
  sleep := fun ms c =>
    mkFake (fake_type c) (mgmt_replies c) (info_replies c) (otp_replies c)
      (serial_replies c) (select_replies c) (send_replies c) (clock_ms c + ms)
|}.

(** A device without a management applet whose OTP applet (firmware 4.3.1)
    is being reclaimed: three serial reads are rejected, the fourth answers. *)
Definition reclaiming : FakeConn :=
  mkFake OtpConnection
    [Raise ApplicationNotAvailableError] []
    [Ok {| otp_version := V 4 3 1 |}]
    [Raise CommandRejectedError; Raise CommandRejectedError;
     Raise CommandRejectedError; Ok 7654321]
    [] [] 0.

(** A FIDO connection that is lost as soon as it is used. *)
Definition lost_fido : FakeConn :=
  mkFake FidoConnection [Raise ChannelError] [] [] [] [] [] 0.

(** A smart-card connection that is lost as soon as it is used. *)
Definition lost_ccid : FakeConn :=
  mkFake SmartCardConnection [Raise ChannelError] [] [] [] [] [] 0.

(** An OTP connection whose management applet answers the info command with
    a malformed response. *)
Definition garbled_otp : FakeConn :=
  mkFake OtpConnection [Ok {| mgmt_version := V 5 4 3 |}]
    [Raise ProtocolError] [] [] [] [] 0.

(** A smart-card connection to a NEO without a management applet: OTP
    (firmware 3.4.0, serial 1234567) and the OATH applet answer. *)
Definition neo_ccid : FakeConn :=
  mkFake SmartCardConnection
    [Raise ApplicationNotAvailableError] []
    [Ok {| otp_version := V 3 4 0 |}]
    [Ok 1234567]
    [Raise ApplicationNotAvailableError; Raise ApplicationNotAvailableError;
     Raise ApplicationNotAvailableError; Raise ApplicationNotAvailableError;
     Ok []]
    [] 0.

(** A stateless smart card on which exactly the applets of [applets] select;
    there is no management applet, and the OTP applet (firmware 3.4.3) does
    not give out its serial. *)
Global Instance byte_eq_decision : EqDecision byte := Byte.byte_eq_dec.

Definition has_applet (applets : list (list byte)) (aid : list byte) : bool :=
  bool_decide (aid ∈ applets).

Definition applet_card (applets : list (list byte)) : Connection unit := {|
  connection_type := fun _ => SmartCardConnection;
  ManagementSession_init := fun c => (Raise ApplicationNotAvailableError, c);
  read_device_info := fun _ c => (Raise NotSupportedError, c);
  YubiOtpSession_init := fun c => (Ok {| otp_version := V 3 4 3 |}, c);
  get_serial := fun _ c => (Raise CommandRejectedError, c);
  select := fun aid c =>
    if has_applet applets aid then (Ok [], c)
    else (Raise ApplicationNotAvailableError, c);
  send_and_receive := fun _ c => (Ok [], c);
  sleep := fun _ c => c
|}.

Definition PID_ALL (key_type : YUBIKEY) : PID :=
  {| yubikey_type := key_type; usb_interfaces := 7 |}.

End Fake.

(** ** Device behaviours the properties are stated for *)

Module Scenarios.

Import Support.

Section Scenarios.

Context {conn : Type} `{Connection conn}.

(** From state [c] on, the device rejects [n] serial reads with
    [CommandRejectedError], half a second apart, and answers the next one
    with [serial]. *)
Fixpoint rejects_then_answers (n : nat) (otp : YubiOtpSession) (serial : Z)
  (c : conn) : Prop :=
  match n with
  | O => exists c', get_serial otp c = (Ok serial, c')
  | S n' =>
      exists c',
        get_serial otp c = (Raise CommandRejectedError, c') /\
        rejects_then_answers n' otp serial (sleep 500 c')
  end.

(** No device info can be had from the management applet: it cannot be
    selected, or it lacks the info command. The OTP session [otp] is then
    opened, leaving the connection in state [c0]. *)
Definition management_unavailable (c : conn) (otp : YubiOtpSession) (c0 : conn)
  : Prop :=
  (exists c1,
     ManagementSession_init c = (Raise ApplicationNotAvailableError, c1) /\
     YubiOtpSession_init c1 = (Ok otp, c0)) \/
  (exists mgmt c1 c2,
     ManagementSession_init c = (Ok mgmt, c1) /\
     read_device_info mgmt c1 = (Raise NotSupportedError, c2) /\
     YubiOtpSession_init c2 = (Ok otp, c0)).

(** The interfaces [read_info] works with: those of the product identifier,
    or none when there is no identifier. *)
Definition pid_interfaces (pid : option PID) : Z :=
  match pid with
  | Some pid => usb_interfaces pid
  | None => 0
  end.

(** The key-type hint [read_info] works with: that of the product
    identifier, if there is one. *)
Definition pid_key_type (pid : option PID) : option YUBIKEY :=
  match pid with
  | Some pid => Some (yubikey_type pid)
  | None => None
  end.

(** From state [c] on, [n] serial reads are rejected with
    [CommandRejectedError], each followed by half a second of sleep, which
    leaves the connection in state [c_end]. *)
Fixpoint serial_rejected (n : nat) (otp : YubiOtpSession) (c c_end : conn)
  : Prop :=
  match n with
  | O => c_end = c
  | S n' =>
      exists c',
        get_serial otp c = (Raise CommandRejectedError, c') /\
        serial_rejected n' otp (sleep 500 c') c_end
  end.

(** The same for the info command of the management applet. *)
Fixpoint info_rejected (n : nat) (mgmt : ManagementSession) (c c_end : conn)
  : Prop :=
  match n with
  | O => c_end = c
  | S n' =>
      exists c',
        read_device_info mgmt c = (Raise CommandRejectedError, c') /\
        info_rejected n' mgmt (sleep 500 c') c_end
  end.

(** Whether an applet selects depends on its identifier alone, not on what
    was selected before. *)
Definition select_by_aid (answers : list byte -> bool) : Prop :=
  forall aid c,
    match select aid c with
    | (Ok _, _) => answers aid = true
    | (Raise _, _) => answers aid = false
    end.

(** [clock] measures the time slept on the connection: [sleep] advances it
    and no command does. *)
Definition measures_sleep (clock : conn -> Z) : Prop :=
  (forall c, clock (snd (ManagementSession_init c)) = clock c) /\
  (forall mgmt c, clock (snd (read_device_info mgmt c)) = clock c) /\
  (forall c, clock (snd (YubiOtpSession_init c)) = clock c) /\
  (forall otp c, clock (snd (get_serial otp c)) = clock c) /\
  (forall data c, clock (snd (send_and_receive data c)) = clock c) /\
  (forall aid c, clock (snd (select aid c)) = clock c) /\
  (forall ms c, clock (sleep ms c) = clock c + ms).

(** Running [m] never turns the clock back and advances it by at most [d]. *)
Definition sleeps_at_most {A : Type} (clock : conn -> Z) (m : IO conn A)
  (d : Z) : Prop :=
  forall c, clock c <= clock (snd (m c)) <= clock c + d.

End Scenarios.

End Scenarios.

(** ** Sample devices *)

Module Samples.

Import Support Fake.

Definition raw_info (version : Version) (form_factor : FORM_FACTOR)
  (serial : option Z) (supported enabled : gmap TRANSPORT Z) (is_fips : bool)
  : DeviceInfo :=
  mkDeviceInfo (mkDeviceConfig enabled (Some 0) (Some 0) (Some 0))
    serial version form_factor supported false is_fips false.

(** All the applications of a YubiKey 5. *)
Definition YK5_CAPABILITIES : Z := 0x23b.

(** A YubiKey 5 FIPS (firmware 5.4.3) as its management applet reports it. *)
Definition yk5_fips : DeviceInfo :=
  raw_info (V 5 4 3) USB_C_KEYCHAIN (Some 16000001)
    {[ USB := YK5_CAPABILITIES ]} {[ USB := YK5_CAPABILITIES ]} true.

(** A smart-card connection on which the management applet answers with
    that record. *)
Definition yk5_fips_ccid : FakeConn :=
  mkFake SmartCardConnection
    [Ok {| mgmt_version := V 5 4 3 |}] [Ok yk5_fips] [] [] [] [] 0.

(** USB-A keychain devices without NFC on firmware 5.2.0 and 5.2.3. *)
Definition yk5a (version : Version) : DeviceInfo :=
  raw_info version USB_A_KEYCHAIN (Some 9000001)
    {[ USB := YK5_CAPABILITIES ]} {[ USB := YK5_CAPABILITIES ]} false.

(** A serial-less device reporting no capability at all. *)
Definition blank_key : DeviceInfo :=
  raw_info (V 5 4 3) USB_A_KEYCHAIN None {[ USB := 0 ]} {[ USB := 0 ]} false.

(** A YubiKey Edge as reported before normalization: OTP, U2F and the CCID
    bit supported, nothing recorded as enabled. *)
Definition edge_raw : DeviceInfo :=
  raw_info (V 4 2 7) UNKNOWN (Some 5000001)
    {[ USB := EDGE_CAPABILITIES ]} ∅ false.

(** A smart-card connection on which the management applet reports that
    record, for a product identifier with all three USB interfaces. *)
Definition edge_ccid : FakeConn :=
  mkFake SmartCardConnection
    [Ok {| mgmt_version := V 4 2 7 |}] [Ok edge_raw] [] [] [] [] 0.

(** A YubiKey 5 Nano whose record wrongly lists NFC, and a smart-card
    connection on which the management applet reports it. *)
Definition nano_with_nfc : DeviceInfo :=
  raw_info (V 5 2 7) USB_A_NANO (Some 11000001)
    (<[ NFC := YK5_CAPABILITIES ]> {[ USB := YK5_CAPABILITIES ]})
    (<[ NFC := YK5_CAPABILITIES ]> {[ USB := YK5_CAPABILITIES ]}) false.

Definition nano_ccid : FakeConn :=
  mkFake SmartCardConnection
    [Ok {| mgmt_version := V 5 2 7 |}] [Ok nano_with_nfc] [] [] [] [] 0.

(** A YubiKey FIPS (firmware 4.4.5) as synthesized over OTP. *)
Definition yk4_fips_raw : DeviceInfo :=
  raw_info (V 4 4 5) UNKNOWN (Some 7000001) {[ USB := 0x3f ]} ∅ false.

(** A record without any USB entry. *)
Definition nfc_only : DeviceInfo :=
  raw_info (V 5 4 3) USB_A_KEYCHAIN (Some 12000001)
    {[ NFC := YK5_CAPABILITIES ]} ∅ false.

(** An OTP connection without a management applet whose OTP applet rejects
    the only serial read. *)
Definition otp_rejecting_once : FakeConn :=
  mkFake OtpConnection
    [Raise ApplicationNotAvailableError] []
    [Ok {| otp_version := V 2 4 2 |}]
    [Raise CommandRejectedError] [] [] 0.

(** The same applet rejecting eight serial reads in a row; a second OTP
    session can be opened afterwards. *)
Definition otp_rejecting_always : FakeConn :=
  mkFake OtpConnection
    [Raise ApplicationNotAvailableError] []
    [Ok {| otp_version := V 4 3 1 |}; Ok {| otp_version := V 4 3 1 |}]
    (repeat (Raise CommandRejectedError) 8) [] [] 0.

(** An OTP connection on which the info command of the management applet is
    rejected twice before it answers. *)
Definition otp_busy_management : FakeConn :=
  mkFake OtpConnection
    [Ok {| mgmt_version := V 5 4 3 |}]
    [Raise CommandRejectedError; Raise CommandRejectedError; Ok yk5_fips]
    [] [] [] [] 0.

(** An OTP connection that is lost while the management applet is busy: the
    info command is rejected once and the next call finds the channel gone. *)
Definition otp_lost_while_busy : FakeConn :=
  mkFake OtpConnection
    [Ok {| mgmt_version := V 5 4 3 |}]
    [Raise CommandRejectedError; Raise ChannelError] [] [] [] [] 0.

End Samples.

(** * Properties *)

Import Support Fake Scenarios Samples DriverCcid.

(** ** Versions *)

Lemma version_leb_spec (a b : Version) :
  version_leb a b = true <->
  major a < major b \/
  (major a = major b /\
   (minor a < minor b \/ (minor a = minor b /\ patch a <= patch b))).
Proof.
  unfold version_leb, version_compare.
  destruct (Z.compare_spec (major a) (major b));
    destruct (Z.compare_spec (minor a) (minor b));
    destruct (Z.compare_spec (patch a) (patch b));
    split; intros; try discriminate; try reflexivity; lia.
Qed.

Lemma version_ltb_spec (a b : Version) :
  version_ltb a b = true <->
  major a < major b \/
  (major a = major b /\
   (minor a < minor b \/ (minor a = minor b /\ patch a < patch b))).
Proof.
  unfold version_ltb, version_compare.
  destruct (Z.compare_spec (major a) (major b));
    destruct (Z.compare_spec (minor a) (minor b));
    destruct (Z.compare_spec (patch a) (patch b));
    split; intros; try discriminate; try reflexivity; lia.
Qed.

(** On versions with a non-negative patch level the FIPS band is 4.4.x. *)
Lemma is_fips_version_spec (v : Version) :
  0 <= patch v ->
  (is_fips_version v = true <-> major v = 4 /\ minor v = 4).
Proof.
  intros Hp. unfold is_fips_version.
  rewrite andb_true_iff, version_leb_spec, version_ltb_spec.
  cbn [V major minor patch]. lia.
Qed.

Lemma version_geb_major (v : Version) (a b c : Z) :
  version_geb v (V a b c) = true -> a <= major v.
Proof.
  unfold version_geb. rewrite version_leb_spec. cbn [V major minor patch]. lia.
Qed.

(** ** Preview ranges *)

Lemma is_preview_major (v : Version) : _is_preview v = true -> major v = 5.
Proof.
  unfold _is_preview, _PREVIEW_RANGES, in_ranges.
  repeat match goal with
         | |- context [version_leb ?a v && version_ltb v ?b] =>
             destruct (version_leb a v && version_ltb v b) eqn:E;
             [ apply andb_true_iff in E as [E1 E2];
               apply version_leb_spec in E1; apply version_ltb_spec in E2;
               cbn [V major minor patch] in E1, E2; intros _; lia | clear E ]
         end.
  discriminate.
Qed.

(** C4: the preview classifier accepts (5,2,1), rejects (5,2,3), the
    exclusive end of its window, and accepts (5,2,0), the inclusive start. *)
Theorem is_preview_boundaries :
  _is_preview (V 5 2 1) = true /\
  _is_preview (V 5 2 3) = false /\
  _is_preview (V 5 2 0) = true.
Proof. repeat split; reflexivity. Qed.

(** The middle window as a whole: 5.2.p is a preview exactly for p in 0..2. *)
Lemma is_preview_5_2 (p : Z) : _is_preview (V 5 2 p) = true <-> 0 <= p < 3.
Proof.
  unfold _is_preview, _PREVIEW_RANGES, in_ranges.
  destruct (version_leb (V 5 0 0) (V 5 2 p) && version_ltb (V 5 2 p) (V 5 1 0))
    eqn:E1.
  { apply andb_true_iff in E1 as [_ E]. apply version_ltb_spec in E.
    cbn [V major minor patch] in E. lia. }
  destruct (version_leb (V 5 2 0) (V 5 2 p) && version_ltb (V 5 2 p) (V 5 2 3))
    eqn:E2.
  { apply andb_true_iff in E2 as [Ea Eb]. apply version_leb_spec in Ea.
    apply version_ltb_spec in Eb. cbn [V major minor patch] in Ea, Eb.
    split; [lia | reflexivity]. }
  destruct (version_leb (V 5 5 0) (V 5 2 p) && version_ltb (V 5 2 p) (V 5 5 2))
    eqn:E3.
  { apply andb_true_iff in E3 as [E _]. apply version_leb_spec in E.
    cbn [V major minor patch] in E. lia. }
  split; [discriminate|]. intros Hp.
  apply andb_false_iff in E2 as [E | E]; exfalso.
  - assert (version_leb (V 5 2 0) (V 5 2 p) = true) as E'.
    { apply version_leb_spec. cbn [V major minor patch]. lia. }
    congruence.
  - assert (version_ltb (V 5 2 p) (V 5 2 3) = true) as E'.
    { apply version_ltb_spec. cbn [V major minor patch]. lia. }
    congruence.
Qed.

(** ** The FIPS flag *)

(** Only [set_fips] touches a field other than the two dictionaries. *)
Lemma set_usb_enabled_fields (interfaces : Z) (info : DeviceInfo) :
  let info' := set_usb_enabled interfaces info in
  version info' = version info /\ form_factor info' = form_factor info /\
  serial info' = serial info /\ is_fips info' = is_fips info.
Proof. unfold set_usb_enabled. repeat case_match; cbn; auto. Qed.

Lemma set_nfc_enabled_fields (info : DeviceInfo) :
  let info' := set_nfc_enabled info in
  version info' = version info /\ form_factor info' = form_factor info /\
  serial info' = serial info /\ is_fips info' = is_fips info.
Proof. unfold set_nfc_enabled. repeat case_match; cbn; auto. Qed.

Lemma strip_nfc_fields (info : DeviceInfo) :
  let info' := strip_nfc info in
  version info' = version info /\ form_factor info' = form_factor info /\
  serial info' = serial info /\ is_fips info' = is_fips info.
Proof. unfold strip_nfc. repeat case_match; cbn; auto. Qed.

Lemma set_fips_fields (info : DeviceInfo) :
  let info' := set_fips info in
  version info' = version info /\ form_factor info' = form_factor info /\
  serial info' = serial info /\
  is_fips info' = is_fips_version (version info) || is_fips info /\
  supported_capabilities info' = supported_capabilities info /\
  enabled_capabilities (config info') = enabled_capabilities (config info).
Proof. unfold set_fips. case_match; cbn; repeat split; reflexivity. Qed.

Lemma normalize_fields (interfaces : Z) (info : DeviceInfo) :
  let info' := normalize interfaces info in
  version info' = version info /\ form_factor info' = form_factor info /\
  serial info' = serial info /\
  is_fips info' = is_fips_version (version info) || is_fips info.
Proof.
  unfold normalize.
  pose proof (strip_nfc_fields
                (set_nfc_enabled (set_fips (set_usb_enabled interfaces info))))
    as (A1 & A2 & A3 & A4).
  pose proof (set_nfc_enabled_fields (set_fips (set_usb_enabled interfaces info)))
    as (B1 & B2 & B3 & B4).
  pose proof (set_fips_fields (set_usb_enabled interfaces info))
    as (C1 & C2 & C3 & C4 & _ & _).
  pose proof (set_usb_enabled_fields interfaces info) as (D1 & D2 & D3 & D4).
  cbv zeta in *. repeat split; congruence.
Qed.

Lemma normalize_version (interfaces : Z) (info : DeviceInfo) :
  version (normalize interfaces info) = version info.
Proof. apply (normalize_fields interfaces info). Qed.

Lemma normalize_form_factor (interfaces : Z) (info : DeviceInfo) :
  form_factor (normalize interfaces info) = form_factor info.
Proof. apply (normalize_fields interfaces info). Qed.

Lemma normalize_serial (interfaces : Z) (info : DeviceInfo) :
  serial (normalize interfaces info) = serial info.
Proof. apply (normalize_fields interfaces info). Qed.

Lemma normalize_is_fips (interfaces : Z) (info : DeviceInfo) :
  is_fips (normalize interfaces info)
  = is_fips_version (version info) || is_fips info.
Proof. apply (normalize_fields interfaces info). Qed.

(** C2, counterexample: the FIPS flag of a YubiKey 5 FIPS, set by the
    management applet, is kept by [read_info] although firmware 5.4.3 lies
    outside the band from 4.4.0 to 4.5.0. *)
Lemma fips_flag_kept_outside_band :
  is_fips_version (V 5 4 3) = false /\
  exists info c,
    read_info (Some (PID_ALL YK4)) yk5_fips_ccid = (Ok info, c) /\
    version info = V 5 4 3 /\ is_fips info = true.
Proof.
  split; [reflexivity|].
  eexists _, _. split; [vm_compute; reflexivity|]. split; reflexivity.
Qed.

(** C2 (amended): after normalization the FIPS flag is true when
    4.4.0 <= v < 4.5.0; outside that range it keeps the value the resolver
    reported, which is false on every synthesized record. The version itself
    is left alone. *)
Theorem normalize_fips_flag :
  (forall interfaces info,
     version (normalize interfaces info) = version info /\
     is_fips (normalize interfaces info)
     = (version_leb (V 4 4 0) (version info)
        && version_ltb (version info) (V 4 5 0))
       || is_fips info) /\
  (forall interfaces serial v form_factor supported,
     is_fips (normalize interfaces (synthesized serial v form_factor supported))
     = version_leb (V 4 4 0) v && version_ltb v (V 4 5 0)).
Proof.
  split.
  - intros interfaces info. split.
    + apply normalize_version.
    + apply normalize_is_fips.
  - intros. rewrite normalize_is_fips. cbn. apply orb_false_r.
Qed.

(** ** Naming *)

Lemma fido_only_spec (capabilities : Z) :
  _fido_only capabilities = true <->
  (forall i, 0 <= i -> Z.testbit capabilities i = true -> i = 1 \/ i = 9).
Proof.
  unfold _fido_only. rewrite Z.eqb_eq. split.
  - intros H i Hi Hb.
    assert (Z.testbit (Z.land capabilities
                         (Z.lnot (Z.lor CAPABILITY.U2F CAPABILITY.FIDO2))) i
            = false) as Hz by (rewrite H; apply Z.bits_0).
    rewrite Z.land_spec, Hb, Z.lnot_spec in Hz by assumption.
    cbn [andb] in Hz. apply negb_false_iff in Hz.
    change (Z.lor CAPABILITY.U2F CAPABILITY.FIDO2) with 514 in Hz.
    destruct (Z.eq_dec i 1) as [|N1]; [left; assumption|].
    destruct (Z.eq_dec i 9) as [|N9]; [right; assumption|].
    exfalso.
    destruct (Z_lt_le_dec i 10) as [Hlt|Hge].
    + assert (i = 0 \/ i = 2 \/ i = 3 \/ i = 4 \/ i = 5 \/ i = 6 \/ i = 7 \/ i = 8)
        as Hc by lia.
      repeat (destruct Hc as [-> | Hc]; [discriminate Hz|]). subst i.
      discriminate Hz.
    + rewrite (Z.bits_above_log2 514 i) in Hz; [discriminate | lia |].
      change (Z.log2 514) with 9. lia.
  - intros H. apply Z.bits_inj'. intros i Hi.
    rewrite Z.bits_0, Z.land_spec, Z.lnot_spec by assumption.
    destruct (Z.testbit capabilities i) eqn:Hb; [|reflexivity].
    destruct (H i Hi Hb) as [-> | ->]; reflexivity.
Qed.

(** C10: without a key-type hint, a device with no serial whose supported
    USB capabilities have no bit outside U2F (bit 1) and FIDO2 (bit 9), the
    empty set included, is classified as a Security Key, and the name is the
    one the Security Key rules give. *)
Theorem get_name_fido_only_is_sky (info : DeviceInfo) (usb_supported : Z) :
  supported_capabilities info !! USB = Some usb_supported ->
  serial info = None ->
  (forall i, 0 <= i -> Z.testbit usb_supported i = true -> i = 1 \/ i = 9) ->
  get_key_type info usb_supported None = SKY /\
  get_name info None = Ok (device_name_of info usb_supported SKY) /\
  _fido_only 0 = true.
Proof.
  intros Husb Hserial Hbits.
  assert (get_key_type info usb_supported None = SKY) as Hk.
  { unfold get_key_type. rewrite Hserial.
    rewrite (proj2 (fido_only_spec usb_supported) Hbits). reflexivity. }
  split; [exact Hk|]. split; [|reflexivity].
  unfold get_name. rewrite Husb, Hk. reflexivity.
Qed.

Lemma get_name_fido_only_is_sky_witness :
  get_key_type blank_key 0 None = SKY /\
  get_name blank_key None = Ok "FIDO U2F Security Key".
Proof.
  destruct (get_name_fido_only_is_sky blank_key 0) as (Hk & Hn & _).
  - reflexivity.
  - reflexivity.
  - intros i _ Hb. rewrite Z.bits_0 in Hb. discriminate Hb.
  - split; [exact Hk | exact Hn].
Defined.

(** C3, counterexample: firmware 5.2.0 on a USB-A keychain without NFC is
    named as a preview build. *)
Lemma name_of_5_2_0_is_preview :
  version (yk5a (V 5 2 0)) = V 5 2 0 /\
  form_factor (yk5a (V 5 2 0)) = USB_A_KEYCHAIN /\
  has_transport (yk5a (V 5 2 0)) NFC = false /\
  is_fips (yk5a (V 5 2 0)) = false /\
  get_name (yk5a (V 5 2 0)) None = Ok "YubiKey Preview" /\
  get_name (yk5a (V 5 2 0)) None <> Ok "YubiKey 5A".
Proof. repeat split; try reflexivity. vm_compute. discriminate. Qed.

(** At firmware 5.2.0 no key type at all is named "YubiKey 5A". *)
Lemma no_5A_name_at_5_2_0 (info : DeviceInfo) (key_type : option YUBIKEY) :
  version info = V 5 2 0 -> get_name info key_type <> Ok "YubiKey 5A".
Proof.
  intros Hv. unfold get_name.
  destruct (supported_capabilities info !! USB) as [usb|]; [|discriminate].
  destruct (get_key_type info usb key_type); unfold device_name_of;
    rewrite ?Hv; cbn; repeat case_match; discriminate.
Qed.

(** C3 (amended): a USB-A keychain device without NFC and without the FIPS
    flag, named under the YK4 rules, is "YubiKey Preview" on firmware 5.2.0
    (the start of a preview window); it is "YubiKey 5A" on any firmware from
    5.1.0 on that lies outside the preview windows, when [is_sky] is false. *)
Theorem get_name_usb_a_keychain (info : DeviceInfo) (key_type : option YUBIKEY)
  (usb_supported : Z) :
  supported_capabilities info !! USB = Some usb_supported ->
  supported_capabilities info !! NFC = None ->
  form_factor info = USB_A_KEYCHAIN ->
  is_fips info = false ->
  get_key_type info usb_supported key_type = YK4 ->
  (version info = V 5 2 0 -> get_name info key_type = Ok "YubiKey Preview") /\
  (version_geb (version info) (V 5 1 0) = true ->
   _is_preview (version info) = false ->
   is_sky info = false ->
   get_name info key_type = Ok "YubiKey 5A").
Proof.
  intros Husb Hnfc Hff Hfips Hk. unfold get_name. rewrite Husb, Hk. split.
  - intros Hv. unfold device_name_of. rewrite Hv. reflexivity.
  - intros Hge Hpre Hsky. f_equal.
    pose proof (version_geb_major _ _ _ _ Hge) as Hmaj.
    unfold device_name_of. rewrite Hpre, Hge.
    replace (major (version info) <? 4) with false
      by (symmetry; apply Z.ltb_ge; lia).
    unfold composed_name, has_transport. rewrite Hff, Hnfc, Hfips, Hsky.
    reflexivity.
Qed.

Lemma get_name_usb_a_keychain_witness :
  get_name (yk5a (V 5 2 0)) None = Ok "YubiKey Preview" /\
  get_name (yk5a (V 5 2 3)) None = Ok "YubiKey 5A".
Proof.
  split.
  - apply (get_name_usb_a_keychain (yk5a (V 5 2 0)) None YK5_CAPABILITIES);
      reflexivity.
  - apply (get_name_usb_a_keychain (yk5a (V 5 2 3)) None YK5_CAPABILITIES);
      reflexivity.
Defined.

(** ** Enabled and supported capabilities after normalization *)

Lemma flags_subseteq_refl (a : Z) : flags_subseteq a a.
Proof. intros i _ H. exact H. Qed.

Lemma flags_subseteq_land (a m : Z) : flags_subseteq (Z.land a m) a.
Proof.
  intros i _ H. rewrite Z.land_spec in H. apply andb_true_iff in H. tauto.
Qed.

Lemma flags_subseteq_trans (a b c : Z) :
  flags_subseteq a b -> flags_subseteq b c -> flags_subseteq a c.
Proof. intros Hab Hbc i Hi H. auto. Qed.

Lemma mask_usb_enabled_subseteq (interfaces usb_enabled : Z) :
  flags_subseteq (mask_usb_enabled interfaces usb_enabled) usb_enabled.
Proof.
  unfold mask_usb_enabled.
  repeat case_match;
    repeat (eapply flags_subseteq_trans; [apply flags_subseteq_land|]);
    apply flags_subseteq_refl.
Qed.

Lemma flag_in_single_bit (s : Z) (n : Z) :
  0 <= n -> flag_in (2 ^ n) s = Z.testbit s n.
Proof.
  intros Hn. unfold flag_in.
  destruct (Z.testbit s n) eqn:Hb.
  - apply Z.eqb_eq. apply Z.bits_inj'. intros i Hi.
    rewrite Z.land_spec, Z.pow2_bits_eqb by assumption.
    destruct (Z.eqb_spec n i) as [<- | _]; [rewrite Hb|]; reflexivity.
  - apply Z.eqb_neq. intros E.
    assert (Z.testbit (Z.land (2 ^ n) s) n = Z.testbit (2 ^ n) n) as E'
      by (rewrite E; reflexivity).
    rewrite Z.land_spec, Hb, Z.pow2_bits_true, andb_false_r in E' by assumption.
    discriminate E'.
Qed.

(** Without the OTP interface the OTP capability is masked out. *)
Lemma mask_usb_enabled_otp (interfaces usb_enabled : Z) :
  flag_in USB_INTERFACE.OTP interfaces = false ->
  flag_in CAPABILITY.OTP (mask_usb_enabled interfaces usb_enabled) = false.
Proof.
  intros Hotp.
  change CAPABILITY.OTP with (2 ^ 0). rewrite flag_in_single_bit by lia.
  unfold mask_usb_enabled. rewrite Hotp. cbn [negb].
  repeat case_match; rewrite ?Z.land_spec, ?Z.lnot_spec by lia;
    change (Z.testbit CAPABILITY.OTP 0) with true; cbn [negb];
    rewrite ?andb_false_r, ?andb_false_l; reflexivity.
Qed.

(** Without the CCID interface the CCID bit is masked out. *)
Lemma mask_usb_enabled_ccid (interfaces usb_enabled : Z) :
  flag_in USB_INTERFACE.CCID interfaces = false ->
  Z.testbit (mask_usb_enabled interfaces usb_enabled) 2 = false.
Proof.
  intros Hccid. unfold mask_usb_enabled. rewrite Hccid. cbn [negb].
  rewrite Z.land_spec, Z.lnot_spec by lia.
  change (Z.testbit CCID_CAPABILITIES 2) with true. apply andb_false_r.
Qed.

(** The three masks bit by bit: the OTP application stays enabled only with
    the OTP interface, U2F (bit 1) and FIDO2 (bit 9) only with the FIDO
    interface, the CCID bit, OpenPGP, PIV and OATH (bits 2 to 5) only with
    the CCID interface; every other bit is kept. *)
Lemma mask_usb_enabled_bits (interfaces usb_enabled i : Z) :
  0 <= i ->
  Z.testbit (mask_usb_enabled interfaces usb_enabled) i
  = Z.testbit usb_enabled i
    && (if i =? 0 then flag_in USB_INTERFACE.OTP interfaces
        else if (i =? 1) || (i =? 9) then flag_in USB_INTERFACE.FIDO interfaces
        else if (2 <=? i) && (i <=? 5) then flag_in USB_INTERFACE.CCID interfaces
        else true).
Proof.
  intros Hi.
  assert (Z.testbit CAPABILITY.OTP i = (i =? 0) /\
          Z.testbit (Z.lor CAPABILITY.U2F CAPABILITY.FIDO2) i
          = ((i =? 1) || (i =? 9)) /\
          Z.testbit CCID_CAPABILITIES i = ((2 <=? i) && (i <=? 5)))
    as (Hotp & Hfido & Hccid).
  { destruct (Z_lt_le_dec i 10) as [Hlt|Hge].
    - assert (i = 0 \/ i = 1 \/ i = 2 \/ i = 3 \/ i = 4 \/ i = 5 \/ i = 6 \/
              i = 7 \/ i = 8 \/ i = 9) as Hcases by lia.
      repeat (destruct Hcases as [-> | Hcases]; [repeat split; reflexivity|]).
      subst i. repeat split; reflexivity.
    - change CAPABILITY.OTP with 1.
      change (Z.lor CAPABILITY.U2F CAPABILITY.FIDO2) with 514.
      change CCID_CAPABILITIES with 60.
      rewrite !Z.bits_above_log2 by (cbn; lia).
      destruct (Z.eqb_spec i 0); [lia|]. destruct (Z.eqb_spec i 1); [lia|].
      destruct (Z.eqb_spec i 9); [lia|]. destruct (Z.leb_spec i 5); [lia|].
      rewrite andb_false_r. repeat split; reflexivity. }
  unfold mask_usb_enabled.
  destruct (flag_in USB_INTERFACE.OTP interfaces),
    (flag_in USB_INTERFACE.FIDO interfaces),
    (flag_in USB_INTERFACE.CCID interfaces); cbn [negb];
    rewrite ?Z.land_spec, ?Z.lnot_spec, ?Hotp, ?Hfido, ?Hccid by exact Hi;
    destruct (Z.testbit usb_enabled i), (i =? 0) eqn:E0, (i =? 1) eqn:E1,
      (i =? 9) eqn:E9, ((2 <=? i) && (i <=? 5)) eqn:E25; try reflexivity;
    exfalso; rewrite ?andb_true_iff in *; lia.
Qed.

(** The two dictionaries after each step. *)
Lemma set_usb_enabled_maps (interfaces : Z) (info : DeviceInfo) :
  let info' := set_usb_enabled interfaces info in
  match supported_capabilities info !! USB,
        enabled_capabilities (config info) !! USB with
  | Some u, None =>
      supported_capabilities info'
      = (if u =? EDGE_CAPABILITIES
         then {[ USB := Z.lor CAPABILITY.OTP CAPABILITY.U2F ]}
         else supported_capabilities info) /\
      enabled_capabilities (config info')
      = <[ USB := mask_usb_enabled interfaces u ]>
          (enabled_capabilities (config info))
  | _, _ => info' = info
  end.
Proof.
  unfold set_usb_enabled.
  destruct (supported_capabilities info !! USB) as [u|];
    [destruct (enabled_capabilities (config info) !! USB)|]; cbn; auto.
  destruct (u =? EDGE_CAPABILITIES); cbn; auto.
Qed.

Lemma set_nfc_enabled_maps (info : DeviceInfo) :
  let info' := set_nfc_enabled info in
  supported_capabilities info' = supported_capabilities info /\
  match supported_capabilities info !! NFC,
        enabled_capabilities (config info) !! NFC with
  | Some n, None =>
      enabled_capabilities (config info')
      = <[ NFC := n ]> (enabled_capabilities (config info))
  | _, _ => info' = info
  end.
Proof.
  unfold set_nfc_enabled.
  destruct (supported_capabilities info !! NFC) as [n|];
    [destruct (enabled_capabilities (config info) !! NFC)|]; cbn; auto.
Qed.

Lemma strip_nfc_maps (info : DeviceInfo) :
  let info' := strip_nfc info in
  if version_geb (version info) (V 4 0 0) && lacks_nfc info
  then supported_capabilities info' = delete NFC (supported_capabilities info) /\
       enabled_capabilities (config info')
       = delete NFC (enabled_capabilities (config info))
  else info' = info.
Proof. unfold strip_nfc. case_match; cbn; auto. Qed.

Lemma normalize_usb_lookup (interfaces : Z) (info : DeviceInfo) :
  let info' := normalize interfaces info in
  match supported_capabilities info !! USB,
        enabled_capabilities (config info) !! USB with
  | Some u, None =>
      supported_capabilities info' !! USB
      = Some (if u =? EDGE_CAPABILITIES
              then Z.lor CAPABILITY.OTP CAPABILITY.U2F else u) /\
      enabled_capabilities (config info') !! USB
      = Some (mask_usb_enabled interfaces u)
  | _, _ =>
      supported_capabilities info' !! USB = supported_capabilities info !! USB /\
      enabled_capabilities (config info') !! USB
      = enabled_capabilities (config info) !! USB
  end.
Proof.
  unfold normalize.
  pose proof (set_usb_enabled_maps interfaces info) as H1.
  set (i1 := set_usb_enabled interfaces info) in *.
  pose proof (set_fips_fields i1) as (_ & _ & _ & _ & H2s & H2e).
  set (i2 := set_fips i1) in *.
  pose proof (set_nfc_enabled_maps i2) as [H3s H3e].
  set (i3 := set_nfc_enabled i2) in *.
  pose proof (strip_nfc_maps i3) as H4.
  set (i4 := strip_nfc i3) in *. cbv zeta in *.
  assert (supported_capabilities i4 !! USB = supported_capabilities i1 !! USB)
    as Hs.
  { destruct (version_geb (version i3) (V 4 0 0) && lacks_nfc i3).
    - destruct H4 as [-> _]. rewrite lookup_delete_ne by discriminate. congruence.
    - rewrite H4. congruence. }
  assert (enabled_capabilities (config i3) !! USB
          = enabled_capabilities (config i1) !! USB) as He3.
  { destruct (supported_capabilities i2 !! NFC);
      [destruct (enabled_capabilities (config i2) !! NFC)|];
      rewrite ?H3e, ?lookup_insert_ne by discriminate; congruence. }
  assert (enabled_capabilities (config i4) !! USB
          = enabled_capabilities (config i1) !! USB) as He.
  { destruct (version_geb (version i3) (V 4 0 0) && lacks_nfc i3).
    - destruct H4 as [_ ->]. rewrite lookup_delete_ne by discriminate. exact He3.
    - rewrite H4. exact He3. }
  rewrite Hs, He.
  destruct (supported_capabilities info !! USB) as [u|] eqn:Eu;
    [destruct (enabled_capabilities (config info) !! USB) eqn:Ee|].
  - rewrite H1. auto.
  - destruct H1 as [-> ->]. rewrite lookup_insert_eq. split; [|reflexivity].
    destruct (u =? EDGE_CAPABILITIES); [apply lookup_singleton_eq | exact Eu].
  - rewrite H1. auto.
Qed.

Lemma normalize_nfc_lookup (interfaces : Z) (info : DeviceInfo) :
  enabled_capabilities (config info) !! NFC = None ->
  forall en sup,
    enabled_capabilities (config (normalize interfaces info)) !! NFC = Some en ->
    supported_capabilities (normalize interfaces info) !! NFC = Some sup ->
    en = sup.
Proof.
  intros Hnone en sup. unfold normalize.
  pose proof (set_usb_enabled_maps interfaces info) as H1.
  set (i1 := set_usb_enabled interfaces info) in *.
  pose proof (set_fips_fields i1) as (_ & _ & _ & _ & H2s & H2e).
  set (i2 := set_fips i1) in *.
  pose proof (set_nfc_enabled_maps i2) as [H3s H3e].
  set (i3 := set_nfc_enabled i2) in *.
  pose proof (strip_nfc_maps i3) as H4.
  set (i4 := strip_nfc i3) in *. cbv zeta in *.
  assert (enabled_capabilities (config i1) !! NFC = None) as He1.
  { destruct (supported_capabilities info !! USB) as [u|];
      [destruct (enabled_capabilities (config info) !! USB)|].
    - rewrite H1. exact Hnone.
    - destruct H1 as [_ ->]. rewrite lookup_insert_ne by discriminate.
      exact Hnone.
    - rewrite H1. exact Hnone. }
  destruct (version_geb (version i3) (V 4 0 0) && lacks_nfc i3).
  { destruct H4 as [_ ->]. rewrite lookup_delete_eq. discriminate. }
  rewrite H4, H3s.
  destruct (supported_capabilities i2 !! NFC) as [n|] eqn:En.
  - rewrite H2e, He1 in H3e. rewrite H3e, lookup_insert_eq. congruence.
  - intros _ Hsup. discriminate Hsup.
Qed.

Lemma edge_bits (i : Z) :
  0 <= i -> Z.testbit EDGE_CAPABILITIES i = true -> i = 0 \/ i = 1 \/ i = 2.
Proof.
  intros Hi Hb. change EDGE_CAPABILITIES with 7 in Hb.
  destruct (Z_lt_le_dec i 3) as [Hlt|Hge]; [lia|].
  rewrite (Z.bits_above_log2 7 i) in Hb; [discriminate | lia |].
  change (Z.log2 7) with 2. lia.
Qed.

(** C1, counterexample: on an Edge reported with all three USB interfaces
    active, [read_info] narrows the supported USB set to OTP+U2F but records
    the CCID bit as enabled. *)
Lemma edge_enabled_exceeds_supported :
  enabled_capabilities (config edge_raw) !! USB = None /\
  exists info c,
    read_info (Some (PID_ALL YK4)) edge_ccid = (Ok info, c) /\
    info = normalize 7 edge_raw /\
    enabled_capabilities (config info) !! USB = Some 7 /\
    supported_capabilities info !! USB = Some 3 /\
    ~ flags_subseteq 7 3.
Proof.
  split; [reflexivity|]. eexists _, _. split; [reflexivity|].
  repeat split; try reflexivity.
  intros H. specialize (H 2 ltac:(lia) eq_refl). discriminate H.
Qed.

(** C1 (amended): for a raw DeviceInfo without an enabled entry for USB,
    normalization records as enabled exactly the supported USB set the
    resolver reported, masked by the active interfaces: bit 0 (OTP) is kept
    only with the OTP interface, bits 1 and 9 (U2F, FIDO2) only with the FIDO
    interface, bits 2 to 5 (the CCID bit, OpenPGP, PIV, OATH) only with the
    CCID interface, and every other bit is kept. The recorded set is
    therefore a subset of what the resolver reported as supported, without
    OTP when the OTP interface is absent, and a subset of the supported USB
    set of the result unless the device is the Edge combination with the
    CCID interface active. An NFC entry that normalization adds equals the
    supported NFC set. Entries that were already present are not covered. *)
Theorem normalize_enabled_within_supported (interfaces : Z) (info : DeviceInfo) :
  enabled_capabilities (config info) !! USB = None ->
  let info' := normalize interfaces info in
  (forall usb, supported_capabilities info !! USB = Some usb ->
     exists en,
       enabled_capabilities (config info') !! USB = Some en /\
       en = mask_usb_enabled interfaces usb /\
       (forall i, 0 <= i ->
          Z.testbit en i
          = Z.testbit usb i
            && (if i =? 0 then flag_in USB_INTERFACE.OTP interfaces
                else if (i =? 1) || (i =? 9)
                     then flag_in USB_INTERFACE.FIDO interfaces
                else if (2 <=? i) && (i <=? 5)
                     then flag_in USB_INTERFACE.CCID interfaces
                else true)) /\
       flags_subseteq en usb /\
       (flag_in USB_INTERFACE.OTP interfaces = false ->
        flag_in CAPABILITY.OTP en = false) /\
       (usb <> EDGE_CAPABILITIES \/
        flag_in USB_INTERFACE.CCID interfaces = false ->
        exists sup,
          supported_capabilities info' !! USB = Some sup /\
          flags_subseteq en sup)) /\
  (supported_capabilities info !! USB = None ->
   enabled_capabilities (config info') !! USB = None) /\
  (enabled_capabilities (config info) !! NFC = None ->
   forall en sup,
     enabled_capabilities (config info') !! NFC = Some en ->
     supported_capabilities info' !! NFC = Some sup ->
     en = sup).
Proof.
  intros Hnone info'. pose proof (normalize_usb_lookup interfaces info) as H.
  cbv zeta in H. fold info' in H. rewrite Hnone in H. split; [|split].
  - intros usb Husb. rewrite Husb in H. destruct H as [Hs He].
    exists (mask_usb_enabled interfaces usb). split; [exact He|].
    split; [reflexivity|].
    split; [intros i Hi; apply mask_usb_enabled_bits; exact Hi|].
    split; [apply mask_usb_enabled_subseteq|].
    split; [apply mask_usb_enabled_otp|].
    intros Hcase. eexists. split; [exact Hs|].
    destruct (Z.eqb_spec usb EDGE_CAPABILITIES) as [Hedge | _].
    + destruct Hcase as [Hne | Hccid]; [congruence|]. subst usb.
      intros i Hi Hb.
      pose proof (mask_usb_enabled_subseteq interfaces _ i Hi Hb) as Hbit.
      destruct (edge_bits i Hi Hbit) as [-> | [-> | ->]]; try reflexivity.
      rewrite mask_usb_enabled_ccid in Hb by exact Hccid. discriminate Hb.
    + apply mask_usb_enabled_subseteq.
  - intros Husb. rewrite Husb in H. destruct H as [_ H]. exact H.
  - intros Hnfc. apply normalize_nfc_lookup. exact Hnfc.
Qed.

Lemma normalize_enabled_within_supported_witness :
  exists en,
    enabled_capabilities (config (normalize 3 edge_raw)) !! USB = Some en /\
    en = 3 /\
    flags_subseteq en EDGE_CAPABILITIES /\
    exists sup,
      supported_capabilities (normalize 3 edge_raw) !! USB = Some sup /\
      flags_subseteq en sup.
Proof.
  destruct (normalize_enabled_within_supported 3 edge_raw) as (H & _ & _).
  - reflexivity.
  - destruct (H EDGE_CAPABILITIES) as (en & He & Hen & _ & Hsub & _ & Hsup).
    + reflexivity.
    + exists en. split; [exact He|]. split; [exact Hen|].
      split; [exact Hsub|]. apply Hsup. right. reflexivity.
Defined.

(** ** Idempotence of the normalization phase *)

(** Each step leaves a record alone once its guard can no longer fire. *)
Lemma set_usb_enabled_done (interfaces : Z) (info : DeviceInfo) :
  (is_Some (supported_capabilities info !! USB) ->
   is_Some (enabled_capabilities (config info) !! USB)) ->
  set_usb_enabled interfaces info = info.
Proof.
  intros Hdone. unfold set_usb_enabled.
  destruct (supported_capabilities info !! USB) as [u|]; [|reflexivity].
  destruct (enabled_capabilities (config info) !! USB); [reflexivity|].
  destruct Hdone as [x Hx]; [eexists; reflexivity | discriminate Hx].
Qed.

Lemma set_fips_done (info : DeviceInfo) :
  (is_fips_version (version info) = true -> is_fips info = true) ->
  set_fips info = info.
Proof.
  intros Hdone. unfold set_fips, set_is_fips.
  destruct (is_fips_version (version info)); [|reflexivity].
  destruct info; cbn in *. rewrite Hdone; reflexivity.
Qed.

Lemma set_nfc_enabled_done (info : DeviceInfo) :
  (is_Some (supported_capabilities info !! NFC) ->
   is_Some (enabled_capabilities (config info) !! NFC)) ->
  set_nfc_enabled info = info.
Proof.
  intros Hdone. unfold set_nfc_enabled.
  destruct (supported_capabilities info !! NFC) as [n|]; [|reflexivity].
  destruct (enabled_capabilities (config info) !! NFC); [reflexivity|].
  destruct Hdone as [x Hx]; [eexists; reflexivity | discriminate Hx].
Qed.

Lemma strip_nfc_done (info : DeviceInfo) :
  (version_geb (version info) (V 4 0 0) && lacks_nfc info = true ->
   supported_capabilities info !! NFC = None /\
   enabled_capabilities (config info) !! NFC = None) ->
  strip_nfc info = info.
Proof.
  intros Hdone. unfold strip_nfc.
  destruct (version_geb (version info) (V 4 0 0) && lacks_nfc info);
    [|reflexivity].
  destruct (Hdone eq_refl) as [Hs He].
  unfold set_enabled_capabilities, set_supported_capabilities.
  destruct info as [[en a c d] s v f sup l fi sk]; cbn in *.
  rewrite (delete_id sup NFC Hs), (delete_id en NFC He). reflexivity.
Qed.

(** What a normalized record satisfies. *)
Lemma normalize_usb_done (interfaces : Z) (info : DeviceInfo) :
  let info' := normalize interfaces info in
  is_Some (supported_capabilities info' !! USB) ->
  is_Some (enabled_capabilities (config info') !! USB).
Proof.
  pose proof (normalize_usb_lookup interfaces info) as H. cbv zeta in *.
  destruct (supported_capabilities info !! USB) as [u|];
    [destruct (enabled_capabilities (config info) !! USB) as [e|]|];
    destruct H as [Hs He]; rewrite Hs, He; intros [x Hx];
    try discriminate Hx; eexists; reflexivity.
Qed.

Lemma normalize_nfc_done (interfaces : Z) (info : DeviceInfo) :
  let info' := normalize interfaces info in
  (is_Some (supported_capabilities info' !! NFC) ->
   is_Some (enabled_capabilities (config info') !! NFC)) /\
  (version_geb (version info') (V 4 0 0) && lacks_nfc info' = true ->
   supported_capabilities info' !! NFC = None /\
   enabled_capabilities (config info') !! NFC = None).
Proof.
  unfold normalize.
  set (i2 := set_fips (set_usb_enabled interfaces info)).
  pose proof (set_nfc_enabled_maps i2) as [H3s H3e].
  set (i3 := set_nfc_enabled i2) in *.
  pose proof (strip_nfc_maps i3) as H4.
  pose proof (strip_nfc_fields i3) as (Hv & Hf & _ & _).
  set (i4 := strip_nfc i3) in *. cbv zeta in *.
  assert (lacks_nfc i4 = lacks_nfc i3) as Hl
    by (unfold lacks_nfc; rewrite Hv, Hf; reflexivity).
  rewrite Hv, Hl.
  destruct (version_geb (version i3) (V 4 0 0) && lacks_nfc i3).
  - destruct H4 as [-> ->]. rewrite !lookup_delete_eq. split.
    + intros [x Hx]. discriminate Hx.
    + intros _. split; reflexivity.
  - rewrite H4. split; [|discriminate].
    rewrite H3s.
    destruct (supported_capabilities i2 !! NFC) as [n|];
      [destruct (enabled_capabilities (config i2) !! NFC) as [e|] eqn:Ee|].
    + rewrite H3e, Ee. intros _. eexists; reflexivity.
    + rewrite H3e, lookup_insert_eq. intros _. eexists; reflexivity.
    + intros [x Hx]. discriminate Hx.
Qed.

(** C6: the normalization phase is idempotent. A second run, with whatever
    interfaces, changes nothing: the supported and the enabled capability
    maps (and every other field) are those of the first run. *)
Theorem normalize_idempotent (interfaces interfaces' : Z) (info : DeviceInfo) :
  normalize interfaces' (normalize interfaces info) = normalize interfaces info /\
  supported_capabilities (normalize interfaces (normalize interfaces info))
  = supported_capabilities (normalize interfaces info) /\
  enabled_capabilities (config (normalize interfaces (normalize interfaces info)))
  = enabled_capabilities (config (normalize interfaces info)).
Proof.
  assert (forall i', normalize i' (normalize interfaces info)
                     = normalize interfaces info) as Hfix.
  { intros i'.
    pose proof (normalize_usb_done interfaces info) as Husb.
    pose proof (normalize_nfc_done interfaces info) as [Hnfc Hstrip].
    pose proof (normalize_fields interfaces info) as (Hv & _ & _ & Hfips).
    cbv zeta in *.
    set (n := normalize interfaces info) in *.
    unfold normalize at 1.
    rewrite (set_usb_enabled_done i' n Husb).
    rewrite set_fips_done.
    - rewrite (set_nfc_enabled_done n Hnfc).
      apply strip_nfc_done. exact Hstrip.
    - rewrite Hfips, Hv. intros ->. reflexivity. }
  split; [apply Hfix|]. rewrite Hfix. split; reflexivity.
Qed.

(** ** Computations over a connection *)

Lemma bind_unfold {conn A B : Type} (m : IO conn A) (k : A -> IO conn B)
  (c : conn) :
  (m ≫= k) c
  = match m c with
    | (Ok a, c') => k a c'
    | (Raise e, c') => (Raise e, c')
    end.
Proof. reflexivity. Qed.

Lemma bind_ok {conn A B : Type} (m : IO conn A) (k : A -> IO conn B)
  (c c' : conn) (a : A) :
  m c = (Ok a, c') -> (m ≫= k) c = k a c'.
Proof. intros E. rewrite bind_unfold, E. reflexivity. Qed.

Lemma bind_raise {conn A B : Type} (m : IO conn A) (k : A -> IO conn B)
  (c c' : conn) (e : Exception) :
  m c = (Raise e, c') -> (m ≫= k) c = (Raise e, c').
Proof. intros E. rewrite bind_unfold, E. reflexivity. Qed.

Lemma bind_ok_inv {conn A B : Type} (m : IO conn A) (k : A -> IO conn B)
  (c c' : conn) (b : B) :
  (m ≫= k) c = (Ok b, c') ->
  exists a c1, m c = (Ok a, c1) /\ k a c1 = (Ok b, c').
Proof.
  rewrite bind_unfold. destruct (m c) as [[a|e] c1]; [eauto | discriminate].
Qed.

Lemma try_except_ok {conn A : Type} (body : IO conn A) handler (c c' : conn)
  (a : A) :
  body c = (Ok a, c') -> try_except body handler c = (Ok a, c').
Proof. intros E. unfold try_except. rewrite E. reflexivity. Qed.

Lemma try_except_caught {conn A : Type} (body h : IO conn A) handler
  (c c' : conn) (e : Exception) :
  body c = (Raise e, c') -> handler e = Some h ->
  try_except body handler c = h c'.
Proof. intros E Hh. unfold try_except. rewrite E, Hh. reflexivity. Qed.

Lemma try_except_uncaught {conn A : Type} (body : IO conn A) handler
  (c c' : conn) (e : Exception) :
  body c = (Raise e, c') -> handler e = None ->
  try_except body handler c = (Raise e, c').
Proof. intros E Hh. unfold try_except. rewrite E, Hh. reflexivity. Qed.

Lemma except_other {conn A : Type} (cls e : Exception) (h : IO conn A) :
  e <> cls -> except cls h e = None.
Proof. intros Hne. unfold except. destruct (decide (e = cls)); congruence. Qed.

(** ** The CCID fallback *)

Section CcidFallback.

Context {conn : Type} `{Connection conn}.

Lemma ccid_synthesize_supported (interfaces : Z) (version : option Version)
  (c c' : conn) (info : DeviceInfo) :
  ccid_synthesize interfaces version c = (Ok info, c') ->
  exists capabilities,
    supported_capabilities info
    = <[ NFC := capabilities ]> {[ USB := capabilities ]}.
Proof.
  unfold ccid_synthesize. intros E.
  apply bind_ok_inv in E as ([[caps v] s] & c1 & _ & E).
  apply bind_ok_inv in E as (caps' & c2 & _ & E).
  injection E as <- _. eexists. reflexivity.
Qed.

(** When the fallback is taken. *)
Lemma ccid_management_not_available (c c1 : conn) :
  ManagementSession_init c = (Raise ApplicationNotAvailableError, c1) ->
  ccid_management c = (Ok (inr None), c1).
Proof.
  intros E. unfold ccid_management.
  rewrite (bind_ok _ _ c c1 None); [reflexivity|].
  rewrite (try_except_caught _ (mret None) _ c c1 ApplicationNotAvailableError);
    [reflexivity | apply (bind_raise _ _ _ _ _ E) | reflexivity].
Qed.

Lemma ccid_management_not_supported (c c1 c2 c3 : conn)
  (mgmt : ManagementSession) (r : list byte) :
  ManagementSession_init c = (Ok mgmt, c1) ->
  read_device_info mgmt c1 = (Raise NotSupportedError, c2) ->
  send_and_receive [xa4; x04; x00; x08] c2 = (Ok r, c3) ->
  ccid_management c = (Ok (inr (Some (mgmt_version mgmt))), c3).
Proof.
  intros E1 E2 E3. unfold ccid_management.
  rewrite (bind_ok _ _ c c1 (Some mgmt));
    [| apply try_except_ok; rewrite (bind_ok _ _ _ _ _ E1); reflexivity].
  apply try_except_ok.
  rewrite (try_except_caught _
             (send_and_receive [xa4; x04; x00; x08]
              ≫= λ _, mret (inr (Some (mgmt_version mgmt))))
             _ c1 c2 NotSupportedError);
    [| apply (bind_raise _ _ _ _ _ E2) | reflexivity].
  rewrite (bind_ok _ _ _ _ _ E3). reflexivity.
Qed.

End CcidFallback.

(** C9: a DeviceInfo synthesized by the fallback path of the CCID resolver
    (the first [try] block fell through instead of returning the management
    applet's record) has one and the same capability set recorded as
    supported for USB and for NFC. *)
Theorem ccid_fallback_nfc_equals_usb {conn : Type} `{Connection conn}
  (key_type : option YUBIKEY) (interfaces : Z) (c c1 c' : conn)
  (version : option Version) (info : DeviceInfo) :
  ccid_management c = (Ok (inr version), c1) ->
  _read_info_ccid key_type interfaces c = (Ok info, c') ->
  exists capabilities,
    supported_capabilities info !! USB = Some capabilities /\
    supported_capabilities info !! NFC = Some capabilities.
Proof.
  intros Hm E. unfold _read_info_ccid in E.
  rewrite (bind_ok _ _ _ _ _ Hm) in E.
  apply ccid_synthesize_supported in E as [caps ->].
  exists caps. split.
  - rewrite lookup_insert_ne by discriminate. apply lookup_singleton_eq.
  - apply lookup_insert_eq.
Qed.

Lemma ccid_fallback_nfc_equals_usb_witness :
  exists info c',
    _read_info_ccid (Some NEO) 7 neo_ccid = (Ok info, c') /\
    supported_capabilities info !! USB = Some 0x23 /\
    supported_capabilities info !! NFC = Some 0x23.
Proof.
  destruct (_read_info_ccid (Some NEO) 7 neo_ccid) as [r c'] eqn:E.
  assert (E' := E). vm_compute in E'. injection E' as Er Ec.
  destruct r as [info|e]; [|discriminate Er].
  destruct (ccid_fallback_nfc_equals_usb (Some NEO) 7 neo_ccid
              (snd (ccid_management neo_ccid)) c' None info)
    as (caps & Husb & Hnfc).
  - reflexivity.
  - exact E.
  - exists info, c'. injection Er as <-. split; [reflexivity|].
    split; reflexivity.
Defined.

(** ** The reclaim-retry loop of the OTP resolver *)

Section ReclaimLoop.

Context {conn : Type} `{Connection conn}.

Lemma reclaim_loop_S (n i : nat) (interfaces : Z)
  (st : ManagementSession + YubiOtpSession) :
  reclaim_loop (S n) i interfaces st
  = (r ← try_except (x ← acquire_otp st; mret (Some x))
           (except CommandRejectedError (mret None));
     match r with
     | None => _ ← do_sleep 500; reclaim_loop n (S i) interfaces st
     | Some (inl info) => mret (Returned info)
     | Some (inr otp) =>
         serial ← try_except (s ← get_serial otp; mret (Some s))
                    (except CommandRejectedError (mret None));
         match serial with
         | Some s => mret (Broke i otp (Some s))
         | None =>
             if interfaces =? USB_INTERFACE.OTP
             then mret (Broke i otp None)
             else _ ← do_sleep 500;
                  reclaim_loop n (S i) interfaces (inr otp)
         end
     end).
Proof. reflexivity. Qed.

(** With the OTP session open, [k] rejected serial reads followed by an
    answer leave the loop by [break] in iteration [i + k], as long as
    iterations remain. *)
Lemma reclaim_loop_answers (k : nat) :
  forall (n i : nat) (interfaces : Z) (otp : YubiOtpSession) (s : Z) (c : conn),
    interfaces <> USB_INTERFACE.OTP ->
    rejects_then_answers k otp s c ->
    (k < n)%nat ->
    exists c',
      reclaim_loop n i interfaces (inr otp) c
      = (Ok (Broke (i + k) otp (Some s)), c').
Proof.
  induction k as [|k IH]; intros n i interfaces otp s c Hif Hdev Hlt;
    (destruct n as [|n]; [lia|]); rewrite reclaim_loop_S;
    cbn [acquire_otp].
  - destruct Hdev as [c' E]. exists c'.
    rewrite (bind_ok _ _ c c (Some (inr otp))) by reflexivity.
    rewrite (bind_ok _ _ c c' (Some s))
      by (apply try_except_ok; rewrite (bind_ok _ _ _ _ _ E); reflexivity).
    rewrite Nat.add_0_r. reflexivity.
  - destruct Hdev as (c1 & E & Hdev).
    rewrite (bind_ok _ _ c c (Some (inr otp))) by reflexivity.
    rewrite (bind_ok _ _ c c1 None).
    2:{ rewrite (try_except_caught _ (mret None) _ c c1 CommandRejectedError);
          [reflexivity | apply (bind_raise _ _ _ _ _ E) | reflexivity]. }
    destruct (Z.eqb_spec interfaces USB_INTERFACE.OTP) as [|_]; [contradiction|].
    rewrite (bind_ok _ _ c1 (sleep 500 c1) tt) by reflexivity.
    destruct (IH n (S i) interfaces otp s (sleep 500 c1) Hif Hdev ltac:(lia))
      as [c' E'].
    exists c'. replace (i + S k)%nat with (S i + k)%nat by lia. exact E'.
Qed.

(** Entering the loop when the management applet gives no info: after [k]
    rejections and an answer the loop breaks in iteration [k]. *)
Lemma otp_retry_answers (k : nat) (interfaces : Z) (otp : YubiOtpSession)
  (s : Z) (c c0 : conn) :
  interfaces <> USB_INTERFACE.OTP ->
  management_unavailable c otp c0 ->
  rejects_then_answers k otp s c0 ->
  (k < 8)%nat ->
  exists c', otp_retry interfaces c = (Ok (Broke k otp (Some s)), c').
Proof.
  intros Hif Hm Hdev Hlt. unfold otp_retry.
  destruct Hm as [(c1 & E1 & E2) | (mgmt & c1 & c2 & E1 & E2 & E3)].
  - rewrite (bind_ok _ _ c c0 (inr otp)).
    + apply (reclaim_loop_answers k 8 0 interfaces otp s c0 Hif Hdev Hlt).
    + rewrite (try_except_caught _ (YubiOtpSession_init ≫= λ otp, mret (inr otp))
                 _ c c1 ApplicationNotAvailableError);
        [| apply (bind_raise _ _ _ _ _ E1) | reflexivity].
      rewrite (bind_ok _ _ _ _ _ E2). reflexivity.
  - rewrite (bind_ok _ _ c c1 (inl mgmt))
      by (apply try_except_ok; rewrite (bind_ok _ _ _ _ _ E1); reflexivity).
    rewrite reclaim_loop_S.
    assert (acquire_otp (inl mgmt) c1 = (Ok (inr otp), c0)) as Ha.
    { unfold acquire_otp.
      rewrite (try_except_caught _ (YubiOtpSession_init ≫= λ otp, mret (inr otp))
                 _ c1 c2 NotSupportedError);
        [| apply (bind_raise _ _ _ _ _ E2) | reflexivity].
      rewrite (bind_ok _ _ _ _ _ E3). reflexivity. }
    rewrite (bind_ok _ _ c1 c0 (Some (inr otp)))
      by (apply try_except_ok; rewrite (bind_ok _ _ _ _ _ Ha); reflexivity).
    destruct k as [|k].
    + destruct Hdev as [c' E]. exists c'.
      rewrite (bind_ok _ _ c0 c' (Some s))
        by (apply try_except_ok; rewrite (bind_ok _ _ _ _ _ E); reflexivity).
      reflexivity.
    + destruct Hdev as (c3 & E & Hdev).
      rewrite (bind_ok _ _ c0 c3 None).
      2:{ rewrite (try_except_caught _ (mret None) _ c0 c3 CommandRejectedError);
            [reflexivity | apply (bind_raise _ _ _ _ _ E) | reflexivity]. }
      destruct (Z.eqb_spec interfaces USB_INTERFACE.OTP) as [|_];
        [contradiction|].
      rewrite (bind_ok _ _ c3 (sleep 500 c3) tt) by reflexivity.
      destruct (reclaim_loop_answers k 7 1 interfaces otp s (sleep 500 c3)
                  Hif Hdev ltac:(lia)) as [c' E'].
      exists c'. exact E'.
Qed.

Lemma otp_retry_enters (interfaces : Z) (otp : YubiOtpSession) (c c0 : conn) :
  management_unavailable c otp c0 ->
  otp_retry interfaces c
  = (serial ← try_except (s ← get_serial otp; mret (Some s))
                (except CommandRejectedError (mret None));
     match serial with
     | Some s => mret (Broke 0 otp (Some s))
     | None =>
         if interfaces =? USB_INTERFACE.OTP
         then mret (Broke 0 otp None)
         else _ ← do_sleep 500; reclaim_loop 7 1 interfaces (inr otp)
     end) c0.
Proof.
  intros [(c1 & E1 & E2) | (mgmt & c1 & c2 & E1 & E2 & E3)]; unfold otp_retry.
  - rewrite (bind_ok _ _ c c0 (inr otp)).
    + rewrite reclaim_loop_S. cbn [acquire_otp].
      rewrite (bind_ok _ _ c0 c0 (Some (inr otp))) by reflexivity. reflexivity.
    + rewrite (try_except_caught _ (YubiOtpSession_init ≫= λ otp, mret (inr otp))
                 _ c c1 ApplicationNotAvailableError);
        [| apply (bind_raise _ _ _ _ _ E1) | reflexivity].
      rewrite (bind_ok _ _ _ _ _ E2). reflexivity.
  - rewrite (bind_ok _ _ c c1 (inl mgmt))
      by (apply try_except_ok; rewrite (bind_ok _ _ _ _ _ E1); reflexivity).
    rewrite reclaim_loop_S.
    assert (acquire_otp (inl mgmt) c1 = (Ok (inr otp), c0)) as Ha.
    { unfold acquire_otp.
      rewrite (try_except_caught _ (YubiOtpSession_init ≫= λ otp, mret (inr otp))
                 _ c1 c2 NotSupportedError);
        [| apply (bind_raise _ _ _ _ _ E2) | reflexivity].
      rewrite (bind_ok _ _ _ _ _ E3). reflexivity. }
    rewrite (bind_ok _ _ c1 c0 (Some (inr otp)))
      by (apply try_except_ok; rewrite (bind_ok _ _ _ _ _ Ha); reflexivity).
    reflexivity.
Qed.

Lemma serial_read_rejected (otp : YubiOtpSession) (c c1 : conn) :
  get_serial otp c = (Raise CommandRejectedError, c1) ->
  try_except (s ← get_serial otp; mret (Some s))
    (except CommandRejectedError (mret None)) c
  = (Ok None, c1).
Proof.
  intros E.
  rewrite (try_except_caught _ (mret None) _ c c1 CommandRejectedError);
    [reflexivity | apply (bind_raise _ _ _ _ _ E) | reflexivity].
Qed.

(** With the OTP session open, [n] rejected reads use up [n] iterations. *)
Lemma reclaim_loop_rejected (n : nat) :
  forall (m i : nat) (interfaces : Z) (otp : YubiOtpSession) (c c_end : conn),
    interfaces <> USB_INTERFACE.OTP ->
    serial_rejected n otp c c_end ->
    reclaim_loop (n + m) i interfaces (inr otp) c
    = reclaim_loop m (i + n) interfaces (inr otp) c_end.
Proof.
  induction n as [|n IH]; intros m i interfaces otp c c_end Hif Hrej.
  - cbn in Hrej. subst c_end. rewrite Nat.add_0_r. reflexivity.
  - destruct Hrej as (c1 & E & Hrej).
    change (S n + m)%nat with (S (n + m)). rewrite reclaim_loop_S.
    cbn [acquire_otp].
    rewrite (bind_ok _ _ c c (Some (inr otp))) by reflexivity.
    rewrite (bind_ok _ _ c c1 None) by (apply serial_read_rejected; exact E).
    destruct (Z.eqb_spec interfaces USB_INTERFACE.OTP) as [|_]; [contradiction|].
    rewrite (bind_ok _ _ c1 (sleep 500 c1) tt) by reflexivity.
    rewrite (IH m (S i) interfaces otp _ c_end Hif Hrej).
    f_equal. lia.
Qed.

(** While [otp] is unset, [n] rejected info reads use up [n] iterations, on
    any set of interfaces. *)
Lemma reclaim_loop_info_rejected (n : nat) :
  forall (m i : nat) (interfaces : Z) (mgmt : ManagementSession)
         (c c_end : conn),
    info_rejected n mgmt c c_end ->
    reclaim_loop (n + m) i interfaces (inl mgmt) c
    = reclaim_loop m (i + n) interfaces (inl mgmt) c_end.
Proof.
  induction n as [|n IH]; intros m i interfaces mgmt c c_end Hrej.
  - cbn in Hrej. subst c_end. rewrite Nat.add_0_r. reflexivity.
  - destruct Hrej as (c1 & E & Hrej).
    change (S n + m)%nat with (S (n + m)). rewrite reclaim_loop_S.
    rewrite (bind_ok _ _ c c1 None).
    + rewrite (bind_ok _ _ c1 (sleep 500 c1) tt) by reflexivity.
      rewrite (IH m (S i) interfaces mgmt _ c_end Hrej). f_equal. lia.
    + rewrite (try_except_caught _ (mret None) _ c c1 CommandRejectedError);
        [reflexivity | | reflexivity].
      apply bind_raise. unfold acquire_otp.
      apply try_except_uncaught; [apply (bind_raise _ _ _ _ _ E)|].
      apply except_other. discriminate.
Qed.

End ReclaimLoop.

(** C7: when the channel rejects three serial reads with CommandRejected
    and answers the fourth, with interfaces other than OTP alone, the retry
    loop is left by [break] three iterations after the first read, whenever
    four iterations remain. In particular, when the management applet gives
    no device info, so that the reads start in the first iteration, the loop
    is left in its fourth iteration (index 3 of 0..7) and the OTP resolver,
    as well as [read_info] over an OTP connection, returns a DeviceInfo
    carrying the serial of the fourth attempt. *)
Theorem otp_reclaim_retry_serial {conn : Type} `{Connection conn}
  (pid : PID) (otp : YubiOtpSession) (s : Z) (c0 : conn) :
  usb_interfaces pid <> USB_INTERFACE.OTP ->
  rejects_then_answers 3 otp s c0 ->
  (forall n i, (3 < n)%nat ->
     exists c',
       reclaim_loop n i (usb_interfaces pid) (inr otp) c0
       = (Ok (Broke (i + 3) otp (Some s)), c')) /\
  (forall c,
     connection_type c = OtpConnection ->
     management_unavailable c otp c0 ->
     exists c',
       otp_retry (usb_interfaces pid) c = (Ok (Broke 3 otp (Some s)), c') /\
       (exists info,
          _read_info_otp (Some (yubikey_type pid)) (usb_interfaces pid) c
          = (Ok info, c') /\
          serial info = Some s) /\
       (exists info,
          read_info (Some pid) c = (Ok info, c') /\ serial info = Some s)).
Proof.
  intros Hif Hdev. split.
  { intros n i Hn.
    apply (reclaim_loop_answers 3 n i (usb_interfaces pid) otp s c0 Hif Hdev Hn). }
  intros c Htype Hm.
  destruct (otp_retry_answers 3 (usb_interfaces pid) otp s c c0 Hif Hm Hdev
              ltac:(lia)) as [c' E].
  exists c'. split; [exact E|].
  assert (_read_info_otp (Some (yubikey_type pid)) (usb_interfaces pid) c
          = (Ok (otp_synthesize (Some (yubikey_type pid)) (usb_interfaces pid)
                   otp (Some s)), c')) as Eo.
  { unfold _read_info_otp. rewrite (bind_ok _ _ _ _ _ E). reflexivity. }
  split.
  - eexists. split; [exact Eo | reflexivity].
  - eexists. split.
    + unfold read_info. rewrite Htype. rewrite (bind_ok _ _ _ _ _ Eo).
      reflexivity.
    + rewrite normalize_serial. reflexivity.
Qed.

Lemma otp_reclaim_retry_serial_witness :
  exists c',
    otp_retry 7 reclaiming
    = (Ok (Broke 3 {| otp_version := V 4 3 1 |} (Some 7654321)), c') /\
    clock_ms c' = 1500 /\
    exists info,
      read_info (Some (PID_ALL YK4)) reclaiming = (Ok info, c') /\
      serial info = Some 7654321.
Proof.
  destruct (otp_reclaim_retry_serial (PID_ALL YK4) {| otp_version := V 4 3 1 |}
              7654321
              (snd (YubiOtpSession_init (snd (ManagementSession_init reclaiming)))))
    as [_ W].
  - discriminate.
  - cbn. eexists. split; [reflexivity|]. eexists. split; [reflexivity|].
    eexists. split; [reflexivity|]. eexists. reflexivity.
  - destruct (W reclaiming) as (c' & E & _ & Hinfo).
    + reflexivity.
    + left. eexists. split; reflexivity.
    + exists c'. split; [exact E|]. split; [|exact Hinfo].
      assert (E' := E). vm_compute in E'. injection E' as <-. reflexivity.
Defined.

(** ** Which errors the resolvers catch *)

Section Boundaries.

Context {conn : Type} `{Connection conn}.

(** The applet scan of the CCID fallback swallows every error. *)
Lemma scan_applets_total (applets : list (list byte * Z)) :
  forall (capabilities : Z) (c : conn),
    exists capabilities' c',
      scan_applets applets capabilities c = (Ok capabilities', c').
Proof.
  induction applets as [|[aid code] rest IH]; intros capabilities c.
  - eexists _, _. reflexivity.
  - cbn [scan_applets]. rewrite bind_unfold. unfold try_except at 1.
    rewrite bind_unfold.
    destruct (select aid c) as [[r|e] c1]; cbn; apply IH.
Qed.

Lemma ccid_management_init_raises (c c1 : conn) (e : Exception) :
  ManagementSession_init c = (Raise e, c1) ->
  e <> ApplicationNotAvailableError ->
  ccid_management c = (Raise e, c1).
Proof.
  intros E Hne. unfold ccid_management. apply bind_raise.
  apply try_except_uncaught; [apply (bind_raise _ _ _ _ _ E)|].
  apply except_other. exact Hne.
Qed.

Lemma ccid_management_info_raises (c c1 c2 : conn) (mgmt : ManagementSession)
  (e : Exception) :
  ManagementSession_init c = (Ok mgmt, c1) ->
  read_device_info mgmt c1 = (Raise e, c2) ->
  e <> ApplicationNotAvailableError -> e <> NotSupportedError ->
  ccid_management c = (Raise e, c2).
Proof.
  intros E1 E2 Hna Hns. unfold ccid_management.
  rewrite (bind_ok _ _ c c1 (Some mgmt))
    by (apply try_except_ok; rewrite (bind_ok _ _ _ _ _ E1); reflexivity).
  apply try_except_uncaught; [|apply except_other; exact Hna].
  apply try_except_uncaught; [|apply except_other; exact Hns].
  apply (bind_raise _ _ _ _ _ E2).
Qed.

Lemma otp_retry_init_raises (interfaces : Z) (c c1 : conn) (e : Exception) :
  ManagementSession_init c = (Raise e, c1) ->
  e <> ApplicationNotAvailableError ->
  otp_retry interfaces c = (Raise e, c1).
Proof.
  intros E Hne. unfold otp_retry. apply bind_raise.
  apply try_except_uncaught; [apply (bind_raise _ _ _ _ _ E)|].
  apply except_other. exact Hne.
Qed.

(** In any iteration of the loop, an error of the info command other than
    NotSupported and CommandRejected leaves the loop as it is. *)
Lemma reclaim_loop_info_raises (n i : nat) (interfaces : Z)
  (mgmt : ManagementSession) (c0 c' : conn) (e : Exception) :
  read_device_info mgmt c0 = (Raise e, c') ->
  e <> NotSupportedError -> e <> CommandRejectedError ->
  reclaim_loop (S n) i interfaces (inl mgmt) c0 = (Raise e, c').
Proof.
  intros E Hns Hcr. rewrite reclaim_loop_S. apply bind_raise.
  apply try_except_uncaught; [|apply except_other; exact Hcr].
  apply bind_raise. unfold acquire_otp.
  apply try_except_uncaught; [|apply except_other; exact Hns].
  apply (bind_raise _ _ _ _ _ E).
Qed.

(** In any iteration, once [otp] is set, an error of the serial read other
    than CommandRejected leaves the loop as it is. *)
Lemma reclaim_loop_serial_raises (n i : nat) (interfaces : Z)
  (st : ManagementSession + YubiOtpSession) (otp : YubiOtpSession)
  (c0 c1 c' : conn) (e : Exception) :
  acquire_otp st c0 = (Ok (inr otp), c1) ->
  get_serial otp c1 = (Raise e, c') ->
  e <> CommandRejectedError ->
  reclaim_loop (S n) i interfaces st c0 = (Raise e, c').
Proof.
  intros Ea E Hcr. rewrite reclaim_loop_S.
  rewrite (bind_ok _ _ c0 c1 (Some (inr otp)))
    by (apply try_except_ok; rewrite (bind_ok _ _ _ _ _ Ea); reflexivity).
  apply bind_raise.
  apply try_except_uncaught; [|apply except_other; exact Hcr].
  apply (bind_raise _ _ _ _ _ E).
Qed.

Lemma otp_retry_info_raises (interfaces : Z) (k : nat) (c c1 c2 c3 : conn)
  (mgmt : ManagementSession) (e : Exception) :
  ManagementSession_init c = (Ok mgmt, c1) ->
  info_rejected k mgmt c1 c2 -> (k < 8)%nat ->
  read_device_info mgmt c2 = (Raise e, c3) ->
  e <> NotSupportedError -> e <> CommandRejectedError ->
  otp_retry interfaces c = (Raise e, c3).
Proof.
  intros E1 Hrej Hk E2 Hns Hcr. unfold otp_retry.
  rewrite (bind_ok _ _ c c1 (inl mgmt))
    by (apply try_except_ok; rewrite (bind_ok _ _ _ _ _ E1); reflexivity).
  replace 8%nat with (k + S (7 - k))%nat by lia.
  rewrite (reclaim_loop_info_rejected k (S (7 - k)) 0 interfaces mgmt c1 c2 Hrej).
  apply reclaim_loop_info_raises; assumption.
Qed.

Lemma otp_retry_serial_raises (interfaces : Z) (k : nat) (c c0 c2 c3 : conn)
  (otp : YubiOtpSession) (e : Exception) :
  management_unavailable c otp c0 ->
  serial_rejected k otp c0 c2 -> (k < 8)%nat ->
  k = 0%nat \/ interfaces <> USB_INTERFACE.OTP ->
  get_serial otp c2 = (Raise e, c3) ->
  e <> CommandRejectedError ->
  otp_retry interfaces c = (Raise e, c3).
Proof.
  intros Hm Hrej Hk Hif E Hcr. rewrite (otp_retry_enters _ otp c c0 Hm).
  destruct k as [|k].
  - cbn in Hrej. subst c2. apply bind_raise.
    apply try_except_uncaught; [|apply except_other; exact Hcr].
    apply (bind_raise _ _ _ _ _ E).
  - destruct Hif as [Hk0 | Hif]; [discriminate Hk0|].
    destruct Hrej as (c1 & E1 & Hrej).
    rewrite (bind_ok _ _ c0 c1 None) by (apply serial_read_rejected; exact E1).
    destruct (Z.eqb_spec interfaces USB_INTERFACE.OTP) as [|_]; [contradiction|].
    rewrite (bind_ok _ _ c1 (sleep 500 c1) tt) by reflexivity.
    replace 7%nat with (k + S (6 - k))%nat by lia.
    rewrite (reclaim_loop_rejected k (S (6 - k)) 1 interfaces otp _ c2 Hif Hrej).
    apply (reclaim_loop_serial_raises _ _ _ _ otp c2 c2);
      [reflexivity | exact E | exact Hcr].
Qed.

(** What the CTAP resolver returns: the management applet's record when both
    calls succeed, the guessed record otherwise. *)
Lemma read_info_ctap_outcome (key_type : option YUBIKEY) (interfaces : Z)
  (c : conn) :
  _read_info_ctap key_type interfaces c
  = match ManagementSession_init c with
    | (Raise _, c1) => (Ok (ctap_synthesize key_type), c1)
    | (Ok mgmt, c1) =>
        match read_device_info mgmt c1 with
        | (Raise _, c2) => (Ok (ctap_synthesize key_type), c2)
        | (Ok info, c2) => (Ok info, c2)
        end
    end.
Proof.
  unfold _read_info_ctap, try_except. rewrite bind_unfold.
  destruct (ManagementSession_init c) as [[mgmt|e] c1]; [|reflexivity].
  destruct (read_device_info mgmt c1) as [[info|e] c2]; reflexivity.
Qed.

Lemma read_info_fido (pid : option PID) (c : conn) :
  connection_type c = FidoConnection ->
  read_info pid c
  = (info ← _read_info_ctap (pid_key_type pid) (pid_interfaces pid);
     mret (normalize (pid_interfaces pid) info)) c.
Proof.
  intros Ht. unfold read_info. rewrite Ht. destruct pid; reflexivity.
Qed.

Lemma read_info_raises (pid : option PID) (c c' : conn) (e : Exception)
  (resolver : option YUBIKEY -> Z -> IO conn DeviceInfo) :
  (forall key_type interfaces, resolver key_type interfaces c = (Raise e, c')) ->
  (connection_type c = SmartCardConnection /\ resolver = _read_info_ccid) \/
  (connection_type c = OtpConnection /\ resolver = _read_info_otp) ->
  read_info pid c = (Raise e, c').
Proof.
  intros Hr [[Ht ->] | [Ht ->]]; unfold read_info; rewrite Ht;
    destruct pid; cbn; apply bind_raise; apply Hr.
Qed.

End Boundaries.

(** C5, counterexample: the CTAP resolver turns a lost channel into a
    guessed DeviceInfo. *)
Lemma ctap_catches_channel_error :
  fst (ManagementSession_init lost_fido) = Raise ChannelError /\
  fst (read_info (Some (PID_ALL SKY)) lost_fido)
  = Ok (normalize 7 (ctap_synthesize (Some SKY))) /\
  fst (read_info (Some (PID_ALL SKY)) lost_fido) <> Raise ChannelError.
Proof. repeat split; try reflexivity. discriminate. Qed.

(** C5 (amended): at the management-session boundary of the CCID resolver
    every error of the session constructor other than ApplicationNotAvailable
    and every error of the info command other than ApplicationNotAvailable
    and NotSupported propagates unmodified to the caller of [read_info]. In
    the OTP resolver the same holds for the constructor; for the info
    command in every iteration of the retry loop, with NotSupported and
    CommandRejected as the caught kinds, hence also after any number of
    rejections short of eight; and for the serial read in every iteration,
    with CommandRejected as the caught kind, hence for the first read and
    for a read after rejected ones. The CTAP resolver catches every error
    kind: over a FIDO connection [read_info] always returns a DeviceInfo,
    which is the normalized guess whenever the session constructor or the
    info command fails, with whatever error, and the normalized record of
    the management applet when both succeed. Any other connection is a
    [TypeError]. *)
Theorem fallback_boundaries {conn : Type} `{Connection conn}
  (pid : option PID) (c : conn) :
  (forall n i interfaces mgmt c0 e c',
     read_device_info mgmt c0 = (Raise e, c') ->
     e <> NotSupportedError -> e <> CommandRejectedError ->
     reclaim_loop (S n) i interfaces (inl mgmt) c0 = (Raise e, c')) /\
  (forall n i interfaces st otp c0 c1 e c',
     acquire_otp st c0 = (Ok (inr otp), c1) ->
     get_serial otp c1 = (Raise e, c') ->
     e <> CommandRejectedError ->
     reclaim_loop (S n) i interfaces st c0 = (Raise e, c')) /\
  match connection_type c with
  | SmartCardConnection =>
      (forall e c1,
         ManagementSession_init c = (Raise e, c1) ->
         e <> ApplicationNotAvailableError ->
         read_info pid c = (Raise e, c1)) /\
      (forall mgmt c1 e c2,
         ManagementSession_init c = (Ok mgmt, c1) ->
         read_device_info mgmt c1 = (Raise e, c2) ->
         e <> ApplicationNotAvailableError -> e <> NotSupportedError ->
         read_info pid c = (Raise e, c2))
  | OtpConnection =>
      (forall e c1,
         ManagementSession_init c = (Raise e, c1) ->
         e <> ApplicationNotAvailableError ->
         read_info pid c = (Raise e, c1)) /\
      (forall mgmt c1 k c2 e c3,
         ManagementSession_init c = (Ok mgmt, c1) ->
         info_rejected k mgmt c1 c2 -> (k < 8)%nat ->
         read_device_info mgmt c2 = (Raise e, c3) ->
         e <> NotSupportedError -> e <> CommandRejectedError ->
         read_info pid c = (Raise e, c3)) /\
      (forall otp c0 k c2 e c3,
         management_unavailable c otp c0 ->
         serial_rejected k otp c0 c2 -> (k < 8)%nat ->
         k = 0%nat \/ pid_interfaces pid <> USB_INTERFACE.OTP ->
         get_serial otp c2 = (Raise e, c3) ->
         e <> CommandRejectedError ->
         read_info pid c = (Raise e, c3))
  | FidoConnection =>
      (exists info c', read_info pid c = (Ok info, c')) /\
      (forall e c1,
         ManagementSession_init c = (Raise e, c1) ->
         read_info pid c
         = (Ok (normalize (pid_interfaces pid)
                  (ctap_synthesize (pid_key_type pid))), c1)) /\
      (forall mgmt c1 e c2,
         ManagementSession_init c = (Ok mgmt, c1) ->
         read_device_info mgmt c1 = (Raise e, c2) ->
         read_info pid c
         = (Ok (normalize (pid_interfaces pid)
                  (ctap_synthesize (pid_key_type pid))), c2)) /\
      (forall mgmt c1 info c2,
         ManagementSession_init c = (Ok mgmt, c1) ->
         read_device_info mgmt c1 = (Ok info, c2) ->
         read_info pid c = (Ok (normalize (pid_interfaces pid) info), c2))
  | OtherConnection => read_info pid c = (Raise TypeError, c)
  end.
Proof.
  split; [intros; apply reclaim_loop_info_raises; assumption|].
  split; [intros; eapply reclaim_loop_serial_raises; eassumption|].
  destruct (connection_type c) eqn:Ht.
  - split.
    + intros e c1 E Hne.
      apply (read_info_raises pid c c1 e _read_info_ccid); [|left; auto].
      intros k i. unfold _read_info_ccid. apply bind_raise.
      apply ccid_management_init_raises; assumption.
    + intros mgmt c1 e c2 E1 E2 Hna Hns.
      apply (read_info_raises pid c c2 e _read_info_ccid); [|left; auto].
      intros k i. unfold _read_info_ccid. apply bind_raise.
      apply (ccid_management_info_raises c c1 c2 mgmt); assumption.
  - assert (forall e c',
              otp_retry (pid_interfaces pid) c = (Raise e, c') ->
              read_info pid c = (Raise e, c')) as Hlift.
    { intros e c' E. unfold read_info. rewrite Ht.
      destruct pid; cbn; apply bind_raise; unfold _read_info_otp;
        apply bind_raise; exact E. }
    split; [|split].
    + intros e c1 E Hne. apply Hlift.
      apply otp_retry_init_raises; assumption.
    + intros mgmt c1 k c2 e c3 E1 Hrej Hk E2 Hns Hcr. apply Hlift.
      apply (otp_retry_info_raises _ k c c1 c2 c3 mgmt); assumption.
    + intros otp c0 k c2 e c3 Hm Hrej Hk Hif E Hcr. apply Hlift.
      apply (otp_retry_serial_raises _ k c c0 c2 c3 otp); assumption.
  - rewrite (read_info_fido pid c Ht), bind_unfold, read_info_ctap_outcome.
    split; [|split; [|split]].
    + destruct (ManagementSession_init c) as [[mgmt|e] c1];
        [destruct (read_device_info mgmt c1) as [[info|e] c2]|];
        eexists _, _; reflexivity.
    + intros e c1 E. rewrite E. reflexivity.
    + intros mgmt c1 e c2 E1 E2. rewrite E1, E2. reflexivity.
    + intros mgmt c1 info c2 E1 E2. rewrite E1, E2. reflexivity.
  - unfold read_info. rewrite Ht. destruct pid; reflexivity.
Qed.

Lemma fallback_boundaries_witness :
  read_info (Some (PID_ALL YK4)) lost_ccid
  = (Raise ChannelError, mkFake SmartCardConnection [] [] [] [] [] [] 0) /\
  read_info (Some (PID_ALL YK4)) garbled_otp
  = (Raise ProtocolError, mkFake OtpConnection [] [] [] [] [] [] 0) /\
  read_info (Some (PID_ALL YK4)) otp_lost_while_busy
  = (Raise ChannelError, mkFake OtpConnection [] [] [] [] [] [] 500) /\
  read_info (Some (PID_ALL SKY)) lost_fido
  = (Ok (normalize 7 (ctap_synthesize (Some SKY))),
     mkFake FidoConnection [] [] [] [] [] [] 0).
Proof.
  split; [|split; [|split]].
  - destruct (fallback_boundaries (Some (PID_ALL YK4)) lost_ccid)
      as (_ & _ & W & _).
    apply W; [reflexivity | discriminate].
  - destruct (fallback_boundaries (Some (PID_ALL YK4)) garbled_otp)
      as (_ & _ & _ & W & _).
    apply (W {| mgmt_version := V 5 4 3 |}
             (mkFake OtpConnection [] [Raise ProtocolError] [] [] [] [] 0)
             0%nat
             (mkFake OtpConnection [] [Raise ProtocolError] [] [] [] [] 0));
      [reflexivity | reflexivity | lia | reflexivity | discriminate
      | discriminate].
  - destruct (fallback_boundaries (Some (PID_ALL YK4)) otp_lost_while_busy)
      as (_ & _ & _ & W & _).
    apply (W {| mgmt_version := V 5 4 3 |}
             (mkFake OtpConnection []
                [Raise CommandRejectedError; Raise ChannelError] [] [] [] [] 0)
             1%nat
             (mkFake OtpConnection [] [Raise ChannelError] [] [] [] [] 500));
      [reflexivity | | lia | reflexivity | discriminate | discriminate].
    cbn [info_rejected]. eexists. split; [lazy; reflexivity|]. lazy. reflexivity.
  - destruct (fallback_boundaries (Some (PID_ALL SKY)) lost_fido)
      as (_ & _ & _ & W & _).
    apply (W ChannelError). reflexivity.
Defined.

(** ** The capability query of the CCID driver *)

Section ReadCapabilities.

Context {card : Type} `{CardConnection card}.

Lemma send_apdu_logged (self : CCIDDriver (card := Logged card))
  (cl ins p1 p2 : Z) (data : list byte) :
  let apdu := ([cl; ins; p1; p2; Z.of_nat (length data)] ++ map byte2int data)%list in
  send_apdu self cl ins p1 p2 data
  = let '((resp, sw1, sw2), c) := transmit apdu (fst (_conn self)) in
    ((map int2byte resp, Z.lor (Z.shiftl sw1 8) sw2),
     mkCCIDDriver (c, (snd (_conn self) ++ [apdu])%list) (_version self)).
Proof.
  unfold send_apdu. cbn [transmit Logged_connection].
  destruct (transmit _ (fst (_conn self))) as [[[resp sw1] sw2] c]. reflexivity.
Qed.

End ReadCapabilities.

(** C8, counterexample: with firmware 4.2.5 on a card without a management
    applet the SELECT is answered with 0x6a82; the capability instruction is
    never sent and the empty byte string is returned. *)
Lemma capability_query_not_issued :
  _version (mkCCIDDriver ((tt, []) : Logged unit) [4; 2; 5]) <> [4; 2; 4] /\
  fst (read_capabilities (mkCCIDDriver ((tt, []) : Logged unit) [4; 2; 5])) = [] /\
  snd (_conn (snd (read_capabilities
                     (mkCCIDDriver ((tt, []) : Logged unit) [4; 2; 5]))))
  = [SELECT_MGR_APDU] /\
  ~ In CAPABILITIES_APDU
      (snd (_conn (snd (read_capabilities
                          (mkCCIDDriver ((tt, []) : Logged unit) [4; 2; 5]))))).
Proof.
  split; [discriminate|]. split; [reflexivity|]. split; [reflexivity|].
  cbn. intros [E | []]. discriminate E.
Qed.

(** C8 (amended): with firmware exactly 4.2.4 [read_capabilities] returns the
    fixed bytes 03 01 01 3f and sends nothing; with any other version it
    addresses the management applet: the SELECT of its AID is the next
    command on the wire. The capability instruction follows only when the
    applet is selected (status word 0x9000), and its response data is
    returned; when the applet does not select, nothing more is sent and the
    empty byte string is returned. *)
Theorem read_capabilities_by_version {card : Type} `{CardConnection card}
  (self : CCIDDriver (card := Logged card)) :
  (_version self = [4; 2; 4] ->
   read_capabilities self = ([x03; x01; x01; x3f], self)) /\
  (_version self <> [4; 2; 4] ->
   exists resp sw1 sw2 c1,
     transmit SELECT_MGR_APDU (fst (_conn self)) = ((resp, sw1, sw2), c1) /\
     if Z.lor (Z.shiftl sw1 8) sw2 =? SW_OK
     then
       exists capa s1 s2 c2,
         transmit CAPABILITIES_APDU c1 = ((capa, s1, s2), c2) /\
         read_capabilities self
         = (map int2byte capa,
            mkCCIDDriver
              (c2, (snd (_conn self) ++ [SELECT_MGR_APDU; CAPABILITIES_APDU])%list)
              (_version self))
     else
       read_capabilities self
       = ([], mkCCIDDriver (c1, (snd (_conn self) ++ [SELECT_MGR_APDU])%list)
                (_version self))).
Proof.
  split.
  - intros Hv. unfold read_capabilities.
    rewrite bool_decide_eq_true_2 by exact Hv. reflexivity.
  - intros Hv. unfold read_capabilities.
    rewrite bool_decide_eq_false_2 by exact Hv.
    rewrite send_apdu_logged. cbv zeta.
    change ([0; INS_SELECT; 4; 0; Z.of_nat (length MGR_AID)]
              ++ map byte2int MGR_AID)%list with SELECT_MGR_APDU.
    destruct (transmit SELECT_MGR_APDU (fst (_conn self)))
      as [[[resp sw1] sw2] c1] eqn:E1.
    exists resp, sw1, sw2, c1. split; [reflexivity|].
    destruct (Z.lor (Z.shiftl sw1 8) sw2 =? SW_OK); cbn [negb].
    + rewrite send_apdu_logged. cbv zeta. cbn [_conn _version fst snd].
      change ([0; INS_YK4_CAPABILITIES; 0; 0; Z.of_nat (length (@nil byte))]
                ++ map byte2int [])%list with CAPABILITIES_APDU.
      destruct (transmit CAPABILITIES_APDU c1) as [[[capa s1] s2] c2] eqn:E2.
      exists capa, s1, s2, c2. split; [reflexivity|].
      rewrite <- app_assoc. reflexivity.
    + reflexivity.
Qed.

Lemma read_capabilities_by_version_witness :
  read_capabilities (mkCCIDDriver ((tt, []) : Logged unit) [4; 2; 4])
  = ([x03; x01; x01; x3f], mkCCIDDriver ((tt, []) : Logged unit) [4; 2; 4]) /\
  read_capabilities (mkCCIDDriver ((tt, []) : Logged unit) [4; 2; 5])
  = ([], mkCCIDDriver ((tt, [SELECT_MGR_APDU]) : Logged unit) [4; 2; 5]).
Proof.
  split.
  - apply (read_capabilities_by_version
             (mkCCIDDriver ((tt, []) : Logged unit) [4; 2; 4])).
    reflexivity.
  - destruct (read_capabilities_by_version
                (mkCCIDDriver ((tt, []) : Logged unit) [4; 2; 5]))
      as [_ W].
    destruct W as (resp & sw1 & sw2 & c1 & E & W); [discriminate|].
    injection E as <- <- <- <-. exact W.
Defined.

(** * Further properties of the code *)

(** ** What [read_info] returns is normalized *)

Lemma read_info_ok_inv {conn : Type} `{Connection conn} (pid : option PID)
  (c c' : conn) (info : DeviceInfo) :
  read_info pid c = (Ok info, c') ->
  exists raw, info = normalize (pid_interfaces pid) raw.
Proof.
  unfold read_info, pid_interfaces. intros E.
  destruct pid as [p|]; cbn in E;
    apply bind_ok_inv in E as (raw & c1 & _ & E); injection E as <- _;
    exists raw; reflexivity.
Qed.

(** X1: on every record [read_info] returns, each supported transport has an
    enabled entry. *)
Theorem read_info_enabled_covers_supported {conn : Type} `{Connection conn}
  (pid : option PID) (c c' : conn) (info : DeviceInfo) (t : TRANSPORT) :
  read_info pid c = (Ok info, c') ->
  is_Some (supported_capabilities info !! t) ->
  is_Some (enabled_capabilities (config info) !! t).
Proof.
  intros E. apply read_info_ok_inv in E as [raw ->].
  destruct t.
  - apply normalize_usb_done.
  - apply normalize_nfc_done.
Qed.

Lemma read_info_enabled_covers_supported_witness :
  is_Some (enabled_capabilities
             (config (normalize 7 (ctap_synthesize (Some NEO)))) !! NFC).
Proof.
  apply (read_info_enabled_covers_supported (Some (PID_ALL NEO)) lost_fido
           (snd (read_info (Some (PID_ALL NEO)) lost_fido))).
  - reflexivity.
  - eexists. reflexivity.
Defined.

(** X2: a record returned by [read_info] for firmware 4.0.0 or later and a
    form factor known not to have NFC (a nano, the lightning key, a USB-C
    keychain before 5.2.4) has no NFC entry, supported or enabled. *)
Theorem read_info_strips_nfc {conn : Type} `{Connection conn}
  (pid : option PID) (c c' : conn) (info : DeviceInfo) :
  read_info pid c = (Ok info, c') ->
  version_geb (version info) (V 4 0 0) = true ->
  lacks_nfc info = true ->
  supported_capabilities info !! NFC = None /\
  enabled_capabilities (config info) !! NFC = None.
Proof.
  intros E Hv Hl. apply read_info_ok_inv in E as [raw ->].
  apply normalize_nfc_done. rewrite Hv, Hl. reflexivity.
Qed.

(** X3: normalization touches the two capability dictionaries and the FIPS
    flag only; the FIPS flag is never cleared. *)
Theorem normalize_keeps_identity (interfaces : Z) (info : DeviceInfo) :
  let info' := normalize interfaces info in
  serial info' = serial info /\ version info' = version info /\
  form_factor info' = form_factor info /\ is_locked info' = is_locked info /\
  is_sky info' = is_sky info /\
  auto_eject_timeout (config info') = auto_eject_timeout (config info) /\
  challenge_response_timeout (config info')
  = challenge_response_timeout (config info) /\
  device_flags (config info') = device_flags (config info) /\
  (is_fips info = true -> is_fips info' = true).
Proof.
  cbv zeta. rewrite normalize_serial, normalize_version, normalize_form_factor,
    normalize_is_fips.
  repeat split; try (intros ->; apply orb_true_r);
    unfold normalize, strip_nfc, set_nfc_enabled, set_fips, set_usb_enabled;
    repeat (case_match; cbn); reflexivity.
Qed.

Lemma read_info_strips_nfc_witness :
  exists info c',
    read_info (Some (PID_ALL YK4)) nano_ccid = (Ok info, c') /\
    supported_capabilities nano_with_nfc !! NFC = Some YK5_CAPABILITIES /\
    supported_capabilities info !! NFC = None /\
    enabled_capabilities (config info) !! NFC = None.
Proof.
  eexists _, _. split; [reflexivity|]. split; [reflexivity|].
  apply (read_info_strips_nfc (Some (PID_ALL YK4)) nano_ccid
           (snd (read_info (Some (PID_ALL YK4)) nano_ccid)));
    reflexivity.
Defined.

Lemma normalize_keeps_identity_witness :
  serial (normalize 7 yk5_fips) = Some 16000001 /\
  is_fips (normalize 7 yk5_fips) = true.
Proof.
  destruct (normalize_keeps_identity 7 yk5_fips)
    as (Hs & _ & _ & _ & _ & _ & _ & _ & Hf).
  split; [exact Hs | apply Hf; reflexivity].
Defined.

(** ** Normalization and the USB entry the naming resolver needs *)

(** Normalization never adds an NFC entry to the supported dictionary. *)
Lemma normalize_adds_no_nfc (interfaces : Z) (info : DeviceInfo) :
  is_Some (supported_capabilities (normalize interfaces info) !! NFC) ->
  is_Some (supported_capabilities info !! NFC).
Proof.
  unfold normalize.
  pose proof (set_usb_enabled_maps interfaces info) as H1.
  set (i1 := set_usb_enabled interfaces info) in *.
  pose proof (set_fips_fields i1) as (_ & _ & _ & _ & H2s & _).
  set (i2 := set_fips i1) in *.
  pose proof (set_nfc_enabled_maps i2) as [H3s _].
  set (i3 := set_nfc_enabled i2) in *.
  pose proof (strip_nfc_maps i3) as H4. cbv zeta in *.
  destruct (version_geb (version i3) (V 4 0 0) && lacks_nfc i3).
  - destruct H4 as [-> _]. rewrite lookup_delete_eq. intros [x Hx].
    discriminate Hx.
  - rewrite H4, H3s, H2s.
    destruct (supported_capabilities info !! USB) as [u|];
      [destruct (enabled_capabilities (config info) !! USB)|].
    + rewrite H1. auto.
    + destruct H1 as [-> _]. destruct (u =? EDGE_CAPABILITIES); [|auto].
      rewrite lookup_singleton_ne by discriminate. intros [x Hx].
      discriminate Hx.
    + rewrite H1. auto.
Qed.

(** X4: normalization neither adds nor removes the USB entry of the
    supported dictionary, and it never adds an NFC entry; so [get_name]
    raises [KeyError] on a normalized record exactly when the resolver
    reported no USB capabilities. *)
Theorem normalize_keeps_usb_entry (interfaces : Z) (info : DeviceInfo)
  (key_type : option YUBIKEY) :
  let info' := normalize interfaces info in
  (supported_capabilities info' !! USB = None <->
   supported_capabilities info !! USB = None) /\
  (is_Some (supported_capabilities info' !! NFC) ->
   is_Some (supported_capabilities info !! NFC)) /\
  (get_name info' key_type = Raise KeyError <->
   supported_capabilities info !! USB = None).
Proof.
  cbv zeta.
  assert (supported_capabilities (normalize interfaces info) !! USB = None <->
          supported_capabilities info !! USB = None) as Husb.
  { pose proof (normalize_usb_lookup interfaces info) as H. cbv zeta in H.
    destruct (supported_capabilities info !! USB) as [u|];
      [destruct (enabled_capabilities (config info) !! USB)|];
      destruct H as [-> _]; split; intros; congruence. }
  split; [exact Husb|]. split.
  - apply normalize_adds_no_nfc.
  - rewrite <- Husb. unfold get_name.
    destruct (supported_capabilities (normalize interfaces info) !! USB);
      split; intros; congruence.
Qed.

Lemma normalize_keeps_usb_entry_witness :
  get_name (normalize 7 nfc_only) None = Raise KeyError.
Proof.
  apply (normalize_keeps_usb_entry 7 nfc_only None). reflexivity.
Defined.

(** ** More names *)

Lemma is_fips_version_major (v : Version) :
  is_fips_version v = true -> major v = 4.
Proof.
  unfold is_fips_version.
  rewrite andb_true_iff, version_leb_spec, version_ltb_spec.
  cbn [V major minor patch]. lia.
Qed.

Lemma major_4_not_preview (v : Version) : major v = 4 -> _is_preview v = false.
Proof.
  intros Hm. destruct (_is_preview v) eqn:E; [|reflexivity].
  apply is_preview_major in E. lia.
Qed.

Lemma major_4_before_5_1_0 (v : Version) :
  major v = 4 -> version_geb v (V 5 1 0) = false.
Proof.
  intros Hm. destruct (version_geb v (V 5 1 0)) eqn:E; [|reflexivity].
  apply version_geb_major in E. lia.
Qed.

(** X5: a device in the FIPS band that is named under the YK4 rules comes
    out of normalization flagged as FIPS and is called "YubiKey FIPS",
    whatever its capabilities and form factor. *)
Theorem fips_band_name_and_flag (interfaces : Z) (info : DeviceInfo)
  (key_type : option YUBIKEY) (usb : Z) :
  is_fips_version (version info) = true ->
  supported_capabilities (normalize interfaces info) !! USB = Some usb ->
  get_key_type (normalize interfaces info) usb key_type = YK4 ->
  is_fips (normalize interfaces info) = true /\
  get_name (normalize interfaces info) key_type = Ok "YubiKey FIPS".
Proof.
  intros Hf Husb Hk. split.
  - rewrite normalize_is_fips, Hf. reflexivity.
  - unfold get_name. rewrite Husb, Hk. unfold device_name_of.
    rewrite normalize_version.
    pose proof (is_fips_version_major _ Hf) as Hm.
    rewrite (major_4_not_preview _ Hm), (major_4_before_5_1_0 _ Hm), Hf, Hm.
    reflexivity.
Qed.

Lemma fips_band_name_and_flag_witness :
  is_fips yk4_fips_raw = false /\
  is_fips (normalize 7 yk4_fips_raw) = true /\
  get_name (normalize 7 yk4_fips_raw) None = Ok "YubiKey FIPS".
Proof.
  split; [reflexivity|].
  apply (fips_band_name_and_flag 7 yk4_fips_raw None 0x3f); reflexivity.
Defined.

(** X6: every firmware inside one of the three preview windows is named
    "YubiKey Preview" under the YK4 rules, whatever else the record says. *)
Theorem preview_name (info : DeviceInfo) (key_type : option YUBIKEY) (usb : Z) :
  _is_preview (version info) = true ->
  supported_capabilities info !! USB = Some usb ->
  get_key_type info usb key_type = YK4 ->
  get_name info key_type = Ok "YubiKey Preview".
Proof.
  intros Hp Husb Hk. unfold get_name. rewrite Husb, Hk. unfold device_name_of.
  rewrite Hp. pose proof (is_preview_major _ Hp) as Hm. rewrite Hm.
  reflexivity.
Qed.

Lemma preview_name_witness :
  get_name (yk5a (V 5 5 1)) None = Ok "YubiKey Preview".
Proof.
  apply (preview_name (yk5a (V 5 5 1)) None YK5_CAPABILITIES); reflexivity.
Defined.

(** X7: a 4.x device outside the FIPS band that reports the Edge
    combination (OTP, U2F and the CCID bit) without an enabled USB entry is
    named "YubiKey 4" before normalization and "YubiKey Edge" after it: the
    name relies on the narrowing of the supported set. *)
Theorem edge_name_after_normalization (interfaces : Z) (info : DeviceInfo) :
  supported_capabilities info !! USB = Some EDGE_CAPABILITIES ->
  enabled_capabilities (config info) !! USB = None ->
  major (version info) = 4 ->
  is_fips_version (version info) = false ->
  get_name info (Some YK4) = Ok "YubiKey 4" /\
  get_name (normalize interfaces info) (Some YK4) = Ok "YubiKey Edge".
Proof.
  intros Hs He Hm Hf. split.
  - unfold get_name. rewrite Hs. cbn [get_key_type]. unfold device_name_of.
    rewrite (major_4_not_preview _ Hm), (major_4_before_5_1_0 _ Hm), Hf, Hm.
    reflexivity.
  - pose proof (normalize_usb_lookup interfaces info) as H. cbv zeta in H.
    rewrite Hs, He in H. destruct H as [Hs' _].
    unfold get_name. rewrite Hs'. cbn [get_key_type]. unfold device_name_of.
    rewrite normalize_version.
    rewrite (major_4_not_preview _ Hm), (major_4_before_5_1_0 _ Hm), Hf, Hm.
    reflexivity.
Qed.

Lemma edge_name_after_normalization_witness :
  get_name edge_raw (Some YK4) = Ok "YubiKey 4" /\
  get_name (normalize 3 edge_raw) (Some YK4) = Ok "YubiKey Edge".
Proof.
  apply (edge_name_after_normalization 3 edge_raw); reflexivity.
Defined.

(** X8: from firmware 5.1.0 on, outside the preview windows, the name built
    from parts ends in "FIPS" exactly when the FIPS flag is set, starts with
    "Security Key" exactly when [is_sky] is set, mentions "NFC" exactly when
    the NFC transport is supported, and never keeps a blank between the
    generation number and the connector letter. *)
Theorem composed_name_shape (info : DeviceInfo) (usb : Z) :
  supported_capabilities info !! USB = Some usb ->
  version_geb (version info) (V 5 1 0) = true ->
  _is_preview (version info) = false ->
  exists name,
    get_name info (Some YK4) = Ok name /\
    PyStr.endswith name "FIPS" = is_fips info /\
    String.prefix "Security Key" name = is_sky info /\
    PyStr.contains "NFC" name = has_transport info NFC /\
    PyStr.contains "5 C" name = false /\
    PyStr.contains "5 A" name = false.
Proof.
  intros Husb Hge Hpre. eexists. split.
  - unfold get_name. rewrite Husb. cbn [get_key_type]. unfold device_name_of.
    pose proof (version_geb_major _ _ _ _ Hge) as Hmaj.
    rewrite Hpre, Hge.
    replace (major (version info) <? 4) with false
      by (symmetry; apply Z.ltb_ge; lia).
    reflexivity.
  - unfold composed_name, has_transport.
    destruct (form_factor info), (is_sky info),
      (supported_capabilities info !! NFC), (_fido_only usb), (is_fips info);
      vm_compute; repeat split; reflexivity.
Qed.

Lemma composed_name_shape_witness :
  exists name,
    get_name yk5_fips (Some YK4) = Ok name /\
    name = "YubiKey 5C FIPS" /\
    PyStr.endswith name "FIPS" = true.
Proof.
  destruct (composed_name_shape yk5_fips YK5_CAPABILITIES)
    as (name & Hn & Hf & _); try reflexivity.
  exists name. split; [exact Hn|]. split; [|exact Hf].
  assert (Hn' := Hn). vm_compute in Hn'. injection Hn' as <-. reflexivity.
Defined.

(** ** The OTP data read of the CCID fallback *)

(** [_otp_read_data] fails exactly when the OTP session cannot be opened,
    with the constructor's own error; once the session is open every error of
    the serial read is swallowed and the serial is reported as unknown. *)
Lemma otp_read_data_outcomes {conn : Type} `{Connection conn} (c : conn) :
  match YubiOtpSession_init c with
  | (Raise e, c1) => _otp_read_data c = (Raise e, c1)
  | (Ok otp, c1) =>
      match get_serial otp c1 with
      | (Ok s, c2) => _otp_read_data c = (Ok (otp_version otp, Some s), c2)
      | (Raise _, c2) => _otp_read_data c = (Ok (otp_version otp, None), c2)
      end
  end.
Proof.
  unfold _otp_read_data. rewrite bind_unfold.
  destruct (YubiOtpSession_init c) as [[otp|e] c1]; [|reflexivity].
  rewrite bind_unfold. unfold try_except. rewrite bind_unfold.
  destruct (get_serial otp c1) as [[s|e] c2]; reflexivity.
Qed.

(** ** The applet scan of the CCID fallback *)

Lemma flags_subseteq_lor (a b m : Z) :
  flags_subseteq a m -> flags_subseteq b m -> flags_subseteq (Z.lor a b) m.
Proof.
  intros Ha Hb i Hi H. rewrite Z.lor_spec in H. apply orb_true_iff in H.
  destruct H; auto.
Qed.

Lemma flags_subseteq_lor_l (a b : Z) : flags_subseteq a (Z.lor a b).
Proof. intros i _ H. rewrite Z.lor_spec, H. reflexivity. Qed.

Lemma single_bit_subseteq (k m : Z) :
  0 <= k -> Z.testbit m k = true -> flags_subseteq (2 ^ k) m.
Proof.
  intros Hk Hm i Hi H. rewrite Z.pow2_bits_eqb in H by assumption.
  apply Z.eqb_eq in H. subst i. exact Hm.
Qed.

Section Scan.

Context {conn : Type} `{Connection conn}.

(** Whatever the probes answer, the scan only adds bits, and only bits of
    the table's codes. *)
Lemma scan_applets_bounds (m : Z) (applets : list (list byte * Z)) :
  Forall (fun p => flags_subseteq (snd p) m) applets ->
  forall capabilities c capabilities' c',
    scan_applets applets capabilities c = (Ok capabilities', c') ->
    flags_subseteq capabilities capabilities' /\
    (flags_subseteq capabilities m -> flags_subseteq capabilities' m).
Proof.
  induction 1 as [|[aid code] rest Hcode _ IH]; intros caps c caps' c' E.
  - injection E as <- _. split; [apply flags_subseteq_refl | auto].
  - cbn [scan_applets] in E. apply bind_ok_inv in E as (caps1 & c1 & E1 & E).
    destruct (IH _ _ _ _ E) as [Hmono Hbound].
    assert (caps1 = caps \/ caps1 = Z.lor caps code) as Hc.
    { unfold try_except in E1. rewrite bind_unfold in E1.
      destruct (select aid c) as [[r|e] c2]; injection E1 as <- _; auto. }
    split.
    + apply (flags_subseteq_trans _ caps1); [|exact Hmono].
      destruct Hc as [-> | ->];
        [apply flags_subseteq_refl | apply flags_subseteq_lor_l].
    + intros Hcaps. apply Hbound. destruct Hc as [-> | ->]; [exact Hcaps|].
      apply flags_subseteq_lor; assumption.
Qed.

(** When selection depends on the identifier alone, the scan's result is
    the start value together with the codes of the applets that select. *)
Lemma scan_applets_by_aid (answers : list byte -> bool) :
  select_by_aid answers ->
  forall applets capabilities c,
    exists capabilities' c',
      scan_applets applets capabilities c = (Ok capabilities', c') /\
      forall i, 0 <= i ->
        Z.testbit capabilities' i
        = Z.testbit capabilities i
          || existsb (fun p => answers (fst p) && Z.testbit (snd p) i) applets.
Proof.
  intros Hsel applets.
  induction applets as [|[aid code] rest IH]; intros caps c.
  - exists caps, c. split; [reflexivity|]. intros i _. cbn.
    rewrite orb_false_r. reflexivity.
  - cbn [scan_applets]. rewrite bind_unfold. unfold try_except at 1.
    rewrite bind_unfold. specialize (Hsel aid c).
    destruct (select aid c) as [[r|e] c1]; cbn.
    + destruct (IH (Z.lor caps code) c1) as (caps' & c' & E & Hbits).
      exists caps', c'. split; [exact E|]. intros i Hi.
      rewrite (Hbits i Hi), Z.lor_spec. cbn [existsb fst snd].
      rewrite Hsel. cbn [andb]. symmetry. apply orb_assoc.
    + destruct (IH caps c1) as (caps' & c' & E & Hbits).
      exists caps', c'. split; [exact E|]. intros i Hi.
      rewrite (Hbits i Hi). cbn [existsb fst snd]. rewrite Hsel. reflexivity.
Qed.

End Scan.

Lemma existsb_Permutation {A : Type} (f : A -> bool) (l1 l2 : list A) :
  Permutation l1 l2 -> existsb f l1 = existsb f l2.
Proof.
  induction 1 as [|x l l' _ IH|x y l|l l' l'' _ IH1 _ IH2]; cbn.
  - reflexivity.
  - rewrite IH. reflexivity.
  - destruct (f x), (f y); reflexivity.
  - congruence.
Qed.

(** X10: when selection depends on the identifier alone, the applet scan
    succeeds, keeps every capability it started with, and gives the same
    capabilities whatever the order in which the table is probed. *)
Theorem scan_applets_order_independent {conn : Type} `{Connection conn}
  (answers : list byte -> bool) (l1 l2 : list (list byte * Z))
  (capabilities : Z) (c : conn) :
  select_by_aid answers ->
  Permutation l1 l2 ->
  exists capabilities' c1 c2,
    scan_applets l1 capabilities c = (Ok capabilities', c1) /\
    scan_applets l2 capabilities c = (Ok capabilities', c2) /\
    flags_subseteq capabilities capabilities'.
Proof.
  intros Hsel Hperm.
  destruct (scan_applets_by_aid answers Hsel l1 capabilities c)
    as (caps1 & c1 & E1 & H1).
  destruct (scan_applets_by_aid answers Hsel l2 capabilities c)
    as (caps2 & c2 & E2 & H2).
  assert (caps2 = caps1) as ->.
  { apply Z.bits_inj'. intros i Hi. rewrite (H1 i Hi), (H2 i Hi).
    f_equal. symmetry. apply existsb_Permutation. exact Hperm. }
  exists caps1, c1, c2. split; [exact E1|]. split; [exact E2|].
  intros i Hi Hb. rewrite (H1 i Hi), Hb. reflexivity.
Qed.

Lemma scan_applets_order_independent_witness :
  exists capabilities' c1 c2,
    @scan_applets unit (applet_card [AID_PIV; AID_OATH]) SCAN_APPLETS 1 tt
    = (Ok capabilities', c1) /\
    @scan_applets unit (applet_card [AID_PIV; AID_OATH]) (rev SCAN_APPLETS) 1 tt
    = (Ok capabilities', c2) /\
    flags_subseteq 1 capabilities'.
Proof.
  apply (@scan_applets_order_independent unit (applet_card [AID_PIV; AID_OATH])
           (has_applet [AID_PIV; AID_OATH])).
  - intros aid c. cbn. destruct (has_applet [AID_PIV; AID_OATH] aid); reflexivity.
  - apply Permutation_rev.
Defined.

(** ** What the CCID fallback synthesizes *)

Lemma SCAN_APPLETS_codes :
  Forall (fun p : list byte * Z => flags_subseteq (snd p) 0x3a) SCAN_APPLETS.
Proof.
  unfold SCAN_APPLETS. repeat constructor; cbn [snd].
  - apply (single_bit_subseteq 1); [lia | reflexivity].
  - apply (single_bit_subseteq 1); [lia | reflexivity].
  - apply (single_bit_subseteq 4); [lia | reflexivity].
  - apply (single_bit_subseteq 3); [lia | reflexivity].
  - apply (single_bit_subseteq 5); [lia | reflexivity].
Qed.

Section CcidSynthesis.

Context {conn : Type} `{Connection conn}.

(** The three stages of the synthesis: the OTP data, the scan, the record. *)
Lemma ccid_synthesize_inv (interfaces : Z) (version : option Version)
  (c c' : conn) (info : DeviceInfo) :
  ccid_synthesize interfaces version c = (Ok info, c') ->
  exists caps0 otp_v serial c1 caps1,
    ((exists v, _otp_read_data c = (Ok (v, serial), c1) /\
                caps0 = CAPABILITY.OTP /\ otp_v = Some v) \/
     (_otp_read_data c = (Raise ApplicationNotAvailableError, c1) /\
      caps0 = 0 /\ otp_v = None /\ serial = None)) /\
    scan_applets SCAN_APPLETS caps0 c1 = (Ok caps1, c') /\
    let v := match version, otp_v with
             | Some v, _ => v
             | None, Some v => v
             | None, None => V 3 0 0
             end in
    let caps :=
      if flag_in USB_INTERFACE.FIDO interfaces || version_geb v (V 3 3 0)
      then Z.lor caps1 CAPABILITY.U2F else caps1 in
    info = synthesized serial v UNKNOWN (<[ NFC := caps ]> {[ USB := caps ]}).
Proof.
  unfold ccid_synthesize. intros E.
  apply bind_ok_inv in E as ([[caps0 v0] serial] & c1 & E1 & E).
  apply bind_ok_inv in E as (caps1 & c2 & E2 & E).
  injection E as <- <-.
  unfold try_except in E1. rewrite bind_unfold in E1.
  destruct (_otp_read_data c) as [[[ov os]|e] c3] eqn:Ed.
  - injection E1 as <- <- <- <-.
    exists CAPABILITY.OTP, (Some ov), os, c3, caps1.
    split; [left; exists ov; auto|]. split; [exact E2|].
    destruct version; reflexivity.
  - unfold except in E1.
    destruct (decide (e = ApplicationNotAvailableError)) as [->|]; [|discriminate].
    injection E1 as <- <- <- <-.
    exists 0, None, None, c3, caps1.
    split; [right; auto|]. split; [exact E2|].
    destruct version; reflexivity.
Qed.

End CcidSynthesis.

(** The supported USB set of a synthesized record has no bit outside OTP,
    U2F, OpenPGP, PIV and OATH. *)
Lemma ccid_synthesize_facts {conn : Type} `{Connection conn}
  (interfaces : Z) (version : option Version) (c c' : conn)
  (info : DeviceInfo) :
  ccid_synthesize interfaces version c = (Ok info, c') ->
  exists capabilities,
    supported_capabilities info !! USB = Some capabilities /\
    flags_subseteq capabilities 0x3b.
Proof.
  intros E.
  apply ccid_synthesize_inv in E
    as (caps0 & otp_v & serial & c1 & caps1 & Hotp & Hscan & ->).
  cbv zeta. eexists. split.
  { cbn [supported_capabilities synthesized].
    rewrite lookup_insert_ne by discriminate. apply lookup_singleton_eq. }
  destruct (scan_applets_bounds 0x3a SCAN_APPLETS SCAN_APPLETS_codes
              _ _ _ _ Hscan) as [_ Hb].
  assert (flags_subseteq caps1 0x3b) as Hcaps1.
  { destruct Hotp as [(v & _ & -> & _) | (_ & -> & _)].
    - assert (Forall (fun p : list byte * Z => flags_subseteq (snd p) 0x3b)
                SCAN_APPLETS) as Hcodes.
      { eapply Forall_impl; [exact SCAN_APPLETS_codes|].
        intros p Hp. cbn in Hp. apply (flags_subseteq_trans _ 0x3a); [exact Hp|].
        change 0x3b with (Z.lor 0x3a 1). apply flags_subseteq_lor_l. }
      destruct (scan_applets_bounds 0x3b SCAN_APPLETS Hcodes _ _ _ _ Hscan)
        as [_ Hb'].
      apply Hb'. apply (single_bit_subseteq 0); [lia | reflexivity].
    - apply (flags_subseteq_trans _ 0x3a).
      + apply Hb. intros i _ Hi. rewrite Z.bits_0 in Hi. discriminate Hi.
      + change 0x3b with (Z.lor 0x3a 1). apply flags_subseteq_lor_l. }
  match goal with
  | |- context [if ?b then _ else _] => destruct b
  end; [|exact Hcaps1].
  apply flags_subseteq_lor; [exact Hcaps1|].
  apply (single_bit_subseteq 1); [lia | reflexivity].
Qed.

(** X11: a record synthesized by the CCID fallback only ever lists OTP, U2F,
    OpenPGP, PIV and OATH as supported (never the CCID bit, FIDO2 or
    HSMAUTH), takes the firmware version of the management applet when that
    was read, and lists U2F whenever the FIDO interface is active or the
    firmware is 3.3.0 or later. *)
Theorem ccid_synthesize_capabilities {conn : Type} `{Connection conn}
  (interfaces : Z) (version : option Version) (c c' : conn)
  (info : DeviceInfo) :
  ccid_synthesize interfaces version c = (Ok info, c') ->
  exists capabilities,
    supported_capabilities info !! USB = Some capabilities /\
    flags_subseteq capabilities 0x3b /\
    (forall v, version = Some v -> Management.version info = v) /\
    (flag_in USB_INTERFACE.FIDO interfaces
     || version_geb (Management.version info) (V 3 3 0) = true ->
     flag_in CAPABILITY.U2F capabilities = true).
Proof.
  intros E.
  destruct (ccid_synthesize_facts _ _ _ _ _ E) as (caps & Hl & Hsub).
  exists caps. split; [exact Hl|]. split; [exact Hsub|].
  apply ccid_synthesize_inv in E
    as (caps0 & otp_v & serial & c1 & caps1 & _ & _ & ->).
  cbv zeta in Hl |- *.
  cbn [supported_capabilities synthesized] in Hl.
  rewrite lookup_insert_ne, lookup_singleton_eq in Hl by discriminate.
  injection Hl as <-. split.
  - intros v ->. reflexivity.
  - cbn [Management.version synthesized]. intros ->.
    change CAPABILITY.U2F with (2 ^ 1). rewrite flag_in_single_bit by lia.
    rewrite Z.lor_spec. apply orb_true_r.
Qed.

Lemma ccid_synthesize_capabilities_witness :
  exists info capabilities,
    @ccid_synthesize unit (applet_card [AID_PIV; AID_OATH]) 0 None tt
    = (Ok info, tt) /\
    supported_capabilities info !! USB = Some capabilities /\
    flags_subseteq capabilities 0x3b /\
    flag_in CAPABILITY.U2F capabilities = true.
Proof.
  destruct (@ccid_synthesize unit (applet_card [AID_PIV; AID_OATH]) 0 None tt)
    as [[info|e] []] eqn:E; [|vm_compute in E; discriminate E].
  destruct (@ccid_synthesize_capabilities unit
              (applet_card [AID_PIV; AID_OATH]) 0 None tt tt info E)
    as (caps & Hl & Hsub & _ & Hu2f).
  exists info, caps. split; [reflexivity|]. split; [exact Hl|].
  split; [exact Hsub|]. apply Hu2f.
  vm_compute in E. injection E as <-. reflexivity.
Defined.

(** X12: when the OTP application cannot be selected, the CCID fallback
    reports no serial and no OTP capability, and guesses firmware 3.0.0
    unless the management applet gave a version; when the OTP session
    opens, OTP is listed and an unknown version is taken from it. *)
Theorem ccid_synthesize_otp {conn : Type} `{Connection conn}
  (interfaces : Z) (version : option Version) (c c' : conn)
  (info : DeviceInfo) (usb : Z) :
  ccid_synthesize interfaces version c = (Ok info, c') ->
  supported_capabilities info !! USB = Some usb ->
  (forall c1,
     YubiOtpSession_init c = (Raise ApplicationNotAvailableError, c1) ->
     serial info = None /\ flag_in CAPABILITY.OTP usb = false /\
     Management.version info = match version with Some v => v | None => V 3 0 0 end) /\
  (forall otp c1,
     YubiOtpSession_init c = (Ok otp, c1) ->
     flag_in CAPABILITY.OTP usb = true /\
     Management.version info
     = match version with Some v => v | None => otp_version otp end).
Proof.
  intros E Husb.
  apply ccid_synthesize_inv in E
    as (caps0 & otp_v & serial & c1 & caps1 & Hotp & Hscan & ->).
  cbv zeta in Husb. cbn [supported_capabilities synthesized] in Husb.
  rewrite lookup_insert_ne, lookup_singleton_eq in Husb by discriminate.
  injection Husb as <-.
  pose proof (otp_read_data_outcomes c) as Hd.
  change CAPABILITY.OTP with (2 ^ 0). rewrite flag_in_single_bit by lia.
  split.
  - intros c2 Ei. rewrite Ei in Hd.
    destruct Hotp as [(v & Ed & _) | (_ & -> & -> & ->)]; [congruence|].
    split; [reflexivity|]. split; [|destruct version; reflexivity].
    destruct (scan_applets_bounds 0x3a SCAN_APPLETS SCAN_APPLETS_codes
                _ _ _ _ Hscan) as [_ Hb].
    assert (flags_subseteq caps1 0x3a) as Hcaps.
    { apply Hb. intros i _ Hi. rewrite Z.bits_0 in Hi. discriminate Hi. }
    destruct (Z.testbit _ 0) eqn:Hbit; [|reflexivity]. exfalso.
    case_match.
    + rewrite Z.lor_spec in Hbit. apply orb_true_iff in Hbit as [Hbit|Hbit];
        [|discriminate Hbit].
      specialize (Hcaps 0 ltac:(lia) Hbit). discriminate Hcaps.
    + specialize (Hcaps 0 ltac:(lia) Hbit). discriminate Hcaps.
  - intros otp c2 Ei. rewrite Ei in Hd.
    destruct Hotp as [(v & Ed & -> & ->) | (Ed & _)].
    + destruct (scan_applets_bounds 0x3a SCAN_APPLETS SCAN_APPLETS_codes
                  _ _ _ _ Hscan) as [Hmono _].
      assert (Z.testbit caps1 0 = true) as Hbit
        by (apply Hmono; [lia | reflexivity]).
      split.
      * match goal with
        | |- context [if ?b then _ else _] => destruct b
        end; [rewrite Z.lor_spec, Hbit; reflexivity | exact Hbit].
      * cbn [Management.version synthesized].
        destruct (get_serial otp c2) as [[s|e] c3]; rewrite Ed in Hd;
          injection Hd as <- _ _; destruct version; reflexivity.
    + destruct (get_serial otp c2) as [[s|e] c3]; congruence.
Qed.

Lemma ccid_synthesize_otp_witness :
  exists info c',
    _read_info_ccid (Some NEO) 7 neo_ccid = (Ok info, c') /\
    Management.version info = V 3 4 0 /\
    flag_in CAPABILITY.OTP 0x23 = true.
Proof.
  eexists _, _. split; [vm_compute; reflexivity|].
  destruct (ccid_synthesize_otp 7 None
              (snd (ccid_management neo_ccid))
              (snd (ccid_synthesize 7 None (snd (ccid_management neo_ccid))))
              (synthesized (Some 1234567) (V 3 4 0) UNKNOWN
                 (<[ NFC := 0x23 ]> {[ USB := 0x23 ]})) 0x23) as [_ W].
  - vm_compute. reflexivity.
  - reflexivity.
  - destruct (W {| otp_version := V 3 4 0 |}
                (snd (YubiOtpSession_init (snd (ccid_management neo_ccid)))))
      as [Hotp Hv]; [reflexivity|].
    split; [exact Hv | exact Hotp].
Defined.

(** X13: over a smart-card connection on which the CCID fallback is taken,
    [read_info] returns a record whose supported sets for USB and NFC are
    still the same set after normalization, with NFC enabled in full and
    USB enabled as far as the active interfaces allow. *)
Theorem read_info_ccid_fallback {conn : Type} `{Connection conn}
  (pid : option PID) (c c1 c' : conn) (version : option Version)
  (info : DeviceInfo) :
  connection_type c = SmartCardConnection ->
  ccid_management c = (Ok (inr version), c1) ->
  read_info pid c = (Ok info, c') ->
  exists capabilities,
    supported_capabilities info !! USB = Some capabilities /\
    supported_capabilities info !! NFC = Some capabilities /\
    enabled_capabilities (config info) !! NFC = Some capabilities /\
    enabled_capabilities (config info) !! USB
    = Some (mask_usb_enabled (pid_interfaces pid) capabilities).
Proof.
  intros Ht Hm E.
  assert (exists raw,
            ccid_synthesize (pid_interfaces pid) version c1 = (Ok raw, c') /\
            info = normalize (pid_interfaces pid) raw) as (raw & Er & ->).
  { unfold read_info in E. rewrite Ht in E.
    destruct pid as [p|]; cbn in E;
      apply bind_ok_inv in E as (raw & c2 & E1 & E); injection E as <- <-;
      unfold _read_info_ccid in E1; rewrite (bind_ok _ _ _ _ _ Hm) in E1;
      exists raw; split; [exact E1 | reflexivity | exact E1 | reflexivity]. }
  destruct (ccid_synthesize_facts _ _ _ _ _ Er) as (caps & Hl & Hsub).
  apply ccid_synthesize_inv in Er
    as (caps0 & otp_v & serial & c2 & caps1 & _ & _ & Hraw).
  cbv zeta in Hraw.
  set (v := match version with
            | Some v => v
            | None => match otp_v with Some v => v | None => V 3 0 0 end
            end) in *.
  set (k := if flag_in USB_INTERFACE.FIDO (pid_interfaces pid)
               || version_geb v (V 3 3 0)
            then Z.lor caps1 CAPABILITY.U2F else caps1) in *.
  assert (caps = k) as ->.
  { rewrite Hraw in Hl. cbn [supported_capabilities synthesized] in Hl.
    rewrite lookup_insert_ne, lookup_singleton_eq in Hl by discriminate.
    congruence. }
  assert ((k =? EDGE_CAPABILITIES) = false) as Hne.
  { apply Z.eqb_neq. intros Heq.
    specialize (Hsub 2 ltac:(lia)). rewrite Heq in Hsub.
    specialize (Hsub eq_refl). discriminate Hsub. }
  exists k. subst raw. clear Hl.
  unfold normalize.
  set (raw := synthesized serial v UNKNOWN (<[ NFC := k ]> {[ USB := k ]})).
  pose proof (set_usb_enabled_maps (pid_interfaces pid) raw) as H1.
  cbv zeta in H1.
  replace (supported_capabilities raw !! USB) with (Some k) in H1
    by (cbn; rewrite lookup_insert_ne, lookup_singleton_eq by discriminate;
        reflexivity).
  replace (enabled_capabilities (config raw) !! USB) with (@None Z) in H1
    by reflexivity.
  rewrite Hne in H1. destruct H1 as [H1s H1e].
  set (i1 := set_usb_enabled (pid_interfaces pid) raw) in *.
  pose proof (set_fips_fields i1) as (_ & Hff2 & _ & _ & H2s & H2e).
  pose proof (set_usb_enabled_fields (pid_interfaces pid) raw)
    as (_ & Hff1 & _ & _).
  fold i1 in Hff1. set (i2 := set_fips i1) in *.
  pose proof (set_nfc_enabled_maps i2) as [H3s H3e]. cbv zeta in H3s, H3e.
  pose proof (set_nfc_enabled_fields i2) as (_ & Hff3 & _ & _).
  cbv zeta in Hff3.
  assert (supported_capabilities i2 !! NFC = Some k) as Hnfc
    by (rewrite H2s, H1s; apply lookup_insert_eq).
  assert (enabled_capabilities (config i2) !! NFC = None) as Hen
    by (rewrite H2e, H1e, lookup_insert_ne by discriminate; reflexivity).
  rewrite Hnfc, Hen in H3e.
  set (i3 := set_nfc_enabled i2) in *.
  assert (strip_nfc i3 = i3) as ->.
  { unfold strip_nfc, lacks_nfc. rewrite Hff3, Hff2, Hff1. cbn.
    rewrite andb_false_r. reflexivity. }
  rewrite H3s, H2s, H1s, H3e, H2e, H1e.
  split; [|split; [|split]].
  - cbn. rewrite lookup_insert_ne, lookup_singleton_eq by discriminate.
    reflexivity.
  - apply lookup_insert_eq.
  - apply lookup_insert_eq.
  - rewrite lookup_insert_ne by discriminate. apply lookup_insert_eq.
Qed.

Lemma read_info_ccid_fallback_witness :
  exists info c' capabilities,
    read_info (Some (PID_ALL NEO)) neo_ccid = (Ok info, c') /\
    supported_capabilities info !! USB = Some capabilities /\
    supported_capabilities info !! NFC = Some capabilities /\
    enabled_capabilities (config info) !! NFC = Some capabilities.
Proof.
  destruct (read_info (Some (PID_ALL NEO)) neo_ccid) as [[info|e] c'] eqn:E;
    [|vm_compute in E; discriminate E].
  destruct (read_info_ccid_fallback (Some (PID_ALL NEO)) neo_ccid
              (snd (ccid_management neo_ccid)) c' None info)
    as (caps & Hu & Hn & Hen & _).
  - reflexivity.
  - reflexivity.
  - exact E.
  - exists info, c', caps. auto.
Defined.

(** ** More on the retry loop of the OTP resolver *)

(** X14: with the OTP interface alone, a rejected serial read cannot be a
    reclaim: the loop is left at once, without sleeping, and the record has
    no serial. *)
Theorem otp_only_breaks_at_once {conn : Type} `{Connection conn}
  (key_type : option YUBIKEY) (otp : YubiOtpSession) (c c0 c1 : conn) :
  management_unavailable c otp c0 ->
  get_serial otp c0 = (Raise CommandRejectedError, c1) ->
  otp_retry USB_INTERFACE.OTP c = (Ok (Broke 0 otp None), c1) /\
  exists info,
    _read_info_otp key_type USB_INTERFACE.OTP c = (Ok info, c1) /\
    serial info = None /\ Management.version info = otp_version otp.
Proof.
  intros Hm E.
  assert (otp_retry USB_INTERFACE.OTP c = (Ok (Broke 0 otp None), c1)) as Er.
  { rewrite (otp_retry_enters _ otp c c0 Hm).
    rewrite (bind_ok _ _ c0 c1 None) by (apply serial_read_rejected; exact E).
    reflexivity. }
  split; [exact Er|]. eexists. split.
  - unfold _read_info_otp. rewrite (bind_ok _ _ _ _ _ Er). reflexivity.
  - split; reflexivity.
Qed.

(** X15: with more interfaces, eight rejected serial reads exhaust the loop
    after eight sleeps; a new OTP session is opened and the record carries
    its version and no serial. *)
Theorem otp_retry_exhausted {conn : Type} `{Connection conn}
  (key_type : option YUBIKEY) (interfaces : Z) (otp otp' : YubiOtpSession)
  (c c0 c_end c' : conn) :
  interfaces <> USB_INTERFACE.OTP ->
  management_unavailable c otp c0 ->
  serial_rejected 8 otp c0 c_end ->
  YubiOtpSession_init c_end = (Ok otp', c') ->
  otp_retry interfaces c = (Ok (Exhausted otp'), c') /\
  exists info,
    _read_info_otp key_type interfaces c = (Ok info, c') /\
    serial info = None /\ Management.version info = otp_version otp'.
Proof.
  intros Hif Hm Hrej Ei.
  assert (otp_retry interfaces c = (Ok (Exhausted otp'), c')) as Er.
  { rewrite (otp_retry_enters _ otp c c0 Hm).
    destruct Hrej as (c1 & E & Hrej).
    rewrite (bind_ok _ _ c0 c1 None) by (apply serial_read_rejected; exact E).
    destruct (Z.eqb_spec interfaces USB_INTERFACE.OTP) as [|_]; [contradiction|].
    rewrite (bind_ok _ _ c1 (sleep 500 c1) tt) by reflexivity.
    change 7%nat with (7 + 0)%nat.
    rewrite (reclaim_loop_rejected 7 0 1 interfaces otp _ c_end Hif Hrej).
    cbn [reclaim_loop]. rewrite (bind_ok _ _ _ _ _ Ei). reflexivity. }
  split; [exact Er|]. eexists. split.
  - unfold _read_info_otp. rewrite (bind_ok _ _ _ _ _ Er). reflexivity.
  - split; reflexivity.
Qed.

(** X16: when the management applet selects and its info command answers
    after fewer than eight rejections, the OTP resolver returns exactly that
    record, on any set of interfaces, without opening an OTP session. *)
Theorem otp_resolver_authoritative {conn : Type} `{Connection conn}
  (key_type : option YUBIKEY) (interfaces : Z) (k : nat)
  (mgmt : ManagementSession) (info : DeviceInfo) (c c1 c2 c3 : conn) :
  ManagementSession_init c = (Ok mgmt, c1) ->
  info_rejected k mgmt c1 c2 ->
  read_device_info mgmt c2 = (Ok info, c3) ->
  (k < 8)%nat ->
  otp_retry interfaces c = (Ok (Returned info), c3) /\
  _read_info_otp key_type interfaces c = (Ok info, c3).
Proof.
  intros E1 Hrej E2 Hk.
  assert (otp_retry interfaces c = (Ok (Returned info), c3)) as Er.
  { unfold otp_retry.
    rewrite (bind_ok _ _ c c1 (inl mgmt))
      by (apply try_except_ok; rewrite (bind_ok _ _ _ _ _ E1); reflexivity).
    replace 8%nat with (k + S (7 - k))%nat by lia.
    rewrite (reclaim_loop_info_rejected k (S (7 - k)) 0 interfaces mgmt c1 c2
               Hrej).
    rewrite reclaim_loop_S.
    rewrite (bind_ok _ _ c2 c3 (Some (inl info))); [reflexivity|].
    apply try_except_ok. unfold acquire_otp.
    erewrite bind_ok; [reflexivity|].
    apply try_except_ok. rewrite (bind_ok _ _ _ _ _ E2). reflexivity. }
  split; [exact Er|].
  unfold _read_info_otp. rewrite (bind_ok _ _ _ _ _ Er). reflexivity.
Qed.

Lemma otp_only_breaks_at_once_witness :
  exists info c1,
    _read_info_otp (Some YKS) USB_INTERFACE.OTP otp_rejecting_once
    = (Ok info, c1) /\
    serial info = None /\ clock_ms c1 = 0.
Proof.
  destruct (otp_only_breaks_at_once (Some YKS) {| otp_version := V 2 4 2 |}
              otp_rejecting_once
              (snd (YubiOtpSession_init
                      (snd (ManagementSession_init otp_rejecting_once))))
              (mkFake OtpConnection [] [] [] [] [] [] 0))
    as (_ & info & E & Hs & _).
  - left. eexists. split; reflexivity.
  - reflexivity.
  - exists info, (mkFake OtpConnection [] [] [] [] [] [] 0). auto.
Defined.

Lemma otp_retry_exhausted_witness :
  exists info c',
    _read_info_otp (Some YK4) 7 otp_rejecting_always = (Ok info, c') /\
    serial info = None /\ clock_ms c' = 4000.
Proof.
  destruct (otp_retry_exhausted (Some YK4) 7 {| otp_version := V 4 3 1 |}
              {| otp_version := V 4 3 1 |} otp_rejecting_always
              (snd (YubiOtpSession_init
                      (snd (ManagementSession_init otp_rejecting_always))))
              (mkFake OtpConnection [] [] [Ok {| otp_version := V 4 3 1 |}]
                 [] [] [] 4000)
              (mkFake OtpConnection [] [] [] [] [] [] 4000))
    as (_ & info & E & Hs & _).
  - discriminate.
  - left. eexists. split; reflexivity.
  - cbn [serial_rejected].
    repeat (eexists; split; [lazy; reflexivity|]). lazy. reflexivity.
  - reflexivity.
  - exists info, (mkFake OtpConnection [] [] [] [] [] [] 4000). auto.
Defined.

Lemma otp_resolver_authoritative_witness :
  exists c3,
    _read_info_otp (Some YK4) USB_INTERFACE.OTP otp_busy_management
    = (Ok yk5_fips, c3) /\
    clock_ms c3 = 1000.
Proof.
  destruct (otp_resolver_authoritative (Some YK4) USB_INTERFACE.OTP 2
              {| mgmt_version := V 5 4 3 |} yk5_fips otp_busy_management
              (snd (ManagementSession_init otp_busy_management))
              (mkFake OtpConnection [] [Ok yk5_fips] [] [] [] [] 1000)
              (mkFake OtpConnection [] [] [] [] [] [] 1000))
    as [_ E].
  - reflexivity.
  - cbn [info_rejected].
    repeat (eexists; split; [lazy; reflexivity|]). lazy. reflexivity.
  - reflexivity.
  - lia.
  - eexists. split; [exact E | reflexivity].
Defined.

(** ** How long a resolution can sleep *)

Section Sleep.

Context {conn : Type} `{Connection conn}.

Variable clock : conn -> Z.

Lemma sleeps_ret {A : Type} (a : A) :
  sleeps_at_most clock (mret a : IO conn A) 0.
Proof. intros c. cbn. lia. Qed.

Lemma sleeps_weaken {A : Type} (m : IO conn A) (d d' : Z) :
  d <= d' -> sleeps_at_most clock m d -> sleeps_at_most clock m d'.
Proof. intros Hd Hm c. specialize (Hm c). lia. Qed.

Lemma sleeps_bind {A B : Type} (m : IO conn A) (k : A -> IO conn B)
  (d1 d2 : Z) :
  0 <= d2 ->
  sleeps_at_most clock m d1 ->
  (forall a, sleeps_at_most clock (k a) d2) ->
  sleeps_at_most clock (m ≫= k) (d1 + d2).
Proof.
  intros Hd Hm Hk c. rewrite bind_unfold. specialize (Hm c).
  destruct (m c) as [[a|e] c1]; cbn in *; [|lia].
  specialize (Hk a c1). lia.
Qed.

Lemma sleeps_bind0 {A B : Type} (m : IO conn A) (k : A -> IO conn B) (d : Z) :
  0 <= d ->
  sleeps_at_most clock m 0 ->
  (forall a, sleeps_at_most clock (k a) d) ->
  sleeps_at_most clock (m ≫= k) d.
Proof.
  intros Hd Hm Hk. apply (sleeps_weaken _ (0 + d)); [lia|].
  apply sleeps_bind; assumption.
Qed.

Lemma sleeps_try {A : Type} (body : IO conn A) handler (d1 d2 : Z) :
  0 <= d2 ->
  sleeps_at_most clock body d1 ->
  (forall e h, handler e = Some h -> sleeps_at_most clock h d2) ->
  sleeps_at_most clock (try_except body handler) (d1 + d2).
Proof.
  intros Hd Hb Hh c. unfold try_except. specialize (Hb c).
  destruct (body c) as [[a|e] c1]; cbn in *; [lia|].
  destruct (handler e) as [h|] eqn:E; cbn; [|lia].
  specialize (Hh e h E c1). lia.
Qed.

Lemma sleeps_try_except {A : Type} (body h : IO conn A) (cls : Exception) :
  sleeps_at_most clock body 0 ->
  sleeps_at_most clock h 0 ->
  sleeps_at_most clock (try_except body (except cls h)) 0.
Proof.
  intros Hb Hh. apply (sleeps_weaken _ (0 + 0)); [lia|].
  apply sleeps_try; [lia | exact Hb |].
  intros e h'. unfold except. destruct (decide (e = cls)); [|discriminate].
  intros [= <-]. exact Hh.
Qed.

Lemma sleeps_try_Exception {A : Type} (body h : IO conn A) :
  sleeps_at_most clock body 0 ->
  sleeps_at_most clock h 0 ->
  sleeps_at_most clock (try_except body (except_Exception h)) 0.
Proof.
  intros Hb Hh. apply (sleeps_weaken _ (0 + 0)); [lia|].
  apply sleeps_try; [lia | exact Hb |].
  intros e h' [= <-]. exact Hh.
Qed.

Hypothesis Hclock : measures_sleep clock.

Lemma sleeps_ManagementSession_init :
  sleeps_at_most clock ManagementSession_init 0.
Proof. intros c. destruct Hclock as (E & _). rewrite E. lia. Qed.

Lemma sleeps_read_device_info (mgmt : ManagementSession) :
  sleeps_at_most clock (read_device_info mgmt) 0.
Proof. intros c. destruct Hclock as (_ & E & _). rewrite E. lia. Qed.

Lemma sleeps_YubiOtpSession_init :
  sleeps_at_most clock YubiOtpSession_init 0.
Proof. intros c. destruct Hclock as (_ & _ & E & _). rewrite E. lia. Qed.

Lemma sleeps_get_serial (otp : YubiOtpSession) :
  sleeps_at_most clock (get_serial otp) 0.
Proof. intros c. destruct Hclock as (_ & _ & _ & E & _). rewrite E. lia. Qed.

Lemma sleeps_send_and_receive (data : list byte) :
  sleeps_at_most clock (send_and_receive data) 0.
Proof. intros c. destruct Hclock as (_ & _ & _ & _ & E & _). rewrite E. lia. Qed.

Lemma sleeps_select (aid : list byte) : sleeps_at_most clock (select aid) 0.
Proof.
  intros c. destruct Hclock as (_ & _ & _ & _ & _ & E & _). rewrite E. lia.
Qed.

Lemma sleeps_do_sleep (ms : Z) :
  0 <= ms -> sleeps_at_most clock (do_sleep ms) ms.
Proof.
  intros Hms c. destruct Hclock as (_ & _ & _ & _ & _ & _ & E).
  unfold do_sleep. cbn. rewrite E. lia.
Qed.

(** Composes the rules above on a computation that never sleeps. *)
Ltac never_sleeps :=
  repeat first
    [ apply sleeps_ret
    | apply sleeps_ManagementSession_init
    | apply sleeps_read_device_info
    | apply sleeps_YubiOtpSession_init
    | apply sleeps_get_serial
    | apply sleeps_send_and_receive
    | apply sleeps_select
    | apply sleeps_try_except
    | apply sleeps_try_Exception
    | apply sleeps_bind0; [lia | | intros ?]
    | progress cbv zeta
    | match goal with
      | |- sleeps_at_most _ (match ?x with _ => _ end) _ => destruct x
      | |- sleeps_at_most _ (let '(_, _) := ?x in _) _ => destruct x
      end ].

Lemma sleeps_otp_read_data : sleeps_at_most clock _otp_read_data 0.
Proof. unfold _otp_read_data. never_sleeps. Qed.

Lemma sleeps_scan_applets (applets : list (list byte * Z)) :
  forall capabilities,
    sleeps_at_most clock (scan_applets applets capabilities) 0.
Proof.
  induction applets as [|[aid code] rest IH]; intros caps; cbn [scan_applets].
  - never_sleeps.
  - apply sleeps_bind0; [lia | never_sleeps | intros a; apply IH].
Qed.

Lemma sleeps_read_info_ccid (key_type : option YUBIKEY) (interfaces : Z) :
  sleeps_at_most clock (_read_info_ccid key_type interfaces) 0.
Proof.
  unfold _read_info_ccid, ccid_management, ccid_synthesize.
  apply sleeps_bind0; [lia | never_sleeps | intros [info|version]].
  - never_sleeps.
  - apply sleeps_bind0; [lia | |].
    + apply sleeps_try_except; [|never_sleeps].
      apply sleeps_bind0; [lia | apply sleeps_otp_read_data |].
      intros [ov os]. never_sleeps.
    + intros [[caps v] s].
      apply sleeps_bind0; [lia | apply sleeps_scan_applets | intros a].
      never_sleeps.
Qed.

Lemma sleeps_read_info_ctap (key_type : option YUBIKEY) (interfaces : Z) :
  sleeps_at_most clock (_read_info_ctap key_type interfaces) 0.
Proof. unfold _read_info_ctap. never_sleeps. Qed.

Lemma sleeps_reclaim_loop (n : nat) :
  forall i interfaces st,
    sleeps_at_most clock (reclaim_loop n i interfaces st) (500 * Z.of_nat n).
Proof.
  induction n as [|n IH]; intros i interfaces st.
  - cbn [reclaim_loop]. apply (sleeps_weaken _ 0); [lia|]. never_sleeps.
  - rewrite reclaim_loop_S.
    assert (forall st', sleeps_at_most clock
              (do_sleep 500 ≫= λ _, reclaim_loop n (S i) interfaces st')
              (500 * Z.of_nat (S n))) as Hnext.
    { intros st'. apply (sleeps_weaken _ (500 + 500 * Z.of_nat n)); [lia|].
      apply sleeps_bind; [lia | apply sleeps_do_sleep; lia | intros _; apply IH]. }
    apply sleeps_bind0; [lia | |].
    { apply sleeps_try_except; [|never_sleeps].
      apply sleeps_bind0; [lia | | intros a; never_sleeps].
      unfold acquire_otp. destruct st; never_sleeps. }
    intros [[info|otp]|]; [| |apply Hnext].
    + apply (sleeps_weaken _ 0); [lia|]. never_sleeps.
    + apply sleeps_bind0; [lia | never_sleeps |].
      intros [s|].
      * apply (sleeps_weaken _ 0); [lia|]. never_sleeps.
      * destruct (interfaces =? USB_INTERFACE.OTP); [|apply Hnext].
        apply (sleeps_weaken _ 0); [lia|]. never_sleeps.
Qed.

Lemma sleeps_read_info_otp (key_type : option YUBIKEY) (interfaces : Z) :
  sleeps_at_most clock (_read_info_otp key_type interfaces) 4000.
Proof.
  unfold _read_info_otp, otp_retry.
  apply (sleeps_weaken _ (4000 + 0)); [lia|].
  apply sleeps_bind; [lia | |].
  - apply sleeps_bind0; [lia | never_sleeps | intros st].
    apply (sleeps_reclaim_loop 8).
  - intros [info|k otp s|otp]; never_sleeps.
Qed.

End Sleep.

(** X17: on a connection whose clock only [sleep] advances, one call of
    [read_info] sleeps for at most four seconds in all, and only the OTP
    resolver sleeps at all. *)
Theorem read_info_sleeps_at_most_4s {conn : Type} `{Connection conn}
  (clock : conn -> Z) (pid : option PID) (c : conn) :
  measures_sleep clock ->
  clock c <= clock (snd (read_info pid c)) <= clock c + 4000 /\
  (connection_type c <> OtpConnection ->
   clock (snd (read_info pid c)) = clock c).
Proof.
  intros Hclock.
  assert (forall d (resolver : IO conn DeviceInfo) interfaces,
            0 <= d -> sleeps_at_most clock resolver d ->
            clock c
            <= clock (snd ((info ← resolver; mret (normalize interfaces info)) c))
            <= clock c + d) as Hres.
  { intros d resolver interfaces Hd Hr.
    apply (sleeps_weaken clock _ (d + 0)); [lia|].
    apply sleeps_bind; [lia | exact Hr | intros a; apply sleeps_ret]. }
  unfold read_info.
  destruct pid as [p|]; cbv beta iota zeta;
    destruct (connection_type c) eqn:Ht;
    (split; [|intros Hne; try congruence]);
    first
      [ rewrite bind_unfold; cbv beta iota zeta; cbn [snd]; lia
      | pose proof (Hres 0 _ (usb_interfaces p) ltac:(lia)
                      (sleeps_read_info_ccid clock Hclock
                         (Some (yubikey_type p)) (usb_interfaces p))); lia
      | pose proof (Hres 0 _ 0 ltac:(lia)
                      (sleeps_read_info_ccid clock Hclock None 0)); lia
      | pose proof (Hres 0 _ (usb_interfaces p) ltac:(lia)
                      (sleeps_read_info_ctap clock Hclock
                         (Some (yubikey_type p)) (usb_interfaces p))); lia
      | pose proof (Hres 0 _ 0 ltac:(lia)
                      (sleeps_read_info_ctap clock Hclock None 0)); lia
      | pose proof (Hres 4000 _ (usb_interfaces p) ltac:(lia)
                      (sleeps_read_info_otp clock Hclock
                         (Some (yubikey_type p)) (usb_interfaces p))); lia
      | pose proof (Hres 4000 _ 0 ltac:(lia)
                      (sleeps_read_info_otp clock Hclock None 0)); lia ].
Qed.

Lemma read_info_sleeps_at_most_4s_witness :
  clock_ms (snd (read_info (Some (PID_ALL YK4)) otp_rejecting_always))
  <= clock_ms otp_rejecting_always + 4000.
Proof.
  destruct (read_info_sleeps_at_most_4s clock_ms (Some (PID_ALL YK4))
              otp_rejecting_always) as [[_ W] _]; [|exact W].
  repeat split; intros;
    match goal with
    | c : FakeConn |- _ =>
        destruct c as [t [|? ?] [|? ?] [|? ?] [|? ?] [|? ?] [|? ?] k]
    end; reflexivity.
Defined.

(** ** The CCID driver: framing and status words *)

Lemma lor_shiftl_8 (a b : Z) :
  0 <= b < 256 -> Z.lor (Z.shiftl a 8) b = 256 * a + b.
Proof.
  intros Hb.
  assert (Z.land (Z.shiftl a 8) b = 0) as Hdisj.
  { apply Z.bits_inj'. intros i Hi. rewrite Z.land_spec, Z.bits_0.
    destruct (Z_lt_le_dec i 8) as [Hlt|Hge].
    - rewrite Z.shiftl_spec_low by lia. reflexivity.
    - destruct (Z.eq_dec b 0) as [->|Hnz];
        [rewrite Z.bits_0; apply andb_false_r|].
      rewrite (Z.bits_above_log2 b i); [apply andb_false_r | lia |].
      apply Z.log2_lt_pow2; [lia|].
      apply Z.lt_le_trans with (2 ^ 8); [lia|].
      apply Z.pow_le_mono_r; lia. }
  rewrite <- Z.lxor_lor, <- Z.add_nocarry_lxor by exact Hdisj.
  rewrite Z.shiftl_mul_pow2 by lia. lia.
Qed.

Lemma byte2int_range (b : byte) : 0 <= byte2int b < 256.
Proof.
  unfold byte2int. pose proof (Byte.to_N_bounded b) as Hb. lia.
Qed.

(** X18: [send_apdu] puts one command on the wire, the five header bytes
    with the data length in the fifth followed by the data; for status bytes
    in range the status word is 256 * sw1 + sw2, which is 0x9000 exactly for
    the pair (0x90, 0x00). *)
Theorem send_apdu_frame {card : Type} `{CardConnection card}
  (self : CCIDDriver (card := Logged card)) (cl ins p1 p2 : Z)
  (data : list byte) (resp : list Z) (sw1 sw2 : Z) (c1 : card) :
  let apdu :=
    ([cl; ins; p1; p2; Z.of_nat (length data)] ++ map byte2int data)%list in
  transmit apdu (fst (_conn self)) = ((resp, sw1, sw2), c1) ->
  0 <= sw1 < 256 -> 0 <= sw2 < 256 ->
  send_apdu self cl ins p1 p2 data
  = ((map int2byte resp, 256 * sw1 + sw2),
     mkCCIDDriver (c1, (snd (_conn self) ++ [apdu])%list) (_version self)) /\
  length apdu = (5 + length data)%nat /\
  Forall (fun x => 0 <= x < 256) (skipn 5 apdu) /\
  (256 * sw1 + sw2 = SW_OK <-> sw1 = 0x90 /\ sw2 = 0).
Proof.
  intros apdu E H1 H2. split; [|split; [|split]].
  - rewrite send_apdu_logged. cbv zeta. fold apdu. rewrite E.
    rewrite lor_shiftl_8 by exact H2. reflexivity.
  - unfold apdu. cbn [app length]. rewrite length_map. reflexivity.
  - unfold apdu. cbn [app skipn]. apply Forall_forall. intros x Hx.
    apply list_elem_of_In, in_map_iff in Hx as (b & <- & _).
    apply byte2int_range.
  - unfold SW_OK. lia.
Qed.

Lemma send_apdu_frame_witness :
  send_apdu (mkCCIDDriver ((neo_card, []) : Logged TableCard) [0; 0; 0])
    0 INS_SELECT 4 0 OTP_AID
  = ((map int2byte [3; 4; 3; 3; 3; 0; 0], SW_OK),
     mkCCIDDriver
       ((neo_card, [[0; 0xa4; 4; 0; 7; 0xa0; 0; 0; 5; 0x27; 0x20; 1]])
        : Logged TableCard) [0; 0; 0]).
Proof.
  apply (send_apdu_frame
           (mkCCIDDriver ((neo_card, []) : Logged TableCard) [0; 0; 0])
           0 INS_SELECT 4 0 OTP_AID [3; 4; 3; 3; 3; 0; 0] 0x90 0 neo_card).
  - reflexivity.
  - lia.
  - lia.
Defined.

(** ** The CCID driver: version, serial, probing, mode *)

Lemma unpack_be32_fold (bs : list byte) :
  forall acc k,
    0 <= k -> 0 <= acc < 256 ^ k ->
    0 <= fold_left (fun acc b => Z.lor (Z.shiftl acc 8) (byte2int b)) bs acc
      < 256 ^ (k + Z.of_nat (length bs)).
Proof.
  induction bs as [|b bs IH]; intros acc k Hk Hacc; cbn [fold_left length].
  - rewrite Z.add_0_r. exact Hacc.
  - rewrite lor_shiftl_8 by apply byte2int_range.
    pose proof (byte2int_range b) as Hb.
    replace (k + Z.of_nat (S (length bs))) with ((k + 1) + Z.of_nat (length bs))
      by lia.
    apply IH; [lia|].
    rewrite Z.pow_add_r by lia. change (256 ^ 1) with 256. lia.
Qed.

Lemma unpack_be32_range (bs : list byte) :
  length bs = 4%nat -> 0 <= unpack_be32 bs < 2 ^ 32.
Proof.
  intros Hlen. unfold unpack_be32.
  pose proof (unpack_be32_fold bs 0 0 ltac:(lia) ltac:(lia)) as Hf.
  rewrite Hlen in Hf. exact Hf.
Qed.

Lemma byte2int_int2byte (z : Z) : 0 <= z < 256 -> byte2int (int2byte z) = z.
Proof.
  intros Hz. unfold byte2int, int2byte.
  destruct (Byte.of_N (Z.to_N z)) as [b|] eqn:E.
  - apply Byte.to_of_N in E. lia.
  - apply Byte.of_N_None_iff in E. lia.
Qed.

Lemma bytes_of_ints (n : nat) (l : list Z) :
  Forall (fun x => 0 <= x < 256) l ->
  map byte2int (firstn n (map int2byte l)) = firstn n l.
Proof.
  intros Hl. revert n. induction Hl as [|x l Hx _ IH]; intros [|n];
    cbn [map firstn]; try reflexivity.
  rewrite byte2int_int2byte by exact Hx. f_equal. apply IH.
Qed.

Lemma unpack_be32_bytes (b0 b1 b2 b3 : Z) :
  Forall (fun x => 0 <= x < 256) [b0; b1; b2; b3] ->
  unpack_be32 (map int2byte [b0; b1; b2; b3])
  = b0 * 2 ^ 24 + b1 * 2 ^ 16 + b2 * 2 ^ 8 + b3.
Proof.
  intros Hb.
  apply Forall_cons in Hb as [H0 Hb]. apply Forall_cons in Hb as [H1 Hb].
  apply Forall_cons in Hb as [H2 Hb]. apply Forall_cons in Hb as [H3 _].
  unfold unpack_be32. cbn [map fold_left].
  rewrite !byte2int_int2byte by assumption.
  rewrite !lor_shiftl_8 by assumption. lia.
Qed.

(** X19: [_read_version] sends the SELECT of the OTP applet. When its status
    word is not 0x9000 nothing else is sent, the version is left as it was
    and no serial is assigned. When it is 0x9000 the serial request follows
    and the version becomes the first three bytes of the SELECT's answer (or
    all of them when there are fewer); a serial is assigned exactly when the
    serial request is answered with four bytes and 0x9000, and it is those
    four bytes read most significant first, a number below 2^32. *)
Theorem read_version_outcomes {card : Type} `{CardConnection card}
  (self : CCIDDriver (card := Logged card))
  (resp : list Z) (sw1 sw2 : Z) (c1 : card) :
  let apdu_select :=
    ([0; INS_SELECT; 4; 0; 7] ++ map byte2int OTP_AID)%list in
  let apdu_serial := [0; INS_YK2_REQ; SLOT_DEVICE_SERIAL; 0; 0] in
  let log := snd (_conn self) in
  transmit apdu_select (fst (_conn self)) = ((resp, sw1, sw2), c1) ->
  let '(self', _serial) := _read_version self in
  if Z.lor (Z.shiftl sw1 8) sw2 =? SW_OK
  then
    exists r s1 s2 c2,
      transmit apdu_serial c1 = ((r, s1, s2), c2) /\
      _conn self' = (c2, (log ++ [apdu_select; apdu_serial])%list) /\
      _version self' = map byte2int (firstn 3 (map int2byte resp)) /\
      (Forall (fun x => 0 <= x < 256) resp -> _version self' = firstn 3 resp) /\
      (length (_version self') <= 3)%nat /\
      Forall (fun x => 0 <= x < 256) (_version self') /\
      (forall serial,
         _serial = Some serial <->
         length r = 4%nat /\ Z.lor (Z.shiftl s1 8) s2 = SW_OK /\
         serial = unpack_be32 (map int2byte r)) /\
      (forall serial, _serial = Some serial -> 0 <= serial < 2 ^ 32) /\
      (forall b0 b1 b2 b3,
         r = [b0; b1; b2; b3] -> Forall (fun x => 0 <= x < 256) r ->
         Z.lor (Z.shiftl s1 8) s2 = SW_OK ->
         _serial = Some (b0 * 2 ^ 24 + b1 * 2 ^ 16 + b2 * 2 ^ 8 + b3))
  else
    self' = mkCCIDDriver (c1, (log ++ [apdu_select])%list) (_version self) /\
    _serial = None.
Proof.
  cbv zeta. intros E. unfold _read_version. rewrite send_apdu_logged. cbv zeta.
  change (Z.of_nat (length OTP_AID)) with 7. rewrite E.
  destruct (Z.lor (Z.shiftl sw1 8) sw2 =? SW_OK).
  - rewrite send_apdu_logged. cbv zeta. cbn [_conn _version fst snd].
    change ([0; INS_YK2_REQ; SLOT_DEVICE_SERIAL; 0; Z.of_nat (length (@nil byte))]
              ++ map byte2int [])%list
      with [0; INS_YK2_REQ; SLOT_DEVICE_SERIAL; 0; 0].
    destruct (transmit _ c1) as [[[r s1] s2] c2].
    assert ((length (map byte2int (firstn 3 (map int2byte resp))) <= 3)%nat /\
            Forall (fun x => 0 <= x < 256)
              (map byte2int (firstn 3 (map int2byte resp)))) as [Hlen Hall].
    { split.
      - rewrite length_map, length_take. lia.
      - apply Forall_forall. intros x Hx.
        apply list_elem_of_In, in_map_iff in Hx as (b & <- & _).
        apply byte2int_range. }
    rewrite length_map.
    destruct (Nat.eqb_spec (length r) 4) as [El|El];
      destruct (Z.eqb_spec (Z.lor (Z.shiftl s1 8) s2) SW_OK) as [Es|Es];
      cbn [andb fst snd _conn _version];
      exists r, s1, s2, c2; (split; [reflexivity|]);
      (split; [rewrite <- app_assoc; reflexivity|]);
      (split; [reflexivity|]);
      (split; [intros Hr; apply bytes_of_ints; exact Hr|]);
      (split; [exact Hlen|]); (split; [exact Hall|]);
      (split; [intros serial; split;
                 [intros Hs; try discriminate Hs; injection Hs as <-; auto
                 |intros (H1 & H2 & H3); try contradiction; subst serial;
                  reflexivity]|]);
      (split; [intros serial Hs; try discriminate Hs; injection Hs as <-;
               apply unpack_be32_range; rewrite length_map; exact El|]);
      intros b0 b1 b2 b3 Hr Hb Hsw; try contradiction;
      subst r; try (cbn in El; lia).
    rewrite unpack_be32_bytes by exact Hb. reflexivity.
  - cbn [fst snd _conn _version]. split; reflexivity.
Qed.

Lemma probe_applets_scan {card : Type} `{CardConnection card}
  (applets : list (list byte * Z)) :
  forall (capa0 : Z) (self0 : CCIDDriver (card := Logged card)),
    Forall (fun p => flags_subseteq (snd p) 0x3f) applets ->
    snd (_conn (snd (probe_applets applets capa0 self0)))
    = (snd (_conn self0)
       ++ map (fun p =>
                 ([0; INS_SELECT; 4; 0; Z.of_nat (length (fst p))]
                    ++ map byte2int (fst p))%list) applets)%list /\
    _version (snd (probe_applets applets capa0 self0)) = _version self0 /\
    flags_subseteq capa0 (fst (probe_applets applets capa0 self0)) /\
    (flags_subseteq capa0 0x3f ->
     flags_subseteq (fst (probe_applets applets capa0 self0)) 0x3f).
Proof.
  induction applets as [|[aid code] rest IH]; intros capa0 self0 Hcodes.
  - cbn. rewrite app_nil_r.
    repeat split; auto using flags_subseteq_refl.
  - cbn [probe_applets]. rewrite send_apdu_logged. cbv zeta.
    destruct (transmit _ (fst (_conn self0))) as [[[r sw1] sw2] c1].
    apply Forall_cons in Hcodes as [Hcode Hrest]. cbn [snd] in Hcode.
    match goal with
    | |- context [probe_applets rest ?k ?s] =>
        destruct (IH k s Hrest) as (Hlog & Hv & Hmono & Hbound)
    end.
    cbn [_conn _version fst snd] in Hlog, Hv.
    rewrite Hlog, <- app_assoc. cbn [map fst app].
    split; [reflexivity|]. split; [exact Hv|].
    destruct (Z.lor (Z.shiftl sw1 8) sw2 =? SW_OK); split.
    + apply (flags_subseteq_trans _ (Z.lor capa0 code));
        [apply flags_subseteq_lor_l | exact Hmono].
    + intros H0. apply Hbound. apply flags_subseteq_lor; assumption.
    + exact Hmono.
    + exact Hbound.
Qed.

(** X20: [probe_capabilities_support] selects every applet of the table,
    once and in table order, whatever the card answers; the result always
    has the CCID bit and no bit outside the six capabilities. *)
Theorem probe_capabilities_support_scan {card : Type} `{CardConnection card}
  (self : CCIDDriver (card := Logged card)) :
  let select_apdu (aid : list byte) :=
    ([0; INS_SELECT; 4; 0; Z.of_nat (length aid)] ++ map byte2int aid)%list in
  let capa := fst (probe_capabilities_support self) in
  let self' := snd (probe_capabilities_support self) in
  snd (_conn self')
  = (snd (_conn self) ++ map (fun p => select_apdu (fst p)) KNOWN_APPLETS)%list /\
  _version self' = _version self /\
  flag_in UTIL.CAPABILITY_CCID capa = true /\
  flags_subseteq capa 0x3f.
Proof.
  cbv zeta. unfold probe_capabilities_support.
  assert (Forall (fun p : list byte * Z => flags_subseteq (snd p) 0x3f)
            KNOWN_APPLETS) as Hcodes.
  { unfold KNOWN_APPLETS. repeat constructor; cbn [snd].
    - apply (single_bit_subseteq 0); [lia | reflexivity].
    - apply (single_bit_subseteq 1); [lia | reflexivity].
    - apply (single_bit_subseteq 1); [lia | reflexivity].
    - apply (single_bit_subseteq 4); [lia | reflexivity].
    - apply (single_bit_subseteq 3); [lia | reflexivity].
    - apply (single_bit_subseteq 5); [lia | reflexivity]. }
  destruct (probe_applets_scan KNOWN_APPLETS UTIL.CAPABILITY_CCID self Hcodes)
    as (Hlog & Hv & Hmono & Hbound).
  split; [exact Hlog|]. split; [exact Hv|]. split.
  - change UTIL.CAPABILITY_CCID with (2 ^ 2). rewrite flag_in_single_bit by lia.
    apply Hmono; [lia | reflexivity].
  - apply Hbound. apply (single_bit_subseteq 2); [lia | reflexivity].
Qed.

Lemma read_version_outcomes_witness :
  _read_version (mkCCIDDriver ((neo_card, []) : Logged TableCard) [0; 0; 0])
  = (mkCCIDDriver
       ((neo_card,
         [([0; INS_SELECT; 4; 0; 7] ++ map byte2int OTP_AID)%list;
          [0; INS_YK2_REQ; SLOT_DEVICE_SERIAL; 0; 0]]) : Logged TableCard)
       [3; 4; 3],
     Some 5000000) /\
  forall serial,
    snd (_read_version
           (mkCCIDDriver ((neo_card, []) : Logged TableCard) [0; 0; 0]))
    = Some serial ->
    0 <= serial < 2 ^ 32.
Proof.
  split; [reflexivity|].
  pose proof (read_version_outcomes
                (mkCCIDDriver ((neo_card, []) : Logged TableCard) [0; 0; 0])
                [3; 4; 3; 3; 3; 0; 0] 0x90 0 neo_card eq_refl) as W.
  destruct (_read_version _) as [self' s].
  destruct W as (r & s1 & s2 & c2 & _ & _ & _ & _ & _ & _ & _ & W & _).
  exact W.
Defined.

(** X21: [set_mode] first selects the OTP applet. When that answers 0x9000
    the management applet is never addressed: the configuration is written
    to the OTP applet with the instruction 0x01, as the second and last
    command. Otherwise the management applet is selected; when that answers
    0x9000 the configuration is written to it with the instruction 0x16, as
    the third and last command, and otherwise "Selecting applet failed!" is
    raised after the two selections, nothing having been written. After a
    write the call returns normally exactly when the write is answered with
    0x9000 and raises "Setting mode failed!" otherwise. A value that does
    not fit its field raises only after an applet has selected, in place
    of the write. At most three commands are sent and the version is left
    alone. *)
Theorem set_mode_commands {card : Type} `{CardConnection card}
  (pack_BBH : Z -> Z -> Z -> option (list byte))
  (self : CCIDDriver (card := Logged card))
  (mode_code cr_timeout autoeject_time : Z)
  (r1 : list Z) (a1 b1 : Z) (c1 : card) :
  let select_apdu (aid : list byte) :=
    ([0; INS_SELECT; 4; 0; Z.of_nat (length aid)] ++ map byte2int aid)%list in
  let write_apdu (ins : Z) (data : list byte) :=
    ([0; ins; SLOT_DEVICE_CONFIG; 0; Z.of_nat (length data)]
       ++ map byte2int data)%list in
  let log := snd (_conn self) in
  transmit (select_apdu OTP_AID) (fst (_conn self)) = ((r1, a1, b1), c1) ->
  let '(outcome, self') :=
    set_mode pack_BBH self mode_code cr_timeout autoeject_time in
  _version self' = _version self /\
  (length (snd (_conn self')) <= length log + 3)%nat /\
  if Z.lor (Z.shiftl a1 8) b1 =? SW_OK
  then
    match pack_BBH mode_code cr_timeout autoeject_time with
    | None =>
        outcome = Some StructError /\
        _conn self' = (c1, (log ++ [select_apdu OTP_AID])%list)
    | Some data =>
        exists r a b c2,
          transmit (write_apdu INS_YK2_REQ data) c1 = ((r, a, b), c2) /\
          _conn self'
          = (c2, (log ++ [select_apdu OTP_AID;
                          write_apdu INS_YK2_REQ data])%list) /\
          outcome = (if Z.lor (Z.shiftl a 8) b =? SW_OK then None
                     else Some SettingModeFailed)
    end
  else
    exists r2 a2 b2 c2,
      transmit (select_apdu MGR_AID) c1 = ((r2, a2, b2), c2) /\
      if Z.lor (Z.shiftl a2 8) b2 =? SW_OK
      then
        match pack_BBH mode_code cr_timeout autoeject_time with
        | None =>
            outcome = Some StructError /\
            _conn self'
            = (c2, (log ++ [select_apdu OTP_AID; select_apdu MGR_AID])%list)
        | Some data =>
            exists r a b c3,
              transmit (write_apdu INS_NEO_TEST data) c2 = ((r, a, b), c3) /\
              _conn self'
              = (c3, (log ++ [select_apdu OTP_AID; select_apdu MGR_AID;
                              write_apdu INS_NEO_TEST data])%list) /\
              outcome = (if Z.lor (Z.shiftl a 8) b =? SW_OK then None
                         else Some SettingModeFailed)
        end
      else
        outcome = Some SelectingAppletFailed /\
        _conn self'
        = (c2, (log ++ [select_apdu OTP_AID; select_apdu MGR_AID])%list).
Proof.
  cbv zeta. intros E. unfold set_mode. cbn [set_mode_loop].
  rewrite send_apdu_logged. cbv zeta. rewrite E.
  destruct (Z.lor (Z.shiftl a1 8) b1 =? SW_OK).
  - destruct (pack_BBH mode_code cr_timeout autoeject_time) as [data|].
    + rewrite send_apdu_logged. cbv zeta. cbn [_conn _version fst snd].
      destruct (transmit _ c1) as [[[r a] b] c2] eqn:T2.
      destruct (Z.lor (Z.shiftl a 8) b =? SW_OK) eqn:Ew;
        cbn [_conn _version snd]; (split; [reflexivity|]);
        (split; [rewrite !length_app; cbn [length]; lia|]);
        exists r, a, b, c2; (split; [first [reflexivity | exact T2]|]); rewrite Ew;
        (split; [rewrite <- app_assoc; reflexivity | reflexivity]).
    + cbn [_conn _version snd]. split; [reflexivity|].
      split; [rewrite !length_app; cbn [length]; lia|].
      split; reflexivity.
  - rewrite send_apdu_logged. cbv zeta. cbn [_conn _version fst snd].
    destruct (transmit _ c1) as [[[r2 a2] b2] c2] eqn:T2.
    destruct (Z.lor (Z.shiftl a2 8) b2 =? SW_OK) eqn:E2.
    + destruct (pack_BBH mode_code cr_timeout autoeject_time) as [data|].
      * rewrite send_apdu_logged. cbv zeta. cbn [_conn _version fst snd].
        destruct (transmit _ c2) as [[[r a] b] c3] eqn:T3.
        destruct (Z.lor (Z.shiftl a 8) b =? SW_OK) eqn:Ew;
          cbn [_conn _version snd]; (split; [reflexivity|]);
          (split; [rewrite !length_app; cbn [length]; lia|]);
          exists r2, a2, b2, c2; (split; [first [reflexivity | exact T2]|]); rewrite E2;
          exists r, a, b, c3; (split; [first [reflexivity | exact T3]|]); rewrite Ew;
          (split; [rewrite <- !app_assoc; reflexivity | reflexivity]).
      * cbn [_conn _version snd]. split; [reflexivity|].
        split; [rewrite !length_app; cbn [length]; lia|].
        exists r2, a2, b2, c2. split; [first [reflexivity | exact T2]|]. rewrite E2.
        split; [reflexivity | rewrite <- app_assoc; reflexivity].
    + cbn [_conn _version snd]. split; [reflexivity|].
      split; [rewrite !length_app; cbn [length]; lia|].
      exists r2, a2, b2, c2. split; [first [reflexivity | exact T2]|]. rewrite E2.
      split; [reflexivity | rewrite <- app_assoc; reflexivity].
Qed.

Lemma set_mode_commands_witness :
  set_mode pack_BBH_le
    (mkCCIDDriver ((neo_card, []) : Logged TableCard) [3; 4; 3]) 6 0 0
  = (Some SettingModeFailed,
     mkCCIDDriver
       ((neo_card,
         [([0; INS_SELECT; 4; 0; 7] ++ map byte2int OTP_AID)%list;
          [0; INS_YK2_REQ; SLOT_DEVICE_CONFIG; 0; 4; 6; 0; 0; 0]])
        : Logged TableCard) [3; 4; 3]) /\
  Nat.le
    (length (snd (_conn (snd (set_mode pack_BBH_le
                                (mkCCIDDriver ((neo_card, []) : Logged TableCard)
                                   [3; 4; 3]) 6 0 0)))))
    (0 + 3)%nat.
Proof.
  split; [reflexivity|].
  pose proof (set_mode_commands pack_BBH_le
                (mkCCIDDriver ((neo_card, []) : Logged TableCard) [3; 4; 3])
                6 0 0 [3; 4; 3; 3; 3; 0; 0] 0x90 0 neo_card eq_refl) as W.
  destruct (set_mode _ _ _ _ _) as [outcome self'].
  destruct W as (_ & W & _). exact W.
Defined.

Lemma transports_in_name_range (name : string) :
  0 <= transports_in_name name <= 7.
Proof.
  unfold transports_in_name, UTIL.TRANSPORT. cbn [fold_left fst snd].
  repeat case_match; lia.
Qed.

(** X22: [CCIDDriver.__init__] takes from the reader name a transport sum
    between 0 and 7 and a first guess of the version (" NEO " before " 4 ");
    the version read from the OTP applet replaces the guess whenever the
    applet selects, and the guess stands, with no serial, when it does not. *)
Theorem init_version {card : Type} `{CardConnection card}
  (class_version : list Z) (connection : card) (name : string)
  (resp : list Z) (sw1 sw2 : Z) (c1 : card) :
  transmit ([0; INS_SELECT; 4; 0; 7] ++ map byte2int OTP_AID)%list connection
  = ((resp, sw1, sw2), c1) ->
  let '(self, _mode, _serial) := __init__ class_version connection name in
  0 <= _mode <= 7 /\
  if Z.lor (Z.shiftl sw1 8) sw2 =? SW_OK
  then _version self = map byte2int (firstn 3 (map int2byte resp))
  else _serial = None /\
       _version self
       = (if PyStr.contains " NEO " name then [3; 0; 0]
          else if PyStr.contains " 4 " name then [4; 1; 0]
          else class_version).
Proof.
  intros E. unfold __init__, _read_version, send_apdu at 1.
  cbn [_conn _version]. change (Z.of_nat (length OTP_AID)) with 7.
  rewrite E.
  destruct (Z.lor (Z.shiftl sw1 8) sw2 =? SW_OK).
  - unfold send_apdu. cbn [_conn _version].
    destruct (transmit _ c1) as [[[r s1] s2] c2].
    destruct ((length (map int2byte r) =? 4)%nat
              && (Z.lor (Z.shiftl s1 8) s2 =? SW_OK));
      (split; [apply transports_in_name_range | reflexivity]).
  - split; [apply transports_in_name_range|]. split; reflexivity.
Qed.

Lemma init_version_witness :
  __init__ [0; 0; 0] neo_card "Yubico Yubikey 4 OTP+CCID 00 00"
  = (mkCCIDDriver neo_card [3; 4; 3], 5, Some 5000000) /\
  _version (fst (fst (__init__ [0; 0; 0] neo_card
                        "Yubico Yubikey 4 OTP+CCID 00 00")))
  = map byte2int (firstn 3 (map int2byte [3; 4; 3; 3; 3; 0; 0])).
Proof.
  split; [reflexivity|].
  pose proof (init_version [0; 0; 0] neo_card "Yubico Yubikey 4 OTP+CCID 00 00"
                [3; 4; 3; 3; 3; 0; 0] 0x90 0 neo_card eq_refl) as W.
  destruct (__init__ [0; 0; 0] neo_card "Yubico Yubikey 4 OTP+CCID 00 00")
    as [[self m] s].
  destruct W as [_ W]. exact W.
Defined.

(** ** The CTAP fallback and the name it leads to *)

(** X23: when the management session cannot be opened over a FIDO
    connection, whatever the error, the record is guessed without a serial
    and is named after the key-type hint it was guessed from: the
    hint's own name, except that a Security Key comes out as the first
    generation "FIDO U2F Security Key". Without a hint at naming time the
    NEO guess is still a NEO and every other guess is taken for that
    Security Key. *)
Theorem ctap_fallback_name {conn : Type} `{Connection conn}
  (pid : PID) (c c1 : conn) (e : Exception) :
  connection_type c = FidoConnection ->
  ManagementSession_init c = (Raise e, c1) ->
  exists info,
    read_info (Some pid) c = (Ok info, c1) /\
    serial info = None /\
    get_name info (Some (yubikey_type pid))
    = Ok (match yubikey_type pid with
          | SKY => "FIDO U2F Security Key"
          | k => value k
          end) /\
    get_name info None
    = Ok (match yubikey_type pid with
          | NEO => "YubiKey NEO"
          | _ => "FIDO U2F Security Key"
          end).
Proof.
  intros Ht E. eexists. split.
  - unfold read_info. rewrite Ht. cbn.
    erewrite bind_ok; [reflexivity|].
    unfold _read_info_ctap.
    erewrite try_except_caught;
      [reflexivity | apply (bind_raise _ _ _ _ _ E) | reflexivity].
  - set (raw := ctap_synthesize (Some (yubikey_type pid))).
    pose proof (normalize_usb_lookup (usb_interfaces pid) raw) as Hu.
    pose proof (normalize_adds_no_nfc (usb_interfaces pid) raw) as Hn.
    cbv zeta in Hu, Hn.
    rewrite normalize_serial. split; [reflexivity|].
    unfold get_name, get_key_type, device_name_of, has_transport.
    rewrite normalize_version, normalize_serial.
    subst raw. destruct (yubikey_type pid); cbn in Hu, Hn |- *;
      destruct Hu as [-> _];
      (destruct (supported_capabilities
                   (normalize (usb_interfaces pid) _) !! NFC) eqn:En;
       [try (destruct Hn as [x Hx]; [eexists; reflexivity | discriminate Hx])|]);
      split; reflexivity.
Qed.

Lemma ctap_fallback_name_witness :
  exists info,
    read_info (Some (PID_ALL SKY)) lost_fido
    = (Ok info, mkFake FidoConnection [] [] [] [] [] [] 0) /\
    get_name info (Some SKY) = Ok "FIDO U2F Security Key".
Proof.
  destruct (ctap_fallback_name (PID_ALL SKY) lost_fido
              (mkFake FidoConnection [] [] [] [] [] [] 0) ChannelError)
    as (info & E & _ & Hn & _).
  - reflexivity.
  - reflexivity.
  - exists info. split; [exact E | exact Hn].
Defined.

(** ** When the CCID fallback fails *)

(** X9: once the CCID resolver has fallen back, the only error it can still
    raise is one of the OTP session constructor other than
    ApplicationNotAvailable, which it passes on unchanged. Errors of the
    serial read and of the applet probes are absorbed: the serial is then
    unknown, and it is the device's answer when the read succeeds. *)
Theorem ccid_fallback_failure {conn : Type} `{Connection conn}
  (key_type : option YUBIKEY) (interfaces : Z) (c c1 : conn)
  (version : option Version) :
  ccid_management c = (Ok (inr version), c1) ->
  match YubiOtpSession_init c1 with
  | (Raise e, c2) =>
      if decide (e = ApplicationNotAvailableError)
      then exists info c',
             _read_info_ccid key_type interfaces c = (Ok info, c') /\
             serial info = None
      else _read_info_ccid key_type interfaces c = (Raise e, c2)
  | (Ok otp, c2) =>
      exists info c',
        _read_info_ccid key_type interfaces c = (Ok info, c') /\
        serial info = match get_serial otp c2 with
                      | (Ok s, _) => Some s
                      | (Raise _, _) => None
                      end
  end.
Proof.
  intros Hm.
  assert (_read_info_ccid key_type interfaces c
          = ccid_synthesize interfaces version c1) as ->.
  { unfold _read_info_ccid. rewrite (bind_ok _ _ _ _ _ Hm). reflexivity. }
  pose proof (otp_read_data_outcomes c1) as Hd.
  assert (forall caps v s c3,
            exists info c',
              (scan_applets SCAN_APPLETS caps ≫= λ capabilities,
                 mret (synthesized s v UNKNOWN
                         (<[ NFC := if flag_in USB_INTERFACE.FIDO interfaces
                                       || version_geb v (V 3 3 0)
                                    then Z.lor capabilities CAPABILITY.U2F
                                    else capabilities ]>
                            {[ USB := if flag_in USB_INTERFACE.FIDO interfaces
                                         || version_geb v (V 3 3 0)
                                      then Z.lor capabilities CAPABILITY.U2F
                                      else capabilities ]}))) c3
              = (Ok info, c') /\ serial info = s) as Hscan.
  { intros caps v s c3.
    destruct (scan_applets_total SCAN_APPLETS caps c3) as (caps' & c' & Es).
    rewrite (bind_ok _ _ _ _ _ Es). eexists _, _. split; reflexivity. }
  destruct (YubiOtpSession_init c1) as [[otp|e] c2].
  - unfold ccid_synthesize. rewrite bind_unfold. unfold try_except.
    rewrite bind_unfold.
    destruct (get_serial otp c2) as [[s|e] c3]; rewrite Hd;
      cbn -[scan_applets SCAN_APPLETS]; apply Hscan.
  - destruct (decide (e = ApplicationNotAvailableError)) as [->|Hne];
      unfold ccid_synthesize; rewrite bind_unfold; unfold try_except;
      rewrite bind_unfold, Hd.
    + cbn -[scan_applets SCAN_APPLETS]. apply Hscan.
    + rewrite (except_other _ _ _ Hne). reflexivity.
Qed.

Lemma ccid_fallback_failure_witness :
  exists info c',
    _read_info_ccid (Some NEO) 7 neo_ccid = (Ok info, c') /\
    serial info = Some 1234567.
Proof.
  exact (ccid_fallback_failure (Some NEO) 7 neo_ccid
           (snd (ccid_management neo_ccid)) None eq_refl).
Defined.

(** ** Probing in another order *)

Lemma probe_applets_by_command {card : Type} `{CardConnection card}
  (answers : list Z -> list Z * Z * Z) :
  (forall apdu c, fst (transmit apdu c) = answers apdu) ->
  forall (applets : list (list byte * Z)) (capa0 : Z) (self : CCIDDriver) i,
    0 <= i ->
    Z.testbit (fst (probe_applets applets capa0 self)) i
    = Z.testbit capa0 i
      || existsb
           (fun p =>
              (let '(_, sw1, sw2) :=
                 answers ([0; INS_SELECT; 4; 0; Z.of_nat (length (fst p))]
                            ++ map byte2int (fst p))%list in
               Z.lor (Z.shiftl sw1 8) sw2 =? SW_OK)
              && Z.testbit (snd p) i) applets.
Proof.
  intros Hans applets.
  induction applets as [|[aid code] rest IH]; intros capa0 self i Hi.
  - cbn. rewrite orb_false_r. reflexivity.
  - cbn [probe_applets existsb fst snd]. unfold send_apdu at 1.
    specialize (Hans ([0; INS_SELECT; 4; 0; Z.of_nat (length aid)]
                        ++ map byte2int aid)%list (_conn self)).
    destruct (transmit _ (_conn self)) as [[[r sw1] sw2] c1].
    cbn [fst] in Hans. rewrite <- Hans.
    rewrite (IH _ _ i Hi).
    destruct (Z.lor (Z.shiftl sw1 8) sw2 =? SW_OK); cbn [andb orb].
    + rewrite Z.lor_spec. symmetry. apply orb_assoc.
    + reflexivity.
Qed.

(** X24: when the card's answer depends on the command alone, the
    capabilities found by probing do not depend on the order in which the
    applets are probed; they always include what the probe started with. *)
Theorem probe_applets_order_independent {card : Type} `{CardConnection card}
  (answers : list Z -> list Z * Z * Z) (l1 l2 : list (list byte * Z))
  (capa0 : Z) (self : CCIDDriver) :
  (forall apdu c, fst (transmit apdu c) = answers apdu) ->
  Permutation l1 l2 ->
  fst (probe_applets l1 capa0 self) = fst (probe_applets l2 capa0 self) /\
  flags_subseteq capa0 (fst (probe_applets l1 capa0 self)).
Proof.
  intros Hans Hperm. split.
  - apply Z.bits_inj'. intros i Hi.
    rewrite !(probe_applets_by_command answers Hans _ _ _ i Hi).
    f_equal. apply existsb_Permutation. exact Hperm.
  - intros i Hi Hb.
    rewrite (probe_applets_by_command answers Hans _ _ _ i Hi), Hb.
    reflexivity.
Qed.

Lemma probe_applets_order_independent_witness :
  fst (@probe_applets unit (table_card neo_card) KNOWN_APPLETS
         UTIL.CAPABILITY_CCID (mkCCIDDriver tt [3; 4; 3]))
  = fst (@probe_applets unit (table_card neo_card) (rev KNOWN_APPLETS)
           UTIL.CAPABILITY_CCID (mkCCIDDriver tt [3; 4; 3])).
Proof.
  apply (@probe_applets_order_independent unit (table_card neo_card) neo_card).
  - intros apdu c. reflexivity.
  - apply Permutation_rev.
Defined.
